(** * Organization management service: a shallow embedding of [main.py]

    The service keeps a master registry of organizations, one admin
    record per organization and one dynamically named collection
    (partition) per organization.  The embedding below follows the
    handlers of [main.py] statement by statement over an explicit store;
    the storage driver, the password hasher and the token library are
    modelled at the level of the calls the handlers make, and the
    built-ins of the language whose result depends on the Unicode tables
    are parameters. *)

From stdpp Require Import gmap strings list fin_maps.
From Stdlib Require Import ZArith Ascii String Lia.

Local Open Scope string_scope.
Local Open Scope list_scope.
Local Open Scope Z_scope.

(** ** Python strings

    A [str] is represented by its UTF-8 bytes.  Equality, concatenation
    and the replacement of an ASCII character by another act on the bytes
    exactly as they act on the code points, because the bytes of an ASCII
    character occur in no other character's encoding.  What depends on
    the Unicode tables ([str.lower], [len], [int]) is not computed here:
    it is a field of [PyRuntime] below. *)

Module PyStr.

(** Lower-casing of the letters [A]..[Z], every other byte kept: what
    [str.lower] does on a string of ASCII characters.  It serves the
    runtime that the concrete examples are evaluated with. *)
Definition ascii_lower_char (c : ascii) : ascii :=
  let n := nat_of_ascii c in
  if ((65 <=? n)%nat && (n <=? 90)%nat)%bool then ascii_of_nat (n + 32) else c.

Fixpoint ascii_lower (s : string) : string :=
  match s with
  | EmptyString => EmptyString
  | String c t => String (ascii_lower_char c) (ascii_lower t)
  end.

(** [s.replace("", new)]: [new] goes before every character and at the end. *)
Fixpoint replace_empty (new s : string) : string :=
  match s with
  | EmptyString => new
  | String c t => new +:+ String c (replace_empty new t)
  end.

(** Left-to-right scan of [s.replace(old, new)] for a non-empty [old]:
    [skip] counts the characters of the last match still to be passed
    over, so that matches never overlap. *)
Fixpoint replace_scan (old new : string) (skip : nat) (s : string) : string :=
  match s with
  | EmptyString => EmptyString
  | String c t =>
      match skip with
      | S k => replace_scan old new k t
      | O =>
          if String.prefix old s
          then new +:+ replace_scan old new (String.length old - 1) t
          else String c (replace_scan old new 0 t)
      end
  end.

(** [s.replace(old, new)] *)
Definition replace (old new s : string) : string :=
  match old with
  | EmptyString => replace_empty new s
  | String _ _ => replace_scan old new 0 s
  end.

(** Character-wise map, used to state what the replacements amount to. *)
Fixpoint map_chars (f : ascii -> ascii) (s : string) : string :=
  match s with
  | EmptyString => EmptyString
  | String c t => String (f c) (map_chars f t)
  end.

End PyStr.

(** The built-ins of the language that the service relies on and that
    are not computed by the embedding. *)
Record PyRuntime : Type := mkPyRuntime {
  str_lower : string -> string;      (* [s.lower()] *)
  str_len : string -> nat;           (* [len(s)], in code points *)
  int_of_str : string -> option Z;   (* [int(s)]; [None] when it raises [ValueError] *)
  int_of_oid : nat -> option Z       (* [int(str(oid))] for the identifier numbered [oid] *)
}.

(** [sanitize_collection_name]:
    [f"org_{name.lower().replace(' ', '_').replace('-', '_')}"] *)
Definition sanitize_collection_name (py : PyRuntime) (name : string) : string :=
  "org_" +:+ PyStr.replace "-" "_" (PyStr.replace " " "_" (str_lower py name)).

(** The naming rule in the words of the specification: lower-case the
    name, turn each space and each hyphen into an underscore, and put
    the fixed tag in front. *)
Definition underscore_char (c : ascii) : ascii :=
  if (Ascii.eqb c " " || Ascii.eqb c "-")%bool then "_"%char else c.

Definition partition_name_rule (py : PyRuntime) (name : string) : string :=
  "org_" +:+ PyStr.map_chars underscore_char (str_lower py name).

(** ** Data model *)

(** Field values of stored documents and of token claims.  [VDate] is a
    [datetime] counted in whole seconds since the epoch, [VId] the text
    form [str(ObjectId)] of a driver-generated identifier. *)
Inductive Value : Type :=
| VStr (s : string)
| VInt (z : Z)
| VBool (b : bool)
| VDate (t : Z)
| VId (n : nat)
| VNull.

(** [isinstance(v, str)] *)
Definition is_str (v : Value) : bool :=
  match v with
  | VStr _ | VId _ => true
  | _ => false
  end.

(** The three ways [int(v)] can end. *)
Inductive IntResult : Type :=
| IntOk (z : Z)
| IntValueError
| IntTypeError.

(** [int(v)]: a number is taken as it is, a boolean as 0 or 1, text is
    parsed, and anything else is a [TypeError]. *)
Definition py_int (py : PyRuntime) (v : Value) : IntResult :=
  match v with
  | VInt z => IntOk z
  | VBool b => IntOk (if b then 1 else 0)
  | VStr s =>
      match int_of_str py s with Some z => IntOk z | None => IntValueError end
  | VId n =>
      match int_of_oid py n with Some z => IntOk z | None => IntValueError end
  | VDate _ | VNull => IntTypeError
  end.

(** A record of an organization's own collection: opaque to the service. *)
Record Document : Type := mkDocument {
  doc_id : nat;
  doc_fields : list (string * Value)
}.

(** A document of [master_db["organizations"]]. *)
Record Organization : Type := mkOrganization {
  o_id : nat;
  o_organization_name : string;
  o_collection_name : string;
  o_created_at : Z;
  o_updated_at : Z;
  o_status : string
}.

(** A document of [master_db["admins"]]. *)
Record Admin : Type := mkAdmin {
  a_id : nat;
  a_email : string;
  a_password : string;
  a_organization_id : nat;
  a_organization_name : string;
  a_role : string;
  a_created_at : Z
}.

(** The database: the two master collections, the dynamically named
    collections (an absent key is a collection that does not exist) and
    the source of fresh [ObjectId]s. *)
Record Store : Type := mkStore {
  organizations_collection : list Organization;
  admins_collection : list Admin;
  master_db : gmap string (list Document);
  next_oid : nat
}.

Definition empty_store : Store :=
  {| organizations_collection := []; admins_collection := [];
     master_db := ∅; next_oid := 0 |}.

(** ** Outcomes and the handler monad *)

(** Exceptions other than [HTTPException] that a handler can let escape. *)
Inductive PyExn : Type :=
| TypeError            (* subscripting [None]; [int()] of a value it cannot take *)
| DuplicateKeyError    (* unique index violated on a single write *)
| BulkWriteError       (* [insert_many] hit a duplicate [_id] *)
| PyMongoError         (* the store failed to carry out a write *)
| PasswordValueError   (* the hasher refused the password *)
| InvalidName.         (* the driver refused a collection name *)

Inductive Outcome (A : Type) : Type :=
| Return (a : A)
| HTTPException (status_code : nat) (detail : string)
| Raise (e : PyExn).
Arguments Return {A} a.
Arguments HTTPException {A} status_code detail.
Arguments Raise {A} e.

Definition M (A : Type) : Type := Store -> Outcome A * Store.

Definition ret {A} (a : A) : M A := fun s => (Return a, s).

Definition bind {A B} (m : M A) (k : A -> M B) : M B :=
  fun s =>
    match m s with
    | (Return a, s') => k a s'
    | (HTTPException c d, s') => (HTTPException c d, s')
    | (Raise e, s') => (Raise e, s')
    end.

Definition raise_http {A} (status_code : nat) (detail : string) : M A :=
  fun s => (HTTPException status_code detail, s).

Definition raise_exn {A} (e : PyExn) : M A := fun s => (Raise e, s).

Definition gets {A} (f : Store -> A) : M A := fun s => (Return (f s), s).

Definition modify (f : Store -> Store) : M unit := fun s => (Return tt, f s).

Notation "'do' x <- m ; k" := (bind m (fun x => k))
  (at level 10, x name, m at level 100, k at level 200, only parsing).
Notation "'do_' m ; k" := (bind m (fun _ => k))
  (at level 10, m at level 100, k at level 200, only parsing).

Definition HTTP_400_BAD_REQUEST : nat := 400.
Definition HTTP_401_UNAUTHORIZED : nat := 401.
Definition HTTP_403_FORBIDDEN : nat := 403.
Definition HTTP_404_NOT_FOUND : nat := 404.

(** ** Store primitives *)

(** The write calls of the handlers.  A fault plan says which of them
    the store fails to carry out; a failed write raises and leaves the
    store as it was. *)
Inductive WriteSite : Type :=
| W_organizations_insert_one
| W_admins_insert_one
| W_collection_insert_one
| W_collection_insert_many
| W_organizations_update_one
| W_admins_update_one
| W_collection_drop
| W_organizations_delete_one
| W_admins_delete_many.

Definition Faults : Type := WriteSite -> bool.

Definition no_faults : Faults := fun _ => false.

#[global] Instance WriteSite_eq_dec : EqDecision WriteSite.
Proof. solve_decision. Defined.

(** The plan that fails exactly the write [w]. *)
Definition fault_at (w : WriteSite) : Faults := fun w' => bool_decide (w' = w).

Definition attempt (faults : Faults) (w : WriteSite) : M unit :=
  if faults w then raise_exn PyMongoError else ret tt.

Definition org_named (name : string) (o : Organization) : bool :=
  String.eqb (o_organization_name o) name.

Definition admin_with_email (email : string) (a : Admin) : bool :=
  String.eqb (a_email a) email.

Definition admin_of_org (name : string) (a : Admin) : bool :=
  String.eqb (a_organization_name a) name.

(** [organizations_collection.find_one({"organization_name": name})] *)
Definition organizations_find_one (name : string) : M (option Organization) :=
  gets (fun s => List.find (org_named name) (organizations_collection s)).

(** [admins_collection.find_one({"email": email})] *)
Definition admins_find_one (email : string) : M (option Admin) :=
  gets (fun s => List.find (admin_with_email email) (admins_collection s)).

(** Applies [f] to the first element satisfying [p]: the document an
    [update_one] touches. *)
Fixpoint update_first {A} (p : A -> bool) (f : A -> A) (l : list A) : list A :=
  match l with
  | [] => []
  | x :: t => if p x then f x :: t else x :: update_first p f t
  end.

(** Removes the first element satisfying [p]: [delete_one]. *)
Fixpoint remove_first {A} (p : A -> bool) (l : list A) : list A :=
  match l with
  | [] => []
  | x :: t => if p x then t else x :: remove_first p t
  end.

Definition is_some {A} (o : option A) : bool :=
  match o with Some _ => true | None => false end.

(** [organizations_collection.insert_one(org_document)]: the unique
    index on [organization_name] rejects a second document of that
    name; the driver gives the document a fresh [_id]. *)
Definition organizations_insert_one (faults : Faults)
    (name collection : string) (created updated : Z) (status : string) : M nat :=
  do_ attempt faults W_organizations_insert_one;
  do taken <- gets (fun s => is_some (List.find (org_named name) (organizations_collection s)));
  if taken : bool then raise_exn DuplicateKeyError else
  do oid <- gets next_oid;
  do_ modify (fun s =>
    {| organizations_collection :=
         organizations_collection s ++
           [mkOrganization oid name collection created updated status];
       admins_collection := admins_collection s;
       master_db := master_db s;
       next_oid := S oid |});
  ret oid.

(** [admins_collection.insert_one(admin_document)], unique on [email]. *)
Definition admins_insert_one (faults : Faults)
    (email password : string) (organization_id : nat)
    (organization_name role : string) (created : Z) : M nat :=
  do_ attempt faults W_admins_insert_one;
  do taken <- gets (fun s => is_some (List.find (admin_with_email email) (admins_collection s)));
  if taken : bool then raise_exn DuplicateKeyError else
  do oid <- gets next_oid;
  do_ modify (fun s =>
    {| organizations_collection := organizations_collection s;
       admins_collection :=
         admins_collection s ++
           [mkAdmin oid email password organization_id organization_name role created];
       master_db := master_db s;
       next_oid := S oid |});
  ret oid.

(** The driver's check of a collection name, made when the collection
    object is built ([Collection.__init__]): the name is not empty and
    holds no two dots in a row; it holds no dollar sign, unless it
    starts with ["oplog.$main"] or ["$cmd"]; it neither starts nor ends
    with a dot; it holds no NUL character.  The characters looked for
    are ASCII, so looking for them in the UTF-8 bytes finds them where
    they are in the text. *)
Fixpoint contains (sub s : string) : bool :=
  (String.prefix sub s ||
   match s with
   | EmptyString => false
   | String _ t => contains sub t
   end)%bool.

Fixpoint last_char (s : string) : option ascii :=
  match s with
  | EmptyString => None
  | String c EmptyString => Some c
  | String _ t => last_char t
  end.

Definition valid_collection_name (name : string) : bool :=
  match name with
  | EmptyString => false
  | String first _ =>
      (negb (contains ".." name)
       && negb (contains "$" name
                && negb (String.prefix "oplog.$main" name
                         || String.prefix "$cmd" name))
       && negb (Ascii.eqb first "."
                || match last_char name with
                   | Some last => Ascii.eqb last "."
                   | None => false
                   end)
       && negb (contains (String zero "") name))%bool
  end.

(** [master_db[name]]: building the collection object raises on a name
    the driver does not accept; nothing is sent to the store. *)
Definition master_db_getitem (name : string) : M unit :=
  if valid_collection_name name then ret tt else raise_exn InvalidName.

(** The documents of [master_db[name]]; none when it does not exist. *)
Definition collection_docs (db : gmap string (list Document)) (name : string)
    : list Document :=
  default [] (db !! name).

(** [master_db[name].find().to_list(length=None)] *)
Definition collection_find_all (name : string) : M (list Document) :=
  gets (fun s => collection_docs (master_db s) name).

Definition set_master_db (db : gmap string (list Document)) (s : Store) : Store :=
  {| organizations_collection := organizations_collection s;
     admins_collection := admins_collection s;
     master_db := db;
     next_oid := next_oid s |}.

(** [master_db[name].insert_one(fields)]: creates the collection when
    it is absent. *)
Definition collection_insert_one (faults : Faults) (name : string)
    (fields : list (string * Value)) : M nat :=
  do_ attempt faults W_collection_insert_one;
  do oid <- gets next_oid;
  do_ modify (fun s =>
    {| organizations_collection := organizations_collection s;
       admins_collection := admins_collection s;
       master_db :=
         <[name := collection_docs (master_db s) name ++ [mkDocument oid fields]]>
           (master_db s);
       next_oid := S oid |});
  ret oid.

Definition has_id (i : nat) (d : Document) : bool := Nat.eqb (doc_id d) i.

(** Ordered bulk insert of documents that carry their [_id]: every
    document before the first one whose [_id] is already present is
    written; the flag tells whether all of them were. *)
Fixpoint insert_ordered (present docs : list Document) : list Document * bool :=
  match docs with
  | [] => (present, true)
  | d :: rest =>
      if existsb (has_id (doc_id d)) present then (present, false)
      else insert_ordered (present ++ [d]) rest
  end.

(** [master_db[name].insert_many(documents)] for a non-empty list. *)
Definition collection_insert_many (faults : Faults) (name : string)
    (documents : list Document) : M unit :=
  do_ attempt faults W_collection_insert_many;
  do present <- gets (fun s => collection_docs (master_db s) name);
  let '(written, complete) := insert_ordered present documents in
  do_ modify (fun s => set_master_db (<[name := written]> (master_db s)) s);
  if complete : bool then ret tt else raise_exn BulkWriteError.

(** [master_db[name].drop()]; dropping an absent collection is not an error. *)
Definition collection_drop (faults : Faults) (name : string) : M unit :=
  do_ attempt faults W_collection_drop;
  modify (fun s => set_master_db (delete name (master_db s)) s).

Definition set_organizations (orgs : list Organization) (s : Store) : Store :=
  {| organizations_collection := orgs;
     admins_collection := admins_collection s;
     master_db := master_db s;
     next_oid := next_oid s |}.

Definition set_admins (admins : list Admin) (s : Store) : Store :=
  {| organizations_collection := organizations_collection s;
     admins_collection := admins;
     master_db := master_db s;
     next_oid := next_oid s |}.

(** The [$set] of the rename on an organization document. *)
Definition rename_org (new_name new_collection : string) (updated : Z)
    (o : Organization) : Organization :=
  {| o_id := o_id o;
     o_organization_name := new_name;
     o_collection_name := new_collection;
     o_created_at := o_created_at o;
     o_updated_at := updated;
     o_status := o_status o |}.

(** The [$set] of the rename on an admin document. *)
Definition set_admin_org_name (new_name : string) (a : Admin) : Admin :=
  {| a_id := a_id a;
     a_email := a_email a;
     a_password := a_password a;
     a_organization_id := a_organization_id a;
     a_organization_name := new_name;
     a_role := a_role a;
     a_created_at := a_created_at a |}.

(** [organizations_collection.update_one({"organization_name": name},
    {"$set": {...}})]: the first document of that name is changed,
    unless the unique index finds the new name on another document. *)
Definition organizations_update_one (faults : Faults)
    (name new_name new_collection : string) (updated : Z) : M unit :=
  do_ attempt faults W_organizations_update_one;
  do orgs <- gets organizations_collection;
  match List.find (org_named name) orgs with
  | None => ret tt
  | Some _ =>
      if (negb (String.eqb new_name name)
          && is_some (List.find (org_named new_name) orgs))%bool
      then raise_exn DuplicateKeyError
      else modify (set_organizations
                     (update_first (org_named name)
                        (rename_org new_name new_collection updated) orgs))
  end.

(** [admins_collection.update_one({"email": email},
    {"$set": {"organization_name": new_name}})] *)
Definition admins_update_one (faults : Faults) (email new_name : string) : M unit :=
  do_ attempt faults W_admins_update_one;
  modify (fun s =>
    set_admins (update_first (admin_with_email email)
                  (set_admin_org_name new_name) (admins_collection s)) s).

(** [organizations_collection.delete_one({"organization_name": name})] *)
Definition organizations_delete_one (faults : Faults) (name : string) : M unit :=
  do_ attempt faults W_organizations_delete_one;
  modify (fun s =>
    set_organizations (remove_first (org_named name) (organizations_collection s)) s).

(** [admins_collection.delete_many({"organization_name": name})] *)
Definition admins_delete_many (faults : Faults) (name : string) : M unit :=
  do_ attempt faults W_admins_delete_many;
  modify (fun s =>
    set_admins (List.filter (fun a => negb (admin_of_org name a)) (admins_collection s)) s).

(** ** Credential service *)

(** [pwd_context]: the password hasher, an external collaborator.
    Both calls can raise instead of returning (the bcrypt handler does
    on a password that holds a NUL character): [None] is that case. *)
Record CryptContext : Type := mkCryptContext {
  hash : string -> option string;
  verify : string -> string -> option bool
}.

Definition SECRET_KEY : string := "anylongstring".
Definition ALGORITHM : string := "HS256".
Definition ACCESS_TOKEN_EXPIRE_MINUTES : Z := 30.

(** [timedelta(minutes=m)], in seconds. *)
Definition timedelta_minutes (m : Z) : Z := m * 60.

(** A bearer token as the service sees it: either text that is not a
    token at all, or claims signed with some key under some algorithm.
    Signatures are symbolic: a token verifies under a key exactly when
    it was signed with that key. *)
Inductive Token : Type :=
| Garbage (raw : string)
| Signed (key alg : string) (claims : gmap string Value).

(** The library stores a [datetime] given for a time claim as its
    integer timestamp. *)
Definition timestamp_claim (v : Value) : Value :=
  match v with VDate t => VInt t | _ => v end.

(** What [json.dumps] can write: everything but a [datetime]. *)
Definition json_serializable (v : Value) : bool :=
  match v with
  | VDate _ => false
  | _ => true
  end.

(** Claims that [jwt.encode] can take: outside the three time claims
    every value is one that [json.dumps] can write.  On other claims
    the library raises instead of returning a token. *)
Definition encodable (claims : gmap string Value) : Prop :=
  forall k v,
    claims !! k = Some v -> k <> "exp" -> k <> "iat" -> k <> "nbf" ->
    json_serializable v = true.

(** [jwt.encode(claims, key, algorithm=alg)], for claims that are
    [encodable]. *)
Definition jwt_encode (claims : gmap string Value) (key alg : string) : Token :=
  Signed key alg
    (alter timestamp_claim "nbf"
       (alter timestamp_claim "iat"
          (alter timestamp_claim "exp" claims))).

(** How [jwt.decode] ends: with the claims, with one of the library's
    two errors ([ExpiredSignatureError] is a [JWTError] of its own
    kind), or with the [TypeError] of an [int()] that the library does
    not catch. *)
Inductive Decoded : Type :=
| Payload (claims : gmap string Value)
| ExpiredSignatureError
| JWTError
| UncaughtTypeError.

(** The library's claim checks, each on a claim that is present; [None]
    is a check that passes.  The time claims go through [int()], whose
    [ValueError] the library turns into a [JWTError]. *)
Definition int_claim (py : PyRuntime) (claims : gmap string Value) (k : string)
    (check : Z -> option Decoded) : option Decoded :=
  match claims !! k with
  | None => None
  | Some v =>
      match py_int py v with
      | IntOk z => check z
      | IntValueError => Some JWTError
      | IntTypeError => Some UncaughtTypeError
      end
  end.

(** [_validate_iat]: the claim must be a number. *)
Definition validate_iat (py : PyRuntime) (claims : gmap string Value)
    : option Decoded :=
  int_claim py claims "iat" (fun _ => None).

(** [_validate_nbf], reading the clock at [now]: [nbf > now] is not yet
    valid. *)
Definition validate_nbf (py : PyRuntime) (now : Z) (claims : gmap string Value)
    : option Decoded :=
  int_claim py claims "nbf" (fun nbf => if now <? nbf then Some JWTError else None).

(** [_validate_exp], reading the clock at [now]: [exp < now] is expired. *)
Definition validate_exp (py : PyRuntime) (now : Z) (claims : gmap string Value)
    : option Decoded :=
  int_claim py claims "exp"
    (fun exp => if exp <? now then Some ExpiredSignatureError else None).

(** [_validate_aud] with [audience=None]: whatever its form, an audience
    claim is never the expected one. *)
Definition validate_aud (claims : gmap string Value) : option Decoded :=
  match claims !! "aud" with
  | None => None
  | Some _ => Some JWTError
  end.

(** [_validate_sub], [_validate_jti]: the claim must be text. *)
Definition str_claim (claims : gmap string Value) (k : string) : option Decoded :=
  match claims !! k with
  | None => None
  | Some v => if is_str v then None else Some JWTError
  end.

Definition validate_sub (claims : gmap string Value) : option Decoded :=
  str_claim claims "sub".

Definition validate_jti (claims : gmap string Value) : option Decoded :=
  str_claim claims "jti".

(** [_validate_at_hash] with [access_token=None]: there is nothing to
    compare the claim with. *)
Definition validate_at_hash (claims : gmap string Value) : option Decoded :=
  match claims !! "at_hash" with
  | None => None
  | Some _ => Some JWTError
  end.

(** The first check that does not pass decides. *)
Fixpoint first_failure (checks : list (option Decoded))
    (claims : gmap string Value) : Decoded :=
  match checks with
  | [] => Payload claims
  | Some failure :: _ => failure
  | None :: rest => first_failure rest claims
  end.

(** [_validate_claims] with the default options, no audience, issuer,
    subject or access token: the checks in the library's order.  The
    clock is read once for [nbf] and once more for [exp]. *)
Definition validate_claims (py : PyRuntime) (now_nbf now_exp : Z)
    (claims : gmap string Value) : Decoded :=
  first_failure
    [validate_iat py claims;
     validate_nbf py now_nbf claims;
     validate_exp py now_exp claims;
     validate_aud claims;
     validate_sub claims;
     validate_jti claims;
     validate_at_hash claims]
    claims.

(** [jwt.decode(token, key, algorithms=algs)]: the signature first,
    then the claims. *)
Definition jwt_decode (py : PyRuntime) (token : Token) (key : string)
    (algs : list string) (now_nbf now_exp : Z) : Decoded :=
  match token with
  | Garbage _ => JWTError
  | Signed k a claims =>
      if (String.eqb k key && existsb (String.eqb a) algs)%bool
      then validate_claims py now_nbf now_exp claims
      else JWTError
  end.

(** [payload.get(k)]: [None] for an absent key and for a stored null. *)
Definition payload_get (payload : gmap string Value) (k : string) : option Value :=
  match payload !! k with
  | Some VNull => None
  | o => o
  end.

(** The range of [datetime], in seconds since the epoch: from
    0001-01-01T00:00:00 to 9999-12-31T23:59:59.  An addition that leaves
    it raises [OverflowError]. *)
Definition datetime_min : Z := -62135596800.
Definition datetime_max : Z := 253402300799.

Definition representable (t : Z) : Prop := datetime_min <= t <= datetime_max.

(** [if expires_delta:] on an [Optional[timedelta]]: [None] and the
    zero duration are both false. *)
Definition timedelta_truthy (expires_delta : option Z) : bool :=
  match expires_delta with
  | Some d => negb (d =? 0)
  | None => false
  end.

(** [create_access_token(data, expires_delta)] called at time [now],
    for [data] that is [encodable] and an expiry that is
    [representable]. *)
Definition create_access_token (now : Z) (data : gmap string Value)
    (expires_delta : option Z) : Token :=
  let to_encode := data in
  let expire :=
    if timedelta_truthy expires_delta
    then now + default 0 expires_delta
    else now + timedelta_minutes 15 in
  let to_encode := <["exp" := VDate expire]> to_encode in
  jwt_encode to_encode SECRET_KEY ALGORITHM.

(** What [get_current_admin] hands to the handler:
    [{"email": email, "org_id": org_id}]. *)
Record CurrentAdmin : Type := mkCurrentAdmin {
  ca_email : Value;
  ca_org_id : Value
}.

(** [get_current_admin(credentials)]; [now_nbf] and [now] are the two
    readings of the clock that decoding makes, for [nbf] and for [exp].
    Neither [except] clause catches a [TypeError]. *)
Definition get_current_admin (py : PyRuntime) (now_nbf now : Z) (token : Token)
    : Outcome CurrentAdmin :=
  match jwt_decode py token SECRET_KEY [ALGORITHM] now_nbf now with
  | Payload payload =>
      match payload_get payload "sub", payload_get payload "org_id" with
      | Some email, Some org_id => Return (mkCurrentAdmin email org_id)
      | _, _ =>
          HTTPException HTTP_401_UNAUTHORIZED "Invalid authentication credentials"
      end
  | ExpiredSignatureError =>
      HTTPException HTTP_401_UNAUTHORIZED "Token has expired"
  | JWTError =>
      HTTPException HTTP_401_UNAUTHORIZED "Could not validate credentials"
  | UncaughtTypeError => Raise TypeError
  end.

(** ** Request models *)

Record OrganizationCreate : Type := mkOrganizationCreate {
  oc_organization_name : string;
  oc_email : string;
  oc_password : string
}.

Record OrganizationUpdate : Type := mkOrganizationUpdate {
  ou_organization_name : string;
  ou_new_organization_name : string;
  ou_email : string;
  ou_password : string
}.

Record OrganizationDelete : Type := mkOrganizationDelete {
  od_organization_name : string
}.

Record AdminLogin : Type := mkAdminLogin {
  al_email : string;
  al_password : string
}.

(** The [Token] response model of the login route. *)
Record TokenResponse : Type := mkTokenResponse {
  access_token : Token;
  token_type : string
}.

(** The length constraints of [OrganizationCreate]
    ([min_length=3, max_length=50] on the name, [min_length=8] on the
    password); the handler runs only on requests that satisfy them. *)
Definition valid_OrganizationCreate (py : PyRuntime)
    (org_data : OrganizationCreate) : bool :=
  ((3 <=? str_len py (oc_organization_name org_data))%nat
   && (str_len py (oc_organization_name org_data) <=? 50)%nat
   && (8 <=? str_len py (oc_password org_data))%nat)%bool.

(** The four readings of [datetime.utcnow()] that one call of
    [create_organization] makes, in program order. *)
Record CreateClock : Type := mkCreateClock {
  org_created_at : Z;
  org_updated_at : Z;
  admin_created_at : Z;
  marker_created_at : Z
}.

(** ** Handlers *)

Section Handlers.

Variable py : PyRuntime.
Variable pwd_context : CryptContext.

Definition hash_password (password : string) : M string :=
  match hash pwd_context password with
  | Some hashed => ret hashed
  | None => raise_exn PasswordValueError
  end.

Definition verify_password (plain_password hashed_password : string) : M bool :=
  match verify pwd_context plain_password hashed_password with
  | Some verdict => ret verdict
  | None => raise_exn PasswordValueError
  end.

(** [POST /org/create] *)
Definition create_organization (faults : Faults) (clock : CreateClock)
    (org_data : OrganizationCreate) : M (list (string * Value)) :=
  do existing_org <- organizations_find_one (oc_organization_name org_data);
  if is_some existing_org then
    raise_http HTTP_400_BAD_REQUEST "Organization name already exists"
  else
  do existing_admin <- admins_find_one (oc_email org_data);
  if is_some existing_admin then
    raise_http HTTP_400_BAD_REQUEST "Admin email already exists"
  else
  let collection_name :=
    sanitize_collection_name py (oc_organization_name org_data) in
  do org_id <- organizations_insert_one faults
                 (oc_organization_name org_data) collection_name
                 (org_created_at clock) (org_updated_at clock) "active";
  do hashed_password <- hash_password (oc_password org_data);
  do_ admins_insert_one faults (oc_email org_data) hashed_password org_id
        (oc_organization_name org_data) "admin" (admin_created_at clock);
  do_ master_db_getitem collection_name;
  do_ collection_insert_one faults collection_name
        [("initialized", VBool true);
         ("created_at", VDate (marker_created_at clock));
         ("type", VStr "initialization")];
  ret [("message", VStr "Organization created successfully");
       ("organization_id", VId org_id);
       ("organization_name", VStr (oc_organization_name org_data));
       ("collection_name", VStr collection_name);
       ("admin_email", VStr (oc_email org_data))].

(** [PUT /org/update] *)
Definition update_organization (faults : Faults) (now : Z)
    (org_data : OrganizationUpdate) : M (list (string * Value)) :=
  do existing_org <- organizations_find_one (ou_organization_name org_data);
  match existing_org with
  | None => raise_http HTTP_404_NOT_FOUND "Organization not found"
  | Some existing_org =>
  do admin <- admins_find_one (ou_email org_data);
  match admin with
  | None => raise_http HTTP_403_FORBIDDEN "Unauthorized: Invalid admin credentials"
  | Some admin =>
  if negb (String.eqb (a_organization_name admin) (ou_organization_name org_data)) then
    raise_http HTTP_403_FORBIDDEN "Unauthorized: Invalid admin credentials"
  else
  do verified <- verify_password (ou_password org_data) (a_password admin);
  if negb verified then
    raise_http HTTP_403_FORBIDDEN "Unauthorized: Invalid password"
  else
  do_ (if negb (String.eqb (ou_new_organization_name org_data)
                           (ou_organization_name org_data))
       then
         do existing_new_org <-
              organizations_find_one (ou_new_organization_name org_data);
         if is_some existing_new_org then
           raise_http HTTP_400_BAD_REQUEST "New organization name already exists"
         else ret tt
       else ret tt);
  let old_collection_name := o_collection_name existing_org in
  let new_collection_name :=
    sanitize_collection_name py (ou_new_organization_name org_data) in
  do_ master_db_getitem old_collection_name;
  do_ master_db_getitem new_collection_name;
  do documents <- collection_find_all old_collection_name;
  do_ (match documents with
       | [] => ret tt
       | _ :: _ => collection_insert_many faults new_collection_name documents
       end);
  do_ organizations_update_one faults (ou_organization_name org_data)
        (ou_new_organization_name org_data) new_collection_name now;
  do_ admins_update_one faults (ou_email org_data)
        (ou_new_organization_name org_data);
  do_ collection_drop faults old_collection_name;
  ret [("message", VStr "Organization updated successfully");
       ("old_name", VStr (ou_organization_name org_data));
       ("new_name", VStr (ou_new_organization_name org_data));
       ("new_collection_name", VStr new_collection_name)]
  end
  end.

(** [admins_collection.find_one({"email": current_admin["email"]})]:
    only a text value can equal a stored email, and the text of an
    identifier is no email. *)
Definition admins_find_one_value (email : Value) : M (option Admin) :=
  match email with
  | VStr e => admins_find_one e
  | _ => ret None
  end.

(** [DELETE /org/delete], given the result of [get_current_admin]. *)
Definition delete_organization (faults : Faults)
    (org_data : OrganizationDelete) (current_admin : CurrentAdmin)
    : M (list (string * Value)) :=
  do organization <- organizations_find_one (od_organization_name org_data);
  match organization with
  | None => raise_http HTTP_404_NOT_FOUND "Organization not found"
  | Some organization =>
  do admin <- admins_find_one_value (ca_email current_admin);
  match admin with
  | None => raise_exn TypeError     (* [admin["organization_name"]] on [None] *)
  | Some admin =>
  if negb (String.eqb (a_organization_name admin) (od_organization_name org_data)) then
    raise_http HTTP_403_FORBIDDEN
      "Unauthorized: You can only delete your own organization"
  else
  let collection_name := o_collection_name organization in
  do_ master_db_getitem collection_name;
  do_ collection_drop faults collection_name;
  do_ organizations_delete_one faults (od_organization_name org_data);
  do_ admins_delete_many faults (od_organization_name org_data);
  ret [("message", VStr "Organization deleted successfully");
       ("organization_name", VStr (od_organization_name org_data))]
  end
  end.

(** The delete route as the framework runs it: the [Depends]
    dependency is resolved first, the handler runs on its result. *)
Definition delete_route (faults : Faults) (now_nbf now : Z) (token : Token)
    (org_data : OrganizationDelete) : M (list (string * Value)) :=
  fun s =>
    match get_current_admin py now_nbf now token with
    | Return current_admin => delete_organization faults org_data current_admin s
    | HTTPException c d => (HTTPException c d, s)
    | Raise e => (Raise e, s)
    end.

(** The claims [admin_login] puts in the token. *)
Definition login_claims (admin : Admin) : gmap string Value :=
  <["sub" := VStr (a_email admin)]>
    (<["org_id" := VId (a_organization_id admin)]>
       (<["org_name" := VStr (a_organization_name admin)]>
          (<["role" := VStr (a_role admin)]> ∅))).

(** [POST /admin/login] *)
Definition admin_login (now : Z) (credentials : AdminLogin) : M TokenResponse :=
  do admin <- admins_find_one (al_email credentials);
  match admin with
  | None => raise_http HTTP_401_UNAUTHORIZED "Invalid email or password"
  | Some admin =>
  do verified <- verify_password (al_password credentials) (a_password admin);
  if negb verified then
    raise_http HTTP_401_UNAUTHORIZED "Invalid email or password"
  else
  let access_token_expires := timedelta_minutes ACCESS_TOKEN_EXPIRE_MINUTES in
  let access_token :=
    create_access_token now (login_claims admin) (Some access_token_expires) in
  ret {| access_token := access_token; token_type := "bearer" |}
  end.

End Handlers.

(** ** Stand-ins for evaluating the handlers on concrete requests *)

Fixpoint has_nul (s : string) : bool :=
  match s with
  | EmptyString => false
  | String c t => (Ascii.eqb c zero || has_nul t)%bool
  end.

(** A hasher: the hash is the tagged password and verification
    recomputes it; like bcrypt, it refuses a password that holds a NUL
    character. *)
Definition demo_context : CryptContext :=
  {| hash := fun p => if has_nul p then None else Some ("$2b$" +:+ p);
     verify := fun p h =>
       if has_nul p then None else Some (String.eqb h ("$2b$" +:+ p)) |}.

(** Decimal digits only: the simplest text [int()] takes. *)
Fixpoint digits_value (acc : Z) (s : string) : option Z :=
  match s with
  | EmptyString => Some acc
  | String c t =>
      let n := nat_of_ascii c in
      if ((48 <=? n)%nat && (n <=? 57)%nat)%bool
      then digits_value (10 * acc + Z.of_nat (n - 48)) t
      else None
  end.

(** A runtime for ASCII text: it agrees with the language on every
    string the examples apply it to.  Identifiers are taken to hold a
    hexadecimal letter. *)
Definition demo_runtime : PyRuntime :=
  {| str_lower := PyStr.ascii_lower;
     str_len := String.length;
     int_of_str := fun s =>
       match s with EmptyString => None | _ => digits_value 0 s end;
     int_of_oid := fun _ => None |}.

(** The clock that gives the same reading four times. *)
Definition at_once (now : Z) : CreateClock := mkCreateClock now now now now.

(** ** Derived notions used in the statements *)

(** The document [create_organization] puts in the new collection. *)
Definition init_marker (oid : nat) (now : Z) : Document :=
  mkDocument oid
    [("initialized", VBool true); ("created_at", VDate now);
     ("type", VStr "initialization")].

(** The store once the organization document of a create is written. *)
Definition with_organization (py : PyRuntime) (clock : CreateClock)
    (name : string) (s : Store) : Store :=
  {| organizations_collection :=
       organizations_collection s ++
         [mkOrganization (next_oid s) name (sanitize_collection_name py name)
            (org_created_at clock) (org_updated_at clock) "active"];
     admins_collection := admins_collection s;
     master_db := master_db s;
     next_oid := S (next_oid s) |}.

(** The store once the organization and the admin documents of a
    create are written. *)
Definition with_organization_and_admin (py : PyRuntime) (clock : CreateClock)
    (name email hashed : string) (s : Store) : Store :=
  {| organizations_collection :=
       organizations_collection s ++
         [mkOrganization (next_oid s) name (sanitize_collection_name py name)
            (org_created_at clock) (org_updated_at clock) "active"];
     admins_collection :=
       admins_collection s ++
         [mkAdmin (S (next_oid s)) email hashed (next_oid s) name "admin"
            (admin_created_at clock)];
     master_db := master_db s;
     next_oid := S (S (next_oid s)) |}.

(** The collections of the database after a completed rename. *)
Definition renamed_db (db : gmap string (list Document))
    (old_collection_name new_collection_name : string)
    : gmap string (list Document) :=
  let documents := collection_docs db old_collection_name in
  delete old_collection_name
    match documents with
    | [] => db
    | _ :: _ =>
        <[new_collection_name :=
            collection_docs db new_collection_name ++ documents]> db
    end.

(** A time claim is in order: absent, or a value that [int()] takes
    and that satisfies [P]. *)
Definition int_claim_ok (py : PyRuntime) (claims : gmap string Value)
    (k : string) (P : Z -> Prop) : Prop :=
  claims !! k = None \/
  exists v z, claims !! k = Some v /\ py_int py v = IntOk z /\ P z.

(** A text claim is in order: absent, or text. *)
Definition text_claim_ok (claims : gmap string Value) (k : string) : Prop :=
  claims !! k = None \/ exists v, claims !! k = Some v /\ is_str v = true.

(** What the claims of a token must be like for the library to hand
    them out, the clock reading [now_nbf] and then [now]: a numeric
    [iat], an [nbf] that is not in the future, an [exp] that is not in
    the past, a text [sub] and [jti] (each of them only if present), and
    neither [aud] nor [at_hash]. *)
Definition claims_valid (py : PyRuntime) (now_nbf now : Z)
    (claims : gmap string Value) : Prop :=
  int_claim_ok py claims "iat" (fun _ => True) /\
  int_claim_ok py claims "nbf" (fun nbf => nbf <= now_nbf) /\
  int_claim_ok py claims "exp" (fun exp => now <= exp) /\
  claims !! "aud" = None /\
  text_claim_ok claims "sub" /\
  text_claim_ok claims "jti" /\
  claims !! "at_hash" = None.

(** ** The lifecycle as a state machine *)

(** The requests of the lifecycle, each with the time it is served at. *)
Inductive Request : Type :=
| CreateRequest (clock : CreateClock) (org_data : OrganizationCreate)
| UpdateRequest (now : Z) (org_data : OrganizationUpdate)
| DeleteRequest (now_nbf now : Z) (token : Token) (org_data : OrganizationDelete)
| LoginRequest (now : Z) (credentials : AdminLogin).

(** The store a request leaves behind when no write fails, whatever
    its outcome. *)
Definition serve (py : PyRuntime) (pwd_context : CryptContext)
    (request : Request) (s : Store) : Store :=
  match request with
  | CreateRequest clock org_data =>
      snd (create_organization py pwd_context no_faults clock org_data s)
  | UpdateRequest now org_data =>
      snd (update_organization py pwd_context no_faults now org_data s)
  | DeleteRequest now_nbf now token org_data =>
      snd (delete_route py no_faults now_nbf now token org_data s)
  | LoginRequest now credentials =>
      snd (admin_login pwd_context now credentials s)
  end.

(** The stores the service can be in: the empty database after any
    sequence of requests. *)
Inductive reachable (py : PyRuntime) (pwd_context : CryptContext)
    : Store -> Prop :=
| reachable_empty : reachable py pwd_context empty_store
| reachable_serve s request :
    reachable py pwd_context s ->
    reachable py pwd_context (serve py pwd_context request s).

(** Every Admin record points, by [organization_id], at an existing
    Organization record, and carries the name of the record it points at. *)
Definition admins_in_sync (s : Store) : Prop :=
  forall a, a ∈ admins_collection s ->
    (exists o, o ∈ organizations_collection s /\ o_id o = a_organization_id a) /\
    forall o, o ∈ organizations_collection s ->
      o_id o = a_organization_id a ->
      o_organization_name o = a_organization_name a.

(** The invariant that carries the proof: names and ids of
    organizations are unique, ids are older than the next fresh one, no
    two admins name the same organization, and every admin has an
    organization of its id and name. *)
Record store_inv (s : Store) : Prop := mk_store_inv {
  inv_names : NoDup (o_organization_name <$> organizations_collection s);
  inv_ids : NoDup (o_id <$> organizations_collection s);
  inv_fresh : forall o, o ∈ organizations_collection s -> (o_id o < next_oid s)%nat;
  inv_admin_orgs : NoDup (a_organization_name <$> admins_collection s);
  inv_sync : forall a, a ∈ admins_collection s ->
    exists o, o ∈ organizations_collection s /\
      o_id o = a_organization_id a /\
      o_organization_name o = a_organization_name a
}.

(** ** Concrete stores and requests *)

(** The store after ["Acme Corp"] has been created by [a@x.com]. *)
Definition acme_store : Store :=
  snd (create_organization demo_runtime demo_context no_faults (at_once 100)
         (mkOrganizationCreate "Acme Corp" "a@x.com" "password123") empty_store).

Definition acme_rename : OrganizationUpdate :=
  mkOrganizationUpdate "Acme Corp" "Acme Inc" "a@x.com" "password123".

(** The store after ["Acme Corp"] and then ["Beta Ltd"] have been created. *)
Definition two_org_store : Store :=
  snd (create_organization demo_runtime demo_context no_faults (at_once 200)
         (mkOrganizationCreate "Beta Ltd" "b@x.com" "password456") acme_store).

(** The token of ["Acme Corp"]'s admin, issued at time 150. *)
Definition acme_token : Token :=
  match fst (admin_login demo_context 150
               (mkAdminLogin "a@x.com" "password123") acme_store) with
  | Return response => access_token response
  | _ => Garbage ""
  end.

(** ["Acme Corp"] deleted by its admin, then ["Beta Ltd"] created. *)
Definition beta_only_store : Store :=
  snd (create_organization demo_runtime demo_context no_faults (at_once 200)
         (mkOrganizationCreate "Beta Ltd" "b@x.com" "password456")
         (snd (delete_route demo_runtime no_faults 160 160 acme_token
                 (mkOrganizationDelete "Acme Corp") acme_store))).

(** ** The read route, response codes and the client script *)

(** The body of a successful [GET /org/get]:
    [{"message": ..., "organization": {...}}]. *)
Record OrganizationResponse : Type := mkOrganizationResponse {
  gr_message : string;
  gr_organization : list (string * Value)
}.

(** [GET /org/get].  The projection drops [_id] and keeps the other
    five fields in document order; the two dates are then replaced by
    their text form.  [isoformat] is [datetime.isoformat]. *)
Definition get_organization (isoformat : Z -> string) (organization_name : string)
    : M OrganizationResponse :=
  do organization <- organizations_find_one organization_name;
  match organization with
  | None => raise_http HTTP_404_NOT_FOUND "Organization not found"
  | Some organization =>
      ret {| gr_message := "Organization retrieved successfully";
             gr_organization :=
               [("organization_name", VStr (o_organization_name organization));
                ("collection_name", VStr (o_collection_name organization));
                ("created_at", VStr (isoformat (o_created_at organization)));
                ("updated_at", VStr (isoformat (o_updated_at organization)));
                ("status", VStr (o_status organization))] |}
  end.

(** The status line a client sees: the route's success code, the code
    of an [HTTPException], or 500 for any other exception. *)
Definition status_code {A} (success : nat) (outcome : Outcome A) : nat :=
  match outcome with
  | Return _ => success
  | HTTPException c _ => c
  | Raise _ => 500%nat
  end.

(** [test_duplicate_organization] of [test_api.py], run against the
    handlers: the same create request is posted twice, and the test
    passes when the second answer is a 400. *)
Definition test_duplicate_organization (py : PyRuntime)
    (pwd_context : CryptContext) (clock1 clock2 : CreateClock) (s : Store)
    : bool * Store :=
  let data :=
    mkOrganizationCreate "TestOrg2" "admin@testorg2.com" "TestPass123" in
  let s1 := snd (create_organization py pwd_context no_faults clock1 data s) in
  let response := create_organization py pwd_context no_faults clock2 data s1 in
  (Nat.eqb (status_code 201 (fst response)) 400, snd response).

(** ** Further invariants of the reachable stores *)

(** The registry and the admin table as the handlers keep them: emails
    are unique, every organization is registered under the partition
    name derived from its name and is active, and every admin has the
    role ["admin"]. *)
Record registry_inv (py : PyRuntime) (s : Store) : Prop := mk_registry_inv {
  rinv_emails : NoDup (a_email <$> admins_collection s);
  rinv_collection : forall o, o ∈ organizations_collection s ->
    o_collection_name o = sanitize_collection_name py (o_organization_name o);
  rinv_status : forall o, o ∈ organizations_collection s -> o_status o = "active";
  rinv_role : forall a, a ∈ admins_collection s -> a_role a = "admin"
}.

(** The records of the partitions: identifiers are older than the next
    fresh one, distinct within a partition and distinct across
    partitions. *)
Record partitions_inv (s : Store) : Prop := mk_partitions_inv {
  pinv_fresh : forall p docs d,
    master_db s !! p = Some docs -> d ∈ docs -> (doc_id d < next_oid s)%nat;
  pinv_nodup : forall p docs,
    master_db s !! p = Some docs -> NoDup (doc_id <$> docs);
  pinv_disjoint : forall p q dp dq x y,
    p <> q -> master_db s !! p = Some dp -> master_db s !! q = Some dq ->
    x ∈ dp -> y ∈ dq -> doc_id x <> doc_id y
}.

(** * Properties *)

(** ** The model on concrete requests *)

Example replace_leftmost_matches : PyStr.replace "ab" "X" "abababa" = "XXXa".
Proof. reflexivity. Qed.

Example replace_matches_do_not_overlap : PyStr.replace "aa" "X" "aaaaa" = "XXa".
Proof. reflexivity. Qed.

Example replace_empty_pattern : PyStr.replace "" "-" "abc" = "-a-b-c-".
Proof. reflexivity. Qed.

Example sanitize_mixed_name :
  sanitize_collection_name demo_runtime "ACME-corp x--Y" = "org_acme_corp_x__y".
Proof. reflexivity. Qed.

(** The scenario of the specification: create ["Acme Corp"], log in,
    rename to ["Acme Inc"], delete with the bearer token. *)
Example scenario_create :
  fst (create_organization demo_runtime demo_context no_faults (at_once 100)
         (mkOrganizationCreate "Acme Corp" "a@x.com" "password123") empty_store)
  = Return [("message", VStr "Organization created successfully");
            ("organization_id", VId 0);
            ("organization_name", VStr "Acme Corp");
            ("collection_name", VStr "org_acme_corp");
            ("admin_email", VStr "a@x.com")].
Proof. reflexivity. Qed.

Example scenario_rename :
  update_organization demo_runtime demo_context no_faults 300 acme_rename acme_store
  = (Return [("message", VStr "Organization updated successfully");
             ("old_name", VStr "Acme Corp");
             ("new_name", VStr "Acme Inc");
             ("new_collection_name", VStr "org_acme_inc")],
     {| organizations_collection :=
          [mkOrganization 0 "Acme Inc" "org_acme_inc" 100 300 "active"];
        admins_collection :=
          [mkAdmin 1 "a@x.com" "$2b$password123" 0 "Acme Inc" "admin" 100];
        master_db := {["org_acme_inc" := [init_marker 2 100]]};
        next_oid := 3 |}).
Proof. vm_compute. reflexivity. Qed.

Example scenario_delete :
  delete_route demo_runtime no_faults 400 400 acme_token
    (mkOrganizationDelete "Acme Inc")
    (snd (update_organization demo_runtime demo_context no_faults 300 acme_rename acme_store))
  = (Return [("message", VStr "Organization deleted successfully");
             ("organization_name", VStr "Acme Inc")],
     {| organizations_collection := []; admins_collection := [];
        master_db := ∅; next_oid := 3 |}).
Proof. vm_compute. reflexivity. Qed.

(** Renaming to a name of the same partition re-inserts the records
    into the collection they are read from; the first duplicate [_id]
    stops the request before the registry is touched. *)
Example rename_within_partition :
  update_organization demo_runtime demo_context no_faults 300
    (mkOrganizationUpdate "Acme Corp" "acme corp" "a@x.com" "password123")
    acme_store
  = (Raise BulkWriteError, acme_store).
Proof. vm_compute. reflexivity. Qed.

(** ** The partition-naming rule *)

Lemma replace_scan_char (a b : ascii) (s : string) :
  PyStr.replace_scan (String a "") (String b "") 0 s
  = PyStr.map_chars (fun c => if Ascii.eqb c a then b else c) s.
Proof.
  induction s as [|c t IH]; [reflexivity|].
  cbn [PyStr.replace_scan PyStr.map_chars String.prefix String.length Nat.sub].
  destruct (ascii_dec a c) as [->|Hne].
  - rewrite Ascii.eqb_refl. destruct t; cbn [String.append]; now rewrite IH.
  - destruct (Ascii.eqb_spec c a) as [->|_]; [congruence|]. now rewrite IH.
Qed.

Lemma map_chars_compose (f g : ascii -> ascii) (s : string) :
  PyStr.map_chars g (PyStr.map_chars f s) = PyStr.map_chars (fun c => g (f c)) s.
Proof. induction s as [|c t IH]; cbn; [reflexivity | now rewrite IH]. Qed.

Lemma map_chars_ext (f g : ascii -> ascii) (s : string) :
  (forall c, f c = g c) -> PyStr.map_chars f s = PyStr.map_chars g s.
Proof. intros E. induction s as [|c t IH]; cbn; [reflexivity | now rewrite E, IH]. Qed.

Lemma underscore_char_steps (c : ascii) :
  (let c1 := if Ascii.eqb c " " then "_"%char else c in
   if Ascii.eqb c1 "-" then "_"%char else c1) = underscore_char c.
Proof.
  unfold underscore_char. cbv zeta.
  destruct (Ascii.eqb c " ") eqn:E1; [reflexivity|].
  destruct (Ascii.eqb c "-"); reflexivity.
Qed.

(** The two replacements amount to one pass over the lower-cased name. *)
Lemma sanitize_is_rule (py : PyRuntime) (name : string) :
  sanitize_collection_name py name = partition_name_rule py name.
Proof.
  unfold sanitize_collection_name, partition_name_rule, PyStr.replace.
  rewrite !replace_scan_char, !map_chars_compose.
  f_equal. apply map_chars_ext. intros c. apply underscore_char_steps.
Qed.

(** ** Reasoning about handler runs *)

Ltac unfold_m_in H :=
  cbv beta iota zeta delta [bind ret gets modify raise_http raise_exn attempt
    organizations_find_one admins_find_one admins_find_one_value
    hash_password verify_password master_db_getitem
    organizations_insert_one admins_insert_one
    collection_insert_one collection_insert_many collection_find_all
    collection_drop organizations_update_one admins_update_one
    organizations_delete_one admins_delete_many
    set_master_db set_organizations set_admins] in H;
  cbn [organizations_collection admins_collection master_db next_oid] in H.

Ltac unfold_m :=
  cbv beta iota zeta delta [bind ret gets modify raise_http raise_exn attempt
    organizations_find_one admins_find_one admins_find_one_value
    hash_password verify_password master_db_getitem
    organizations_insert_one admins_insert_one
    collection_insert_one collection_insert_many collection_find_all
    collection_drop organizations_update_one admins_update_one
    organizations_delete_one admins_delete_many
    set_master_db set_organizations set_admins];
  cbn [organizations_collection admins_collection master_db next_oid].

(** Case analysis on every test a run in [H] goes through, innermost
    scrutinee first; branches whose outcome contradicts [H] are closed. *)
Ltac break_in H :=
  repeat (
    match type of H with
    | context [match ?x with _ => _ end] =>
        lazymatch x with
        | context [match _ with _ => _ end] => fail
        | _ => destruct x eqn:?; try discriminate H
        end
    end;
    cbn [organizations_collection admins_collection master_db next_oid] in H).

Ltac step_goal :=
  cbn beta iota zeta delta [no_faults is_some negb andb fst snd
    organizations_collection admins_collection master_db next_oid].

Lemma is_some_false {A} (o : option A) : is_some o = false -> o = None.
Proof. destruct o; [discriminate | reflexivity]. Qed.

Lemma negb_eqb_false (a b : string) : negb (String.eqb a b) = false -> a = b.
Proof. destruct (String.eqb_spec a b); [auto | discriminate]. Qed.

Lemma negb_eqb_true (a b : string) : negb (String.eqb a b) = true -> a <> b.
Proof. destruct (String.eqb_spec a b); [discriminate | auto]. Qed.

(** *** The first match of a list *)

Lemma find_Some_split {A} (p : A -> bool) (f : A -> A) (l : list A) (x : A) :
  List.find p l = Some x ->
  exists l1 l2,
    l = l1 ++ x :: l2 /\ p x = true /\ (forall y, In y l1 -> p y = false) /\
    update_first p f l = l1 ++ f x :: l2 /\
    remove_first p l = l1 ++ l2.
Proof.
  induction l as [|y t IH]; cbn; [discriminate|].
  destruct (p y) eqn:Hy.
  - intros [= ->]. exists [], t. cbn. repeat split; auto. intros ? [].
  - intros Hf. destruct (IH Hf) as (l1 & l2 & -> & Hx & Hl1 & Hu & Hr).
    exists (y :: l1), l2. cbn. rewrite Hu, Hr. repeat split; auto.
    intros z [<-|Hz]; auto.
Qed.

Lemma find_None_all {A} (p : A -> bool) (l : list A) :
  List.find p l = None -> forall y, In y l -> p y = false.
Proof.
  induction l as [|y t IH]; cbn; [intros _ ? []|].
  destruct (p y) eqn:Hy; [discriminate|].
  intros Hf z [<-|Hz]; auto.
Qed.

Lemma find_None_update_first {A} (p : A -> bool) (f : A -> A) (l : list A) :
  List.find p l = None -> update_first p f l = l /\ remove_first p l = l.
Proof.
  induction l as [|y t IH]; cbn; [auto|].
  destruct (p y); [discriminate|]. intros Hf. destruct (IH Hf) as [-> ->]. auto.
Qed.

Lemma find_app_None {A} (p : A -> bool) (l1 l2 : list A) :
  List.find p l1 = None -> List.find p (l1 ++ l2) = List.find p l2.
Proof.
  induction l1 as [|y t IH]; cbn; [reflexivity|].
  destruct (p y); [discriminate | exact IH].
Qed.

Lemma find_all_false {A} (p : A -> bool) (l : list A) :
  (forall y, In y l -> p y = false) -> List.find p l = None.
Proof.
  induction l as [|y t IH]; cbn; [reflexivity|].
  intros H. rewrite (H y) by auto. apply IH. intros z Hz. apply H. auto.
Qed.

(** After [update_first], a search by a test [q] that the changed
    element passes, and that nothing before it passes, finds the
    changed element. *)
Lemma find_update_first {A} (p q : A -> bool) (f : A -> A) (l : list A) (x : A) :
  List.find p l = Some x ->
  q (f x) = true ->
  (forall y, In y l -> p y = false -> q y = false) ->
  List.find q (update_first p f l) = Some (f x).
Proof.
  intros Hf Hq Hpre.
  destruct (find_Some_split p f l x Hf) as (l1 & l2 & -> & Hx & Hl1 & -> & _).
  rewrite find_app_None.
  - cbn. now rewrite Hq.
  - apply find_all_false. intros y Hy. apply Hpre; [apply in_or_app; auto | auto].
Qed.

(** *** Bulk insertion *)

Lemma insert_ordered_complete (docs present written : list Document) :
  insert_ordered present docs = (written, true) -> written = present ++ docs.
Proof.
  revert present. induction docs as [|d rest IH]; cbn; intros present.
  - intros [= <-]. now rewrite app_nil_r.
  - destruct (existsb (has_id (doc_id d)) present); [discriminate|].
    intros H. apply IH in H. now rewrite <- app_assoc in H.
Qed.

(** *** What a completed handler run has done *)

Section Runs.

Variable py : PyRuntime.
Variable pwd_context : CryptContext.

Lemma create_organization_Return faults clock org_data s r s' :
  create_organization py pwd_context faults clock org_data s = (Return r, s') ->
  let name := oc_organization_name org_data in
  let collection_name := sanitize_collection_name py name in
  List.find (org_named name) (organizations_collection s) = None /\
  List.find (admin_with_email (oc_email org_data)) (admins_collection s) = None /\
  r = [("message", VStr "Organization created successfully");
       ("organization_id", VId (next_oid s));
       ("organization_name", VStr name);
       ("collection_name", VStr collection_name);
       ("admin_email", VStr (oc_email org_data))] /\
  exists hashed,
  hash pwd_context (oc_password org_data) = Some hashed /\
  s' = {| organizations_collection :=
            organizations_collection s ++
              [mkOrganization (next_oid s) name collection_name
                 (org_created_at clock) (org_updated_at clock) "active"];
          admins_collection :=
            admins_collection s ++
              [mkAdmin (S (next_oid s)) (oc_email org_data) hashed
                 (next_oid s) name "admin" (admin_created_at clock)];
          master_db :=
            <[collection_name :=
                collection_docs (master_db s) collection_name
                  ++ [init_marker (S (S (next_oid s))) (marker_created_at clock)]]>
              (master_db s);
          next_oid := S (S (S (next_oid s))) |}.
Proof.
  intros H. unfold create_organization, hash_password in H.
  unfold_m_in H. break_in H.
  injection H as <- <-.
  repeat split; eauto using is_some_false.
Qed.

(** A completed create has derived a partition name that the driver
    accepts. *)
Lemma create_organization_Return_valid faults clock org_data s r s' :
  create_organization py pwd_context faults clock org_data s = (Return r, s') ->
  valid_collection_name
    (sanitize_collection_name py (oc_organization_name org_data)) = true.
Proof.
  intros H. unfold create_organization in H. unfold_m_in H. break_in H.
  all: first [discriminate | reflexivity].
Qed.

(** The converse: on a store that knows neither the name nor the
    email, a fault-free create completes when the hasher takes the
    password and the driver the partition name. *)
Lemma create_organization_fresh clock org_data s hashed :
  List.find (org_named (oc_organization_name org_data))
    (organizations_collection s) = None ->
  List.find (admin_with_email (oc_email org_data)) (admins_collection s) = None ->
  hash pwd_context (oc_password org_data) = Some hashed ->
  valid_collection_name
    (sanitize_collection_name py (oc_organization_name org_data)) = true ->
  exists r s',
    create_organization py pwd_context no_faults clock org_data s = (Return r, s').
Proof.
  intros Ho Ha Hh Hv. unfold create_organization, hash_password. unfold_m.
  repeat (step_goal; first [rewrite Ho | rewrite Ha | rewrite Hh | rewrite Hv]).
  step_goal. eauto.
Qed.

(** When the driver refuses the partition name, the organization and
    the admin documents are already written and the partition is not. *)
Lemma create_organization_invalid_name clock org_data s hashed :
  List.find (org_named (oc_organization_name org_data))
    (organizations_collection s) = None ->
  List.find (admin_with_email (oc_email org_data)) (admins_collection s) = None ->
  hash pwd_context (oc_password org_data) = Some hashed ->
  valid_collection_name
    (sanitize_collection_name py (oc_organization_name org_data)) = false ->
  create_organization py pwd_context no_faults clock org_data s
  = (Raise InvalidName,
     with_organization_and_admin py clock (oc_organization_name org_data)
       (oc_email org_data) hashed s).
Proof.
  intros Ho Ha Hh Hv. unfold create_organization, hash_password. unfold_m.
  repeat (step_goal; first [rewrite Ho | rewrite Ha | rewrite Hh | rewrite Hv]).
  reflexivity.
Qed.

(** When the hasher refuses the password, the organization document is
    already written and nothing else is. *)
Lemma create_organization_refused clock org_data s :
  List.find (org_named (oc_organization_name org_data))
    (organizations_collection s) = None ->
  List.find (admin_with_email (oc_email org_data)) (admins_collection s) = None ->
  hash pwd_context (oc_password org_data) = None ->
  create_organization py pwd_context no_faults clock org_data s
  = (Raise PasswordValueError,
     with_organization py clock (oc_organization_name org_data) s).
Proof.
  intros Ho Ha Hh. unfold create_organization, hash_password. unfold_m.
  repeat (step_goal; first [rewrite Ho | rewrite Ha | rewrite Hh]). reflexivity.
Qed.

Lemma update_organization_Return faults (now : Z) org_data s r s' :
  update_organization py pwd_context faults now org_data s = (Return r, s') ->
  let name := ou_organization_name org_data in
  let new_name := ou_new_organization_name org_data in
  let new_collection_name := sanitize_collection_name py new_name in
  exists existing_org admin,
    List.find (org_named name) (organizations_collection s) = Some existing_org /\
    List.find (admin_with_email (ou_email org_data)) (admins_collection s)
      = Some admin /\
    a_organization_name admin = name /\
    verify pwd_context (ou_password org_data) (a_password admin) = Some true /\
    (new_name <> name ->
     List.find (org_named new_name) (organizations_collection s) = None) /\
    (collection_docs (master_db s) (o_collection_name existing_org) <> [] ->
     snd (insert_ordered (collection_docs (master_db s) new_collection_name)
            (collection_docs (master_db s) (o_collection_name existing_org)))
     = true) /\
    r = [("message", VStr "Organization updated successfully");
         ("old_name", VStr name);
         ("new_name", VStr new_name);
         ("new_collection_name", VStr new_collection_name)] /\
    s' = {| organizations_collection :=
              update_first (org_named name)
                (rename_org new_name new_collection_name now)
                (organizations_collection s);
            admins_collection :=
              update_first (admin_with_email (ou_email org_data))
                (set_admin_org_name new_name) (admins_collection s);
            master_db :=
              renamed_db (master_db s) (o_collection_name existing_org)
                new_collection_name;
            next_oid := next_oid s |}.
Proof.
  intros H. unfold update_organization, verify_password in H.
  unfold_m_in H. break_in H.
  all: try congruence.
  all: simplify_eq; cbv zeta; unfold renamed_db.
  all: repeat match goal with
       | E : negb (String.eqb _ _) = false |- _ => apply negb_eqb_false in E
       | E : negb (String.eqb _ _) = true |- _ => apply negb_eqb_true in E
       | E : negb _ = false |- _ => apply negb_false_iff in E
       | E : is_some _ = false |- _ => apply is_some_false in E
       | E : insert_ordered _ _ = (_, true) |- _ =>
           pose proof (insert_ordered_complete _ _ _ E); subst;
           apply (f_equal snd) in E; cbn [snd] in E
       end.
  all: do 2 eexists.
  all: split; [first [eassumption | reflexivity]|].
  all: split; [first [eassumption | reflexivity]|].
  all: repeat match goal with
       | E : collection_docs _ _ = _ |- _ => rewrite E
       end.
  all: repeat split; auto; try congruence.
Qed.

(** A completed rename has worked on partition names that the driver
    accepts. *)
Lemma update_organization_Return_valid faults (now : Z) org_data s r s' :
  update_organization py pwd_context faults now org_data s = (Return r, s') ->
  valid_collection_name
    (sanitize_collection_name py (ou_new_organization_name org_data)) = true /\
  exists existing_org,
    List.find (org_named (ou_organization_name org_data))
      (organizations_collection s) = Some existing_org /\
    valid_collection_name (o_collection_name existing_org) = true.
Proof.
  intros H. unfold update_organization in H. unfold_m_in H. break_in H.
  all: try congruence.
  all: split; [first [assumption | reflexivity]|].
  all: eexists; split; [reflexivity | assumption].
Qed.

(** The converse: a fault-free rename that passes the four checks
    completes when the driver takes both partition names and the copy
    goes through. *)
Lemma update_organization_completes (now : Z) org_data s existing_org admin :
  let name := ou_organization_name org_data in
  let new_name := ou_new_organization_name org_data in
  let documents :=
    collection_docs (master_db s) (o_collection_name existing_org) in
  List.find (org_named name) (organizations_collection s) = Some existing_org ->
  List.find (admin_with_email (ou_email org_data)) (admins_collection s)
    = Some admin ->
  a_organization_name admin = name ->
  verify pwd_context (ou_password org_data) (a_password admin) = Some true ->
  (new_name <> name ->
   List.find (org_named new_name) (organizations_collection s) = None) ->
  valid_collection_name (o_collection_name existing_org) = true ->
  valid_collection_name (sanitize_collection_name py new_name) = true ->
  (documents <> [] ->
   snd (insert_ordered
          (collection_docs (master_db s) (sanitize_collection_name py new_name))
          documents) = true) ->
  exists r s',
    update_organization py pwd_context no_faults now org_data s = (Return r, s').
Proof.
  intros name new_name documents Ho Ha Hname Hpw Hnew Hvold Hvnew Hcopy.
  subst name new_name documents.
  unfold update_organization, verify_password. unfold_m.
  step_goal. rewrite Ho. step_goal. rewrite Ha. step_goal.
  rewrite Hname, String.eqb_refl. step_goal. rewrite Hpw. step_goal.
  destruct (String.eqb_spec (ou_new_organization_name org_data)
              (ou_organization_name org_data)) as [Heq|Hne]; step_goal;
    try rewrite (Hnew Hne); step_goal.
  all: rewrite Hvold; step_goal; rewrite Hvnew; step_goal.
  all: destruct (collection_docs (master_db s) (o_collection_name existing_org))
      as [|d rest] eqn:Hdocs; step_goal.
  all: try (specialize (Hcopy ltac:(discriminate));
            destruct (insert_ordered _ (d :: rest)) as [written complete];
            cbn [snd] in Hcopy; subst complete; step_goal).
  all: rewrite Ho; step_goal; try rewrite (Hnew Hne); step_goal; eauto.
Qed.

End Runs.

Ltac simpl_req H :=
  cbn beta iota zeta delta [oc_organization_name oc_email oc_password
    ou_organization_name ou_new_organization_name ou_email ou_password
    od_organization_name al_email al_password] in H.

(** ** C4: the partition-naming transform *)

(** C4.  For every organization name the derived partition name is the
    name lower-cased, every space and every hyphen turned into an
    underscore, with the literal tag [org_] in front (["Acme Corp"],
    whose lower-case form is ["acme corp"], gives ["org_acme_corp"]).
    Create uses this transform: on a store that knows neither the name
    nor the email it completes (when the hasher takes the password and
    the driver the partition name), and a completed Create has
    registered the organization under exactly that partition name and
    written its marker there.  Rename uses it too: a Rename that passes
    its checks completes when the driver takes the partition names and
    the copy goes through, and a completed Rename has registered the
    new name under exactly the transform of the new name. *)
Theorem partition_name_transform
    (py : PyRuntime) (pwd_context : CryptContext) (name : string) :
  sanitize_collection_name py name = partition_name_rule py name /\
  (str_lower py "Acme Corp" = "acme corp" ->
   sanitize_collection_name py "Acme Corp" = "org_acme_corp") /\
  (forall clock email password s hashed,
     List.find (org_named name) (organizations_collection s) = None ->
     List.find (admin_with_email email) (admins_collection s) = None ->
     hash pwd_context password = Some hashed ->
     valid_collection_name (partition_name_rule py name) = true ->
     exists r s',
       create_organization py pwd_context no_faults clock
         (mkOrganizationCreate name email password) s = (Return r, s')) /\
  (forall faults clock email password s r s',
     create_organization py pwd_context faults clock
       (mkOrganizationCreate name email password) s = (Return r, s') ->
     In ("collection_name", VStr (partition_name_rule py name)) r /\
     (exists o,
        List.find (org_named name) (organizations_collection s') = Some o /\
        o_collection_name o = partition_name_rule py name) /\
     exists oid,
       collection_docs (master_db s') (partition_name_rule py name)
       = collection_docs (master_db s) (partition_name_rule py name)
           ++ [init_marker oid (marker_created_at clock)]) /\
  (forall now old_name email password s existing_org admin,
     List.find (org_named old_name) (organizations_collection s)
       = Some existing_org ->
     List.find (admin_with_email email) (admins_collection s) = Some admin ->
     a_organization_name admin = old_name ->
     verify pwd_context password (a_password admin) = Some true ->
     (name <> old_name ->
      List.find (org_named name) (organizations_collection s) = None) ->
     valid_collection_name (o_collection_name existing_org) = true ->
     valid_collection_name (partition_name_rule py name) = true ->
     (collection_docs (master_db s) (o_collection_name existing_org) <> [] ->
      snd (insert_ordered
             (collection_docs (master_db s) (partition_name_rule py name))
             (collection_docs (master_db s) (o_collection_name existing_org)))
      = true) ->
     exists r s',
       update_organization py pwd_context no_faults now
         (mkOrganizationUpdate old_name name email password) s
       = (Return r, s')) /\
  (forall faults now old_name email password s r s',
     update_organization py pwd_context faults now
       (mkOrganizationUpdate old_name name email password) s = (Return r, s') ->
     In ("new_collection_name", VStr (partition_name_rule py name)) r /\
     exists o,
       List.find (org_named name) (organizations_collection s') = Some o /\
       o_collection_name o = partition_name_rule py name).
Proof.
  split; [apply sanitize_is_rule|]. split.
  { intros Hl. unfold sanitize_collection_name. rewrite Hl. reflexivity. }
  split.
  { intros clock email password s hashed Ho Ha Hh Hv.
    rewrite <- sanitize_is_rule in Hv.
    now apply (create_organization_fresh py pwd_context clock
                 (mkOrganizationCreate name email password) s hashed). }
  split.
  { intros faults clock email password s r s' H.
    apply create_organization_Return in H. simpl_req H.
    destruct H as (Ho & _ & -> & hashed & _ & ->).
    cbn [organizations_collection master_db].
    rewrite <- sanitize_is_rule. split; [cbn; auto 6|]. split.
    + eexists. split.
      * rewrite find_app_None by exact Ho. cbn [List.find].
        unfold org_named at 1. cbn [o_organization_name].
        rewrite String.eqb_refl. reflexivity.
      * reflexivity.
    + eexists. unfold collection_docs at 1. rewrite lookup_insert_eq. reflexivity. }
  split.
  { intros now old_name email password s existing_org admin Ho Ha Hn Hpw Hnew
      Hvold Hvnew Hcopy.
    rewrite <- sanitize_is_rule in Hcopy, Hvnew.
    now apply (update_organization_completes py pwd_context now
                 (mkOrganizationUpdate old_name name email password)
                 s existing_org admin). }
  intros faults now old_name email password s r s' H.
  apply update_organization_Return in H. simpl_req H.
  destruct H as (o & a & Ho & _ & _ & _ & Hnew & _ & -> & ->).
  cbn [organizations_collection]. rewrite <- sanitize_is_rule.
  split; [cbn; auto 6|].
  exists (rename_org name (sanitize_collection_name py name) now o).
  split; [|reflexivity].
  apply find_update_first;
    [exact Ho
    | unfold org_named; cbn [o_organization_name rename_org]; apply String.eqb_refl |].
  intros y Hy Hp. destruct (String.eqb_spec name old_name) as [->|Hne]; [exact Hp|].
  apply (find_None_all _ _ (Hnew Hne)); exact Hy.
Qed.

(** The transform at work in ["Acme Corp"]'s store: the rename to
    ["Acme Inc"] completes and registers [org_acme_inc], and a create of
    ["Beta Ltd"] completes. *)
Lemma partition_name_transform_witness :
  sanitize_collection_name demo_runtime "Acme Corp" = "org_acme_corp" /\
  (exists r s',
     create_organization demo_runtime demo_context no_faults (at_once 200)
       (mkOrganizationCreate "Beta Ltd" "b@x.com" "password456") acme_store
     = (Return r, s')) /\
  exists r s' o,
    update_organization demo_runtime demo_context no_faults 300 acme_rename
      acme_store = (Return r, s') /\
    In ("new_collection_name", VStr "org_acme_inc") r /\
    List.find (org_named "Acme Inc") (organizations_collection s') = Some o /\
    o_collection_name o = "org_acme_inc".
Proof.
  split.
  { apply (partition_name_transform demo_runtime demo_context "Acme Corp").
    reflexivity. }
  split.
  { destruct (partition_name_transform demo_runtime demo_context "Beta Ltd")
      as (_ & _ & Hc & _).
    apply (Hc (at_once 200) "b@x.com" "password456" acme_store
             "$2b$password456"); reflexivity. }
  destruct (partition_name_transform demo_runtime demo_context "Acme Inc")
    as (_ & _ & _ & _ & Hcompletes & Hdone).
  assert (Hrun : exists r s',
    update_organization demo_runtime demo_context no_faults 300 acme_rename
      acme_store = (Return r, s')).
  { apply (Hcompletes 300 "Acme Corp" "a@x.com" "password123" acme_store
             (mkOrganization 0 "Acme Corp" "org_acme_corp" 100 100 "active")
             (mkAdmin 1 "a@x.com" "$2b$password123" 0 "Acme Corp" "admin" 100)).
    all: try intros _; vm_compute; reflexivity. }
  destruct Hrun as (r & s' & Hrun).
  destruct (Hdone no_faults 300 "Acme Corp" "a@x.com" "password123" acme_store
              r s' Hrun) as (Hin & o & Hfind & Hcoll).
  exists r, s', o. repeat split; assumption.
Defined.

(** ** The rename: copy, registry update, admin update, drop *)

Lemma insert_ordered_self (d : Document) (rest : list Document) :
  snd (insert_ordered (d :: rest) (d :: rest)) = false.
Proof.
  cbn [insert_ordered existsb]. unfold has_id at 1. now rewrite Nat.eqb_refl.
Qed.

Lemma set_master_db_id (s : Store) : set_master_db (master_db s) s = s.
Proof. now destruct s. Qed.

(** Evaluates the fault plan of [H] at every write site it is asked about. *)
Ltac eval_faults_in H :=
  repeat match type of H with
  | context [fault_at ?w ?w'] =>
      let v := eval vm_compute in (fault_at w w') in
      change (fault_at w w') with v in H
  end.

Section RenameOrder.

Variable py : PyRuntime.
Variable pwd_context : CryptContext.

(** A rename whose registry update is the write that fails has
    already copied the records and touched nothing else. *)
Lemma update_organization_registry_fault now org_data s s' :
  update_organization py pwd_context (fault_at W_organizations_update_one)
    now org_data s = (Raise PyMongoError, s') ->
  let new_collection_name :=
    sanitize_collection_name py (ou_new_organization_name org_data) in
  exists existing_org,
    List.find (org_named (ou_organization_name org_data))
      (organizations_collection s) = Some existing_org /\
    let documents :=
      collection_docs (master_db s) (o_collection_name existing_org) in
    (documents <> [] ->
     snd (insert_ordered (collection_docs (master_db s) new_collection_name)
            documents) = true) /\
    s' = set_master_db
           match documents with
           | [] => master_db s
           | _ :: _ =>
               <[new_collection_name :=
                   collection_docs (master_db s) new_collection_name
                     ++ documents]> (master_db s)
           end s.
Proof.
  intros H. unfold update_organization in H. unfold_m_in H.
  eval_faults_in H. break_in H.
  all: try congruence.
  all: injection H as Hs; subst s'; simplify_eq; cbv zeta.
  all: repeat match goal with
       | E : insert_ordered _ _ = (_, true) |- _ =>
           pose proof (insert_ordered_complete _ _ _ E); subst;
           apply (f_equal snd) in E; cbn [snd] in E
       end.
  all: eexists; split; [first [eassumption | reflexivity]|].
  all: repeat match goal with
       | E : collection_docs _ _ = _ |- _ => rewrite E
       end.
  all: rewrite ?set_master_db_id; split; auto; congruence.
Qed.

(** A rename whose final drop is the write that fails has already
    updated the registry and the admin record. *)
Lemma update_organization_drop_fault now org_data s s' :
  update_organization py pwd_context (fault_at W_collection_drop)
    now org_data s = (Raise PyMongoError, s') ->
  let name := ou_organization_name org_data in
  let new_name := ou_new_organization_name org_data in
  exists existing_org,
    List.find (org_named name) (organizations_collection s) = Some existing_org /\
    organizations_collection s'
    = update_first (org_named name)
        (rename_org new_name (sanitize_collection_name py new_name) now)
        (organizations_collection s) /\
    admins_collection s'
    = update_first (admin_with_email (ou_email org_data))
        (set_admin_org_name new_name) (admins_collection s) /\
    (collection_docs (master_db s) (o_collection_name existing_org) <> [] ->
     sanitize_collection_name py new_name <> o_collection_name existing_org) /\
    (sanitize_collection_name py new_name <> o_collection_name existing_org ->
     master_db s' !! o_collection_name existing_org
     = master_db s !! o_collection_name existing_org).
Proof.
  intros H. unfold update_organization in H. unfold_m_in H.
  eval_faults_in H. break_in H.
  all: try congruence.
  all: injection H as Hs; subst s'; simplify_eq; cbv zeta.
  all: eexists; split; [first [eassumption | reflexivity]|].
  all: cbn [organizations_collection admins_collection master_db].
  all: repeat split; auto; try congruence.
  all: try (intros Hne; now rewrite lookup_insert_ne by exact Hne).
  all: intros _ Heq;
       match goal with
       | E : insert_ordered _ _ = (_, true), D : collection_docs _ _ = _ :: _ |- _ =>
           rewrite Heq, D in E; apply (f_equal snd) in E;
           rewrite insert_ordered_self in E; discriminate E
       end.
Qed.

End RenameOrder.

(** C1, as stated, fails: when the registry update of the rename of
    ["Acme Corp"] to ["Acme Inc"] fails, the old partition
    [org_acme_corp] has not been dropped; it still holds its record,
    next to the copy in [org_acme_inc]. *)
Lemma registry_failure_leaves_old_partition :
  let run := update_organization demo_runtime demo_context
               (fault_at W_organizations_update_one) 300 acme_rename acme_store in
  fst run = Raise PyMongoError /\
  master_db (snd run) !! "org_acme_corp" = Some [init_marker 2 100] /\
  master_db (snd run) !! "org_acme_inc" = Some [init_marker 2 100] /\
  organizations_collection (snd run) = organizations_collection acme_store /\
  List.map o_collection_name (organizations_collection (snd run)) = ["org_acme_corp"].
Proof. vm_compute. repeat split. Qed.

(** C1, amended.  For every Rename the copy of all records into the new
    partition completes before the Organization registry record is
    updated, and the old partition is dropped only after the registry
    and admin records have been updated.  Consequently, if the registry
    update fails after the copy, the registry and admin records are
    unchanged, the old partition is untouched and the new partition
    holds the records it had followed by the copy; and if the drop
    fails, the registry and the admin record already carry the new
    name while the old partition is still there. *)
Theorem rename_copy_then_registry_then_drop
    (py : PyRuntime) (pwd_context : CryptContext) (now : Z) (org_data : OrganizationUpdate)
    (s : Store) :
  let name := ou_organization_name org_data in
  let new_name := ou_new_organization_name org_data in
  let new_collection_name := sanitize_collection_name py new_name in
  (forall s',
     update_organization py pwd_context (fault_at W_organizations_update_one)
       now org_data s = (Raise PyMongoError, s') ->
     exists existing_org,
       List.find (org_named name) (organizations_collection s) = Some existing_org /\
       let old_collection_name := o_collection_name existing_org in
       let documents := collection_docs (master_db s) old_collection_name in
       organizations_collection s' = organizations_collection s /\
       admins_collection s' = admins_collection s /\
       collection_docs (master_db s') old_collection_name = documents /\
       (documents <> [] ->
        new_collection_name <> old_collection_name /\
        master_db s' !! old_collection_name = Some documents /\
        master_db s' !! new_collection_name
        = Some (collection_docs (master_db s) new_collection_name ++ documents)) /\
       (documents = [] -> master_db s' = master_db s)) /\
  (forall s',
     update_organization py pwd_context (fault_at W_collection_drop)
       now org_data s = (Raise PyMongoError, s') ->
     exists existing_org,
       List.find (org_named name) (organizations_collection s) = Some existing_org /\
       let old_collection_name := o_collection_name existing_org in
       organizations_collection s'
       = update_first (org_named name)
           (rename_org new_name new_collection_name now)
           (organizations_collection s) /\
       admins_collection s'
       = update_first (admin_with_email (ou_email org_data))
           (set_admin_org_name new_name) (admins_collection s) /\
       (new_collection_name <> old_collection_name ->
        master_db s' !! old_collection_name = master_db s !! old_collection_name)).
Proof.
  cbv zeta. split.
  - intros s' H. apply update_organization_registry_fault in H.
    destruct H as (o & Ho & Hins & ->). exists o. split; [exact Ho|].
    cbv zeta. cbn [organizations_collection admins_collection master_db set_master_db].
    split; [reflexivity|]. split; [reflexivity|].
    destruct (collection_docs (master_db s) (o_collection_name o))
      as [|d rest] eqn:Hdocs.
    + split; [exact Hdocs|]. split; [congruence | reflexivity].
    + assert (Hne : sanitize_collection_name py (ou_new_organization_name org_data)
                    <> o_collection_name o).
      { intros Heq. specialize (Hins ltac:(discriminate)).
        rewrite Heq, Hdocs, insert_ordered_self in Hins. discriminate Hins. }
      assert (Hold : <[sanitize_collection_name py (ou_new_organization_name org_data) :=
                         collection_docs (master_db s)
                           (sanitize_collection_name py (ou_new_organization_name org_data))
                           ++ d :: rest]> (master_db s) !! o_collection_name o
                     = master_db s !! o_collection_name o)
        by (now rewrite lookup_insert_ne).
      split; [unfold collection_docs at 1; rewrite Hold; exact Hdocs|].
      split; [|discriminate].
      intros _. split; [exact Hne|]. split.
      * rewrite Hold. unfold collection_docs in Hdocs.
        destruct (master_db s !! o_collection_name o); cbn in Hdocs; congruence.
      * now rewrite lookup_insert_eq.
  - intros s' H. apply update_organization_drop_fault in H.
    destruct H as (o & Ho & Horgs & Hadm & _ & Hdb). exists o. auto.
Qed.

Lemma rename_copy_then_registry_then_drop_witness :
  let run := update_organization demo_runtime demo_context
               (fault_at W_organizations_update_one) 300 acme_rename acme_store in
  organizations_collection (snd run) = organizations_collection acme_store /\
  admins_collection (snd run) = admins_collection acme_store.
Proof.
  destruct (rename_copy_then_registry_then_drop demo_runtime demo_context 300 acme_rename
              acme_store) as [Hreg _].
  destruct (Hreg _ eq_refl) as (o & _ & Horgs & Hadm & _).
  split; [exact Horgs | exact Hadm].
Defined.

(** ** C3: what a completed rename does to the partitions *)

(** C3, as stated, fails: ["Beta Ltd"], whose partition holds one
    record, is renamed to ["acme-corp"]; the name is free in the
    registry, but its partition [org_acme_corp] is the one ["Acme Corp"]
    already uses, so after the completed rename the new partition holds
    two records, not exactly the one that was moved. *)
Lemma rename_into_used_partition :
  let run := update_organization demo_runtime demo_context no_faults 300
               (mkOrganizationUpdate "Beta Ltd" "acme-corp" "b@x.com" "password456")
               two_org_store in
  collection_docs (master_db two_org_store) "org_beta_ltd" = [init_marker 5 200] /\
  (exists r, fst run = Return r) /\
  sanitize_collection_name demo_runtime "acme-corp" = "org_acme_corp" /\
  collection_docs (master_db (snd run)) "org_acme_corp"
  = [init_marker 2 100; init_marker 5 200] /\
  collection_docs (master_db (snd run)) "org_acme_corp"
  <> collection_docs (master_db two_org_store) "org_beta_ltd".
Proof.
  vm_compute. repeat split; [eexists; reflexivity | discriminate].
Qed.

(** C3, amended.  For every organization whose partition holds N
    records, a completed Rename leaves the new partition containing the
    records it already held followed by exactly those N records,
    unmodified (so exactly those N records when the new partition was
    absent or empty, and nothing is inserted when the source is empty),
    and the old partition no longer exists afterwards; no other
    partition is touched. *)
Theorem rename_moves_records
    (py : PyRuntime) (pwd_context : CryptContext) (faults : Faults) (now : Z)
    (org_data : OrganizationUpdate) (s s' : Store) (r : list (string * Value)) :
  update_organization py pwd_context faults now org_data s = (Return r, s') ->
  exists existing_org,
    List.find (org_named (ou_organization_name org_data))
      (organizations_collection s) = Some existing_org /\
    let old_collection_name := o_collection_name existing_org in
    let new_collection_name :=
      sanitize_collection_name py (ou_new_organization_name org_data) in
    let documents := collection_docs (master_db s) old_collection_name in
    master_db s' !! old_collection_name = None /\
    (new_collection_name <> old_collection_name ->
     collection_docs (master_db s') new_collection_name
     = collection_docs (master_db s) new_collection_name ++ documents) /\
    (new_collection_name <> old_collection_name ->
     collection_docs (master_db s) new_collection_name = [] ->
     collection_docs (master_db s') new_collection_name = documents) /\
    (new_collection_name = old_collection_name -> documents = []) /\
    (documents = [] -> master_db s' = delete old_collection_name (master_db s)) /\
    (forall other,
       other <> old_collection_name -> other <> new_collection_name ->
       master_db s' !! other = master_db s !! other).
Proof.
  intros H. apply update_organization_Return in H. cbv zeta in H.
  destruct H as (o & a & Ho & _ & _ & _ & _ & Hins & _ & ->).
  exists o. split; [exact Ho|]. cbv zeta. cbn [master_db]. unfold renamed_db.
  set (oldp := o_collection_name o) in *.
  set (newp := sanitize_collection_name py (ou_new_organization_name org_data)) in *.
  assert (Hcopy : newp <> oldp ->
            collection_docs
              (delete oldp
                 match collection_docs (master_db s) oldp with
                 | [] => master_db s
                 | _ :: _ =>
                     <[newp := collection_docs (master_db s) newp
                                 ++ collection_docs (master_db s) oldp]> (master_db s)
                 end) newp
            = collection_docs (master_db s) newp ++ collection_docs (master_db s) oldp).
  { intros Hne. unfold collection_docs at 1.
    rewrite lookup_delete_ne by congruence.
    destruct (collection_docs (master_db s) oldp) as [|d rest] eqn:Hd.
    - now rewrite app_nil_r.
    - now rewrite lookup_insert_eq. }
  split; [apply lookup_delete_eq|].
  split; [exact Hcopy|].
  split; [intros Hne Hempty; rewrite (Hcopy Hne), Hempty; reflexivity|].
  split.
  { intros Heq. destruct (collection_docs (master_db s) oldp) as [|d rest] eqn:Hd;
      [reflexivity|].
    specialize (Hins ltac:(discriminate)).
    rewrite Heq, Hd, insert_ordered_self in Hins. discriminate Hins. }
  split.
  { intros ->. reflexivity. }
  intros other Ho1 Ho2. rewrite lookup_delete_ne by congruence.
  destruct (collection_docs (master_db s) oldp); [reflexivity|].
  now rewrite lookup_insert_ne by congruence.
Qed.

Lemma rename_moves_records_witness :
  master_db
    (snd (update_organization demo_runtime demo_context no_faults 300 acme_rename acme_store))
    !! "org_acme_corp" = None /\
  collection_docs
    (master_db
       (snd (update_organization demo_runtime demo_context no_faults 300 acme_rename acme_store)))
    "org_acme_inc" = [init_marker 2 100].
Proof.
  destruct (rename_moves_records demo_runtime demo_context no_faults 300 acme_rename
              acme_store _ _ eq_refl) as (o & Ho & Hold & _ & Hexact & _).
  injection Ho as <-.
  split; [exact Hold|].
  apply Hexact; [discriminate | reflexivity].
Defined.

(** ** C2: creating organizations whose names share a partition name *)

(** C2, as stated, fails: ["Acme Corp"] and ["acme-corp"] differ only by
    case and punctuation and derive the same partition name, yet the
    second Create (a valid request with a new email) completes; the two
    organizations are registered with one shared partition. *)
Lemma colliding_names_both_created :
  let second := mkOrganizationCreate "acme-corp" "b@x.com" "password456" in
  let run := create_organization demo_runtime demo_context no_faults
               (at_once 200) second acme_store in
  valid_OrganizationCreate demo_runtime second = true /\
  sanitize_collection_name demo_runtime "acme-corp"
  = sanitize_collection_name demo_runtime "Acme Corp" /\
  (exists r, fst run = Return r) /\
  List.map o_organization_name (organizations_collection (snd run))
  = ["Acme Corp"; "acme-corp"] /\
  List.map o_collection_name (organizations_collection (snd run))
  = ["org_acme_corp"; "org_acme_corp"] /\
  List.map fst (map_to_list (master_db (snd run))) = ["org_acme_corp"].
Proof.
  vm_compute. repeat split. eexists; reflexivity.
Qed.

(** C2, amended.  For every pair of Create operations whose names derive
    the same partition name, the second Create fails with status 400
    when its name is exactly the first one's name, or when its email is
    the first one's email; when the names differ (only by case or
    hyphen/space punctuation), the second name and email are not yet
    registered and the hasher takes the second password, the second
    Create completes, and both Organizations are registered with the
    same partition name, whose single Partition receives both
    initialization markers. *)
Theorem create_after_colliding_create
    (py : PyRuntime) (pwd_context : CryptContext) (clock1 clock2 : CreateClock)
    (first second : OrganizationCreate) (s s1 : Store) (r1 : list (string * Value)) :
  create_organization py pwd_context no_faults clock1 first s = (Return r1, s1) ->
  sanitize_collection_name py (oc_organization_name second)
  = sanitize_collection_name py (oc_organization_name first) ->
  (oc_organization_name second = oc_organization_name first ->
   create_organization py pwd_context no_faults clock2 second s1
   = (HTTPException HTTP_400_BAD_REQUEST "Organization name already exists", s1)) /\
  (oc_email second = oc_email first ->
   exists detail,
     create_organization py pwd_context no_faults clock2 second s1
     = (HTTPException HTTP_400_BAD_REQUEST detail, s1)) /\
  (forall hashed,
   oc_organization_name second <> oc_organization_name first ->
   List.find (org_named (oc_organization_name second))
     (organizations_collection s) = None ->
   oc_email second <> oc_email first ->
   List.find (admin_with_email (oc_email second)) (admins_collection s) = None ->
   hash pwd_context (oc_password second) = Some hashed ->
   exists r2 s2 o1 o2 oid1 oid2,
     create_organization py pwd_context no_faults clock2 second s1 = (Return r2, s2) /\
     List.find (org_named (oc_organization_name first))
       (organizations_collection s2) = Some o1 /\
     List.find (org_named (oc_organization_name second))
       (organizations_collection s2) = Some o2 /\
     o_id o1 <> o_id o2 /\
     o_collection_name o1 = sanitize_collection_name py (oc_organization_name first) /\
     o_collection_name o2 = sanitize_collection_name py (oc_organization_name first) /\
     collection_docs (master_db s2)
       (sanitize_collection_name py (oc_organization_name first))
     = collection_docs (master_db s)
         (sanitize_collection_name py (oc_organization_name first))
         ++ [init_marker oid1 (marker_created_at clock1);
             init_marker oid2 (marker_created_at clock2)]).
Proof.
  intros H1 Hsan.
  pose proof (create_organization_Return_valid _ _ _ _ _ _ _ _ H1) as Hvalid.
  rewrite <- Hsan in Hvalid.
  apply create_organization_Return in H1. cbv zeta in H1.
  destruct H1 as (Ho & Ha & _ & hashed1 & _ & ->).
  set (n1 := oc_organization_name first) in *.
  set (n2 := oc_organization_name second) in *.
  set (o1 := mkOrganization (next_oid s) n1 (sanitize_collection_name py n1)
               (org_created_at clock1) (org_updated_at clock1) "active").
  assert (Hfind1 : forall rest,
            List.find (org_named n1) ((organizations_collection s ++ [o1]) ++ rest)
            = Some o1).
  { intros rest. rewrite <- app_assoc, find_app_None by exact Ho.
    cbn [app List.find]. unfold org_named at 1. cbn [o_organization_name o1].
    now rewrite String.eqb_refl. }
  split; [|split].
  - intros Heq. unfold create_organization. unfold_m. step_goal.
    fold n2. rewrite Heq. rewrite <- (app_nil_r (_ ++ [o1])), Hfind1. reflexivity.
  - intros Hem. unfold create_organization. unfold_m. step_goal.
    fold n2.
    destruct (List.find (org_named n2) (organizations_collection s ++ [o1]));
      step_goal; [eexists; reflexivity|].
    rewrite Hem, find_app_None by exact Ha.
    cbn [List.find]. unfold admin_with_email at 1. cbn [a_email].
    rewrite String.eqb_refl. eexists; reflexivity.
  - intros hashed Hne Ho2 Hem Ha2 Hh.
    set (s1 := mkStore _ _ _ _).
    assert (Ho2' : List.find (org_named n2) (organizations_collection s1) = None).
    { cbn [s1 organizations_collection]. rewrite find_app_None by exact Ho2.
      cbn [List.find]. unfold org_named at 1. cbn [o_organization_name o1].
      destruct (String.eqb_spec n1 n2) as [E|_]; [congruence | reflexivity]. }
    assert (Ha2' : List.find (admin_with_email (oc_email second))
                     (admins_collection s1) = None).
    { cbn [s1 admins_collection]. rewrite find_app_None by exact Ha2.
      cbn [List.find]. unfold admin_with_email at 1. cbn [a_email].
      destruct (String.eqb_spec (oc_email first) (oc_email second)) as [E|_];
        [congruence | reflexivity]. }
    destruct (create_organization_fresh py pwd_context clock2 second s1 hashed
                Ho2' Ha2' Hh Hvalid) as (r2 & s2 & Hrun).
    pose proof (create_organization_Return _ _ _ _ _ _ _ _ Hrun) as Hinv.
    cbv zeta in Hinv. destruct Hinv as (_ & _ & _ & hashed2 & _ & Hs2).
    exists r2, s2, o1.
    exists (mkOrganization (next_oid s1) n2 (sanitize_collection_name py n2)
              (org_created_at clock2) (org_updated_at clock2) "active").
    exists (S (S (next_oid s))), (S (S (next_oid s1))).
    split; [exact Hrun|]. rewrite Hs2. cbn [organizations_collection master_db].
    fold n2. split; [apply Hfind1|]. split.
    { rewrite find_app_None by exact Ho2'. cbn [List.find]. unfold org_named at 1.
      cbn [o_organization_name]. now rewrite String.eqb_refl. }
    split; [cbn; lia|]. split; [reflexivity|]. split; [exact Hsan|].
    rewrite Hsan. unfold collection_docs at 1. rewrite lookup_insert_eq.
    cbn [s1 master_db]. unfold collection_docs at 1. rewrite lookup_insert_eq.
    cbn [from_option id]. now rewrite <- app_assoc.
Qed.

Lemma create_after_colliding_create_witness :
  exists r2 s2,
    create_organization demo_runtime demo_context no_faults (at_once 200)
      (mkOrganizationCreate "acme-corp" "b@x.com" "password456") acme_store
    = (Return r2, s2).
Proof.
  destruct (create_after_colliding_create demo_runtime demo_context
              (at_once 100) (at_once 200)
              (mkOrganizationCreate "Acme Corp" "a@x.com" "password123")
              (mkOrganizationCreate "acme-corp" "b@x.com" "password456")
              empty_store _ _ eq_refl eq_refl) as (_ & _ & Hok).
  destruct (Hok "$2b$password456" ltac:(discriminate) eq_refl
              ltac:(discriminate) eq_refl eq_refl)
    as (r2 & s2 & _ & _ & _ & _ & Hrun & _).
  exists r2, s2. exact Hrun.
Defined.

(** ** C6: the two login failures *)

(** Where verification returns its verdict, the two failures are
    answered alike: status 401 and the one message
    ["Invalid email or password"], the store untouched in both. *)
Lemma login_failures_same_answer
    (pwd_context : CryptContext) (now1 now2 : Z)
    (unknown wrong : AdminLogin) (s1 s2 : Store) (admin : Admin) :
  List.find (admin_with_email (al_email unknown)) (admins_collection s1) = None ->
  List.find (admin_with_email (al_email wrong)) (admins_collection s2) = Some admin ->
  verify pwd_context (al_password wrong) (a_password admin) = Some false ->
  admin_login pwd_context now1 unknown s1
  = (HTTPException HTTP_401_UNAUTHORIZED "Invalid email or password", s1) /\
  admin_login pwd_context now2 wrong s2
  = (HTTPException HTTP_401_UNAUTHORIZED "Invalid email or password", s2).
Proof.
  intros Hnone Hsome Hbad. split.
  - unfold admin_login. unfold_m. now rewrite Hnone.
  - unfold admin_login. unfold_m. now rewrite Hsome, Hbad.
Qed.

(** C6 does not hold of the code for every password.  [admin_login]
    calls the hasher only once it has found the Admin record, and does
    not catch what the hasher raises: with a password that the hasher
    refuses (one that holds a NUL character), a Login whose email
    matches an Admin ends in the hasher's exception, which the client
    sees as status 500, while the same Login with an email that matches
    no Admin is answered 401.  The two causes are told apart. *)
Theorem login_refused_password_tells_known_email
    (pwd_context : CryptContext) (now : Z) (password : string)
    (known_email unknown_email : string) (s : Store) (admin : Admin) :
  List.find (admin_with_email known_email) (admins_collection s) = Some admin ->
  List.find (admin_with_email unknown_email) (admins_collection s) = None ->
  verify pwd_context password (a_password admin) = None ->
  let known := admin_login pwd_context now (mkAdminLogin known_email password) s in
  let unknown :=
    admin_login pwd_context now (mkAdminLogin unknown_email password) s in
  known = (Raise PasswordValueError, s) /\
  unknown = (HTTPException HTTP_401_UNAUTHORIZED "Invalid email or password", s) /\
  status_code 200 (fst known) = 500%nat /\
  status_code 200 (fst unknown) = 401%nat.
Proof.
  intros Hsome Hnone Hraise. cbv zeta.
  assert (H1 : admin_login pwd_context now (mkAdminLogin known_email password) s
               = (Raise PasswordValueError, s)).
  { unfold admin_login. unfold_m. cbn [al_email al_password].
    now rewrite Hsome, Hraise. }
  assert (H2 : admin_login pwd_context now (mkAdminLogin unknown_email password) s
               = (HTTPException HTTP_401_UNAUTHORIZED "Invalid email or password", s)).
  { unfold admin_login. unfold_m. cbn [al_email]. now rewrite Hnone. }
  rewrite H1, H2. repeat split.
Qed.

(** In ["Acme Corp"]'s store, with the password [pass<NUL>word]:
    [a@x.com] gets a 500 and [nobody@x.com] a 401. *)
Lemma login_refused_password_tells_known_email_witness :
  let password := "pass" +:+ String zero "word" in
  status_code 200
    (fst (admin_login demo_context 150 (mkAdminLogin "a@x.com" password)
            acme_store)) = 500%nat /\
  status_code 200
    (fst (admin_login demo_context 150 (mkAdminLogin "nobody@x.com" password)
            acme_store)) = 401%nat.
Proof.
  cbv zeta.
  destruct (login_refused_password_tells_known_email demo_context 150
              ("pass" +:+ String zero "word") "a@x.com" "nobody@x.com" acme_store
              (mkAdmin 1 "a@x.com" "$2b$password123" 0 "Acme Corp" "admin" 100))
    as (_ & _ & H500 & H401); try reflexivity.
  split; [exact H500 | exact H401].
Defined.

(** ** C7: token validation *)

Lemma int_claim_None (py : PyRuntime) (claims : gmap string Value) (k : string)
    (check : Z -> option Decoded) :
  int_claim py claims k check = None <->
  int_claim_ok py claims k (fun z => check z = None).
Proof.
  unfold int_claim, int_claim_ok. split.
  - destruct (claims !! k) as [v|]; [|auto].
    destruct (py_int py v) as [z| |] eqn:Hv; try discriminate.
    intros Hc. right. exists v, z. auto.
  - intros [->|(v & z & -> & -> & Hc)]; [reflexivity | exact Hc].
Qed.

Lemma int_claim_ok_impl (py : PyRuntime) (claims : gmap string Value) (k : string)
    (P Q : Z -> Prop) :
  (forall z, P z -> Q z) -> int_claim_ok py claims k P -> int_claim_ok py claims k Q.
Proof.
  intros HPQ [H|(v & z & Hv & Hz & HP)]; [left; exact H|].
  right. exists v, z. auto.
Qed.

Lemma validate_iat_None (py : PyRuntime) (claims : gmap string Value) :
  validate_iat py claims = None <-> int_claim_ok py claims "iat" (fun _ => True).
Proof.
  unfold validate_iat. rewrite int_claim_None.
  split; apply int_claim_ok_impl; auto.
Qed.

Lemma validate_nbf_None (py : PyRuntime) (now : Z) (claims : gmap string Value) :
  validate_nbf py now claims = None <->
  int_claim_ok py claims "nbf" (fun nbf => nbf <= now).
Proof.
  unfold validate_nbf. rewrite int_claim_None.
  split; apply int_claim_ok_impl; intros z; destruct (Z.ltb_spec now z);
    (discriminate || lia || reflexivity).
Qed.

Lemma validate_exp_None (py : PyRuntime) (now : Z) (claims : gmap string Value) :
  validate_exp py now claims = None <->
  int_claim_ok py claims "exp" (fun exp => now <= exp).
Proof.
  unfold validate_exp. rewrite int_claim_None.
  split; apply int_claim_ok_impl; intros z; destruct (Z.ltb_spec z now);
    (discriminate || lia || reflexivity).
Qed.

Lemma str_claim_None (claims : gmap string Value) (k : string) :
  str_claim claims k = None <-> text_claim_ok claims k.
Proof.
  unfold str_claim, text_claim_ok. split.
  - destruct (claims !! k) as [v|]; [|auto].
    destruct (is_str v) eqn:Hv; [|discriminate]. intros _. right. eauto.
  - intros [->|(v & -> & ->)]; reflexivity.
Qed.

Lemma absent_claim_None (claims : gmap string Value) (k : string) :
  match claims !! k with None => None | Some _ => Some JWTError end = None
  <-> claims !! k = None.
Proof. destruct (claims !! k); split; (discriminate || reflexivity). Qed.

(** No check hands out claims: a check passes or fails. *)
Lemma int_claim_fails (py : PyRuntime) (claims : gmap string Value) (k : string)
    (check : Z -> option Decoded) (c : gmap string Value) :
  (forall z, check z <> Some (Payload c)) ->
  int_claim py claims k check <> Some (Payload c).
Proof.
  intros Hc. unfold int_claim.
  destruct (claims !! k) as [v|]; [|discriminate].
  destruct (py_int py v); [apply Hc | discriminate | discriminate].
Qed.

(** The library hands out exactly the claims that are in order. *)
Lemma validate_claims_Payload (py : PyRuntime) (now_nbf now : Z)
    (claims c : gmap string Value) :
  validate_claims py now_nbf now claims = Payload c <->
  c = claims /\ claims_valid py now_nbf now claims.
Proof.
  unfold claims_valid.
  rewrite <- validate_iat_None, <- (validate_nbf_None py now_nbf),
    <- (validate_exp_None py now), <- !str_claim_None,
    <- (absent_claim_None claims "aud"), <- (absent_claim_None claims "at_hash").
  fold (validate_aud claims) (validate_at_hash claims)
       (validate_sub claims) (validate_jti claims).
  unfold validate_claims. cbn [first_failure].
  split.
  - destruct (validate_iat py claims) as [d|] eqn:E1.
    { intros ->. exfalso. revert E1. apply int_claim_fails. discriminate. }
    destruct (validate_nbf py now_nbf claims) as [d|] eqn:E2.
    { intros ->. exfalso. revert E2. apply int_claim_fails.
      intros z. destruct (now_nbf <? z); discriminate. }
    destruct (validate_exp py now claims) as [d|] eqn:E3.
    { intros ->. exfalso. revert E3. apply int_claim_fails.
      intros z. destruct (z <? now); discriminate. }
    destruct (validate_aud claims) as [d|] eqn:E4.
    { intros ->. unfold validate_aud in E4.
      destruct (claims !! "aud"); discriminate. }
    destruct (validate_sub claims) as [d|] eqn:E5.
    { intros ->. unfold validate_sub, str_claim in E5.
      destruct (claims !! "sub") as [v|]; [destruct (is_str v)|]; discriminate. }
    destruct (validate_jti claims) as [d|] eqn:E6.
    { intros ->. unfold validate_jti, str_claim in E6.
      destruct (claims !! "jti") as [v|]; [destruct (is_str v)|]; discriminate. }
    destruct (validate_at_hash claims) as [d|] eqn:E7.
    { intros ->. unfold validate_at_hash in E7.
      destruct (claims !! "at_hash"); discriminate. }
    intros [= <-]. repeat split.
  - intros (-> & -> & -> & -> & -> & -> & -> & ->). reflexivity.
Qed.

(** On a token signed with the service key under the service algorithm
    the claim checks decide. *)
Lemma get_current_admin_service (py : PyRuntime) (now_nbf now : Z)
    (claims : gmap string Value) :
  get_current_admin py now_nbf now (Signed SECRET_KEY ALGORITHM claims)
  = match validate_claims py now_nbf now claims with
    | Payload payload =>
        match payload_get payload "sub", payload_get payload "org_id" with
        | Some email, Some org_id => Return (mkCurrentAdmin email org_id)
        | _, _ =>
            HTTPException HTTP_401_UNAUTHORIZED "Invalid authentication credentials"
        end
    | ExpiredSignatureError =>
        HTTPException HTTP_401_UNAUTHORIZED "Token has expired"
    | JWTError =>
        HTTPException HTTP_401_UNAUTHORIZED "Could not validate credentials"
    | UncaughtTypeError => Raise TypeError
    end.
Proof.
  unfold get_current_admin, jwt_decode.
  cbn [existsb]. now rewrite !String.eqb_refl.
Qed.

Lemma get_current_admin_expired (py : PyRuntime) (now_nbf now : Z)
    (claims : gmap string Value) (v : Value) (exp : Z) :
  int_claim_ok py claims "iat" (fun _ => True) ->
  int_claim_ok py claims "nbf" (fun nbf => nbf <= now_nbf) ->
  claims !! "exp" = Some v -> py_int py v = IntOk exp -> exp < now ->
  get_current_admin py now_nbf now (Signed SECRET_KEY ALGORITHM claims)
  = HTTPException HTTP_401_UNAUTHORIZED "Token has expired".
Proof.
  intros Hiat Hnbf Hv Hexp Hlt. rewrite get_current_admin_service.
  unfold validate_claims. cbn [first_failure].
  apply validate_iat_None in Hiat. apply validate_nbf_None in Hnbf.
  rewrite Hiat, Hnbf. unfold validate_exp, int_claim. rewrite Hv, Hexp.
  apply Z.ltb_lt in Hlt. now rewrite Hlt.
Qed.





Lemma payload_get_text (claims : gmap string Value) (k : string) :
  text_claim_ok claims k -> payload_get claims k = claims !! k.
Proof.
  unfold payload_get. intros [->|(v & -> & Hv)]; [reflexivity|].
  destruct v; (discriminate || reflexivity).
Qed.


Lemma get_current_admin_valid (py : PyRuntime) (now_nbf now : Z)
    (claims : gmap string Value) (email org_id : Value) :
  claims_valid py now_nbf now claims ->
  claims !! "sub" = Some email ->
  claims !! "org_id" = Some org_id -> org_id <> VNull ->
  get_current_admin py now_nbf now (Signed SECRET_KEY ALGORITHM claims)
  = Return (mkCurrentAdmin email org_id).
Proof.
  intros Hvalid Hsub Horg Hnn. rewrite get_current_admin_service.
  rewrite (proj2 (validate_claims_Payload py now_nbf now claims claims))
    by (split; [reflexivity | exact Hvalid]).
  rewrite payload_get_text by apply Hvalid. rewrite Hsub.
  unfold payload_get. rewrite Horg. destruct org_id; congruence.
Qed.





(** ** C8: token lifetimes *)

(** The claims of an issued token: the expiry is the time of issue plus
    the given duration when that duration is true as a condition, plus
    15 minutes otherwise; every other claim is the caller's (a time
    claim that is a [datetime] turned into its timestamp). *)
Lemma create_access_token_claims (now : Z) (data : gmap string Value)
    (expires_delta : option Z) :
  exists claims,
    create_access_token now data expires_delta
    = Signed SECRET_KEY ALGORITHM claims /\
    claims !! "exp"
    = Some (VInt (if timedelta_truthy expires_delta
                  then now + default 0 expires_delta
                  else now + timedelta_minutes 15)) /\
    (forall k, k <> "exp" -> k <> "iat" -> k <> "nbf" -> claims !! k = data !! k) /\
    (forall k, k <> "exp" -> data !! k = None -> claims !! k = None).
Proof.
  unfold create_access_token, jwt_encode. eexists. split; [reflexivity|]. split.
  - rewrite !lookup_alter_ne by discriminate.
    rewrite lookup_alter_eq, lookup_insert_eq. reflexivity.
  - split.
    + intros k H1 H2 H3.
      rewrite !lookup_alter_ne by congruence.
      now rewrite lookup_insert_ne by congruence.
    + intros k H1 Hk.
      destruct (decide (k = "nbf")) as [->|H2].
      { rewrite lookup_alter_eq, !lookup_alter_ne by discriminate.
        rewrite lookup_insert_ne by discriminate. now rewrite Hk. }
      rewrite (lookup_alter_ne _ _ "nbf") by congruence.
      destruct (decide (k = "iat")) as [->|H3].
      { rewrite lookup_alter_eq, !lookup_alter_ne by discriminate.
        rewrite lookup_insert_ne by discriminate. now rewrite Hk. }
      rewrite !lookup_alter_ne by congruence.
      now rewrite lookup_insert_ne by congruence.
Qed.

(** A duration other than zero is added to the time of issue; the zero
    duration and no duration both mean 15 minutes. *)
Lemma create_access_token_expiry (now : Z) (data : gmap string Value) :
  (forall d, d <> 0 ->
     exists claims,
       create_access_token now data (Some d) = Signed SECRET_KEY ALGORITHM claims /\
       claims !! "exp" = Some (VInt (now + d))) /\
  (exists claims,
     create_access_token now data (Some 0) = Signed SECRET_KEY ALGORITHM claims /\
     claims !! "exp" = Some (VInt (now + 15 * 60))) /\
  exists claims,
    create_access_token now data None = Signed SECRET_KEY ALGORITHM claims /\
    claims !! "exp" = Some (VInt (now + 15 * 60)).
Proof.
  split; [|split].
  - intros d Hd.
    destruct (create_access_token_claims now data (Some d)) as (c & Hc & Hexp & _).
    exists c. split; [exact Hc|]. rewrite Hexp. cbn [timedelta_truthy].
    destruct (Z.eqb_spec d 0); [contradiction | reflexivity].
  - destruct (create_access_token_claims now data (Some 0)) as (c & Hc & Hexp & _).
    exists c. split; [exact Hc | exact Hexp].
  - destruct (create_access_token_claims now data None) as (c & Hc & Hexp & _).
    exists c. split; [exact Hc | exact Hexp].
Qed.

(** What [admin_login] issues: a token of the service that expires 30
    minutes after the login and carries the email, organization id,
    organization name and role of the admin record, and no other claim. *)
Lemma admin_login_Return (pwd_context : CryptContext) (now : Z)
    (credentials : AdminLogin) (s s' : Store) (response : TokenResponse) :
  admin_login pwd_context now credentials s = (Return response, s') ->
  s' = s /\ token_type response = "bearer" /\
  exists admin claims,
    List.find (admin_with_email (al_email credentials)) (admins_collection s)
    = Some admin /\
    verify pwd_context (al_password credentials) (a_password admin) = Some true /\
    access_token response = Signed SECRET_KEY ALGORITHM claims /\
    claims !! "exp" = Some (VInt (now + 30 * 60)) /\
    claims !! "sub" = Some (VStr (a_email admin)) /\
    claims !! "org_id" = Some (VId (a_organization_id admin)) /\
    claims !! "org_name" = Some (VStr (a_organization_name admin)) /\
    claims !! "role" = Some (VStr (a_role admin)) /\
    forall k, k <> "exp" -> login_claims admin !! k = None -> claims !! k = None.
Proof.
  intros H. unfold admin_login in H. unfold_m_in H. break_in H.
  injection H as <- <-. cbn [token_type access_token].
  split; [reflexivity|]. split; [reflexivity|].
  destruct (create_access_token_claims now (login_claims a)
              (Some (timedelta_minutes ACCESS_TOKEN_EXPIRE_MINUTES)))
    as (c & Hc & Hexp & Hother & Habsent).
  exists a, c. split; [reflexivity|].
  split.
  { match goal with
    | E : negb ?b = false |- _ => apply negb_false_iff in E; subst b
    end. assumption. }
  split; [exact Hc|]. split; [exact Hexp|].
  rewrite !Hother by discriminate. unfold login_claims.
  repeat split. exact Habsent.
Qed.

(** The converse: known credentials that verify log in. *)
Lemma admin_login_verified (pwd_context : CryptContext) (now : Z)
    (credentials : AdminLogin) (s : Store) (admin : Admin) :
  List.find (admin_with_email (al_email credentials)) (admins_collection s)
  = Some admin ->
  verify pwd_context (al_password credentials) (a_password admin) = Some true ->
  exists claims,
    admin_login pwd_context now credentials s
    = (Return {| access_token := Signed SECRET_KEY ALGORITHM claims;
                 token_type := "bearer" |}, s) /\
    claims !! "exp" = Some (VInt (now + 30 * 60)) /\
    claims !! "sub" = Some (VStr (a_email admin)) /\
    claims !! "org_id" = Some (VId (a_organization_id admin)) /\
    claims !! "org_name" = Some (VStr (a_organization_name admin)) /\
    claims !! "role" = Some (VStr (a_role admin)).
Proof.
  intros Ha Hpw.
  destruct (create_access_token_claims now (login_claims admin)
              (Some (timedelta_minutes ACCESS_TOKEN_EXPIRE_MINUTES)))
    as (c & Hc & Hexp & Hother & _).
  exists c. split.
  - unfold admin_login. unfold_m. rewrite Ha, Hpw. cbn [negb]. now rewrite Hc.
  - split; [exact Hexp|]. rewrite !Hother by discriminate. unfold login_claims.
    repeat split.
Qed.

(** C8, as stated, fails: a ttl that is supplied and is the zero
    duration does not give the expiry [issuance + ttl].  Issued at time
    1000 with [timedelta(0)], the token expires at 1900, as if no ttl
    had been given. *)
Lemma zero_ttl_expires_after_15_minutes :
  let data : gmap string Value := {["sub" := VStr "a@x.com"]} in
  create_access_token 1000 data (Some 0) = create_access_token 1000 data None /\
  create_access_token 1000 data (Some 0)
  = Signed SECRET_KEY ALGORITHM (<["exp" := VInt 1900]> data) /\
  1900 <> 1000 + 0.
Proof. vm_compute. repeat split; discriminate. Qed.

(** C8, amended.  On claims that the library can encode,
    [create_access_token] sets the expiry of the token to the time of
    issue plus the given ttl when a ttl other than the zero duration is
    supplied (times in whole seconds, the sum within the range of
    [datetime]), and to the time of issue plus 15 minutes when no ttl is
    given.  Login succeeds for a known
    email whose password verifies, and issues its token with a ttl of
    30 minutes and the claims [sub], [org_id], [org_name] and [role]
    taken from the Admin record. *)
Theorem create_access_token_lifetimes (now : Z) (data : gmap string Value) :
  encodable data ->
  (forall d, d <> 0 -> representable (now + d) ->
     exists claims,
       create_access_token now data (Some d) = Signed SECRET_KEY ALGORITHM claims /\
       claims !! "exp" = Some (VInt (now + d))) /\
  (exists claims,
     create_access_token now data None = Signed SECRET_KEY ALGORITHM claims /\
     claims !! "exp" = Some (VInt (now + 15 * 60))) /\
  (forall pwd_context credentials s admin,
     List.find (admin_with_email (al_email credentials)) (admins_collection s)
     = Some admin ->
     verify pwd_context (al_password credentials) (a_password admin) = Some true ->
     exists response,
       admin_login pwd_context now credentials s = (Return response, s)) /\
  (forall pwd_context credentials s s' response,
     admin_login pwd_context now credentials s = (Return response, s') ->
     exists admin claims,
       List.find (admin_with_email (al_email credentials)) (admins_collection s)
       = Some admin /\
       access_token response = Signed SECRET_KEY ALGORITHM claims /\
       claims !! "exp" = Some (VInt (now + 30 * 60)) /\
       claims !! "sub" = Some (VStr (a_email admin)) /\
       claims !! "org_id" = Some (VId (a_organization_id admin)) /\
       claims !! "org_name" = Some (VStr (a_organization_name admin)) /\
       claims !! "role" = Some (VStr (a_role admin))).
Proof.
  intros _.
  destruct (create_access_token_expiry now data) as (Hd & _ & Hnone).
  split; [intros d Hnz _; exact (Hd d Hnz)|].
  split; [exact Hnone|]. split.
  - intros pwd_context credentials s admin Ha Hpw.
    destruct (admin_login_verified pwd_context now credentials s admin Ha Hpw)
      as (claims & Hrun & _).
    eexists. exact Hrun.
  - intros pwd_context credentials s s' response H.
    apply admin_login_Return in H.
    destruct H as (_ & _ & admin & claims & Ha & _ & Htok & Hexp & Hsub & Horg
                     & Hname & Hrole & _).
    exists admin, claims. repeat split; assumption.
Qed.

(** A token for one hour issued at time 1000 expires at 4600, and the
    login of ["Acme Corp"]'s admin at time 150 succeeds. *)
Lemma create_access_token_lifetimes_witness :
  (exists claims,
     create_access_token 1000 ∅ (Some 3600) = Signed SECRET_KEY ALGORITHM claims /\
     claims !! "exp" = Some (VInt 4600)) /\
  exists response,
    admin_login demo_context 150 (mkAdminLogin "a@x.com" "password123") acme_store
    = (Return response, acme_store).
Proof.
  assert (Hempty : encodable ∅) by (intros k v Hkv; discriminate Hkv).
  split.
  - destruct (create_access_token_lifetimes 1000 ∅ Hempty) as (Hd & _).
    apply (Hd 3600); [lia | unfold representable, datetime_min, datetime_max; lia].
  - destruct (create_access_token_lifetimes 150 ∅ Hempty)
      as (_ & _ & Hlogin & _).
    apply (Hlogin demo_context (mkAdminLogin "a@x.com" "password123") acme_store
             (mkAdmin 1 "a@x.com" "$2b$password123" 0 "Acme Corp" "admin" 100));
      reflexivity.
Defined.

(** ** C9 and C10: who may delete *)

(** The claims of a login token are in order until the token expires. *)
Lemma login_claims_valid (py : PyRuntime) (now_nbf now issued : Z)
    (admin : Admin) (claims : gmap string Value) :
  claims !! "exp" = Some (VInt (issued + 30 * 60)) ->
  claims !! "sub" = Some (VStr (a_email admin)) ->
  (forall k, k <> "exp" -> login_claims admin !! k = None -> claims !! k = None) ->
  now <= issued + 30 * 60 ->
  claims_valid py now_nbf now claims.
Proof.
  intros Hexp Hsub Habsent Hle.
  assert (Hno : forall k,
            k <> "exp" -> k <> "sub" -> k <> "org_id" -> k <> "org_name" ->
            k <> "role" -> claims !! k = None).
  { intros k H1 H2 H3 H4 H5. apply Habsent; [exact H1|].
    unfold login_claims. rewrite !lookup_insert_ne by congruence.
    apply lookup_empty. }
  repeat split.
  - left. apply Hno; discriminate.
  - left. apply Hno; discriminate.
  - right. exists (VInt (issued + 30 * 60)), (issued + 30 * 60). auto.
  - apply Hno; discriminate.
  - right. exists (VStr (a_email admin)). auto.
  - left. apply Hno; discriminate.
  - apply Hno; discriminate.
Qed.

Lemma find_admin_email {email : string} {admins : list Admin} {a : Admin} :
  List.find (admin_with_email email) admins = Some a -> a_email a = email.
Proof.
  intros H. apply List.find_some in H. destruct H as [_ H].
  unfold admin_with_email in H. now apply String.eqb_eq.
Qed.

(** After the registry update of a rename, the new name finds the
    renamed record. *)
Lemma find_renamed_org (name new_name collection : string) (now : Z)
    (orgs : list Organization) (o : Organization) :
  List.find (org_named name) orgs = Some o ->
  (new_name <> name -> List.find (org_named new_name) orgs = None) ->
  List.find (org_named new_name)
    (update_first (org_named name) (rename_org new_name collection now) orgs)
  = Some (rename_org new_name collection now o).
Proof.
  intros Ho Hnew. apply find_update_first; [exact Ho | |].
  - unfold org_named. cbn [o_organization_name rename_org]. apply String.eqb_refl.
  - intros y Hy Hp. destruct (String.eqb_spec new_name name) as [->|Hne]; [exact Hp|].
    apply (find_None_all _ _ (Hnew Hne)); exact Hy.
Qed.

(** C9, as stated, fails: after the admin of ["Acme Corp"] has deleted
    the organization, the token still validates and its [sub] matches
    no Admin record, yet a second Delete with it does not reach the
    subscript; it fails with the typed [404] of the registry lookup. *)
Lemma repeated_delete_is_not_found :
  let request := mkOrganizationDelete "Acme Corp" in
  let deleted := snd (delete_route demo_runtime no_faults 160 160 acme_token
                        request acme_store) in
  get_current_admin demo_runtime 170 170 acme_token
  = Return (mkCurrentAdmin (VStr "a@x.com") (VId 0)) /\
  admins_collection deleted = [] /\
  delete_route demo_runtime no_faults 170 170 acme_token request deleted
  = (HTTPException HTTP_404_NOT_FOUND "Organization not found", deleted).
Proof. vm_compute. repeat split. Qed.

(** C9, amended.  For every Delete request whose bearer token validates
    (carries [sub] and [org_id]) but whose [sub] matches no existing
    Admin record: when the target organization is in the registry,
    [delete_organization] subscripts the absent lookup result (the
    [TypeError] branch, not a failure of the taxonomy) and the store is
    unmodified; when the target organization is not in the registry,
    the request fails with [404] before the admin lookup, the store
    unmodified as well. *)
Theorem delete_without_admin_record
    (py : PyRuntime) (faults : Faults) (now_nbf now : Z) (token : Token)
    (org_data : OrganizationDelete) (s : Store) (current_admin : CurrentAdmin) :
  get_current_admin py now_nbf now token = Return current_admin ->
  (forall a, In a (admins_collection s) -> VStr (a_email a) <> ca_email current_admin) ->
  (forall organization,
     List.find (org_named (od_organization_name org_data))
       (organizations_collection s) = Some organization ->
     delete_route py faults now_nbf now token org_data s = (Raise TypeError, s)) /\
  (List.find (org_named (od_organization_name org_data))
     (organizations_collection s) = None ->
   delete_route py faults now_nbf now token org_data s
   = (HTTPException HTTP_404_NOT_FOUND "Organization not found", s)).
Proof.
  intros Htok Hnone. unfold delete_route. rewrite Htok.
  unfold delete_organization. unfold_m. split.
  - intros organization Ho. rewrite Ho.
    destruct (ca_email current_admin) as [e| | | | |] eqn:He; try reflexivity.
    rewrite find_all_false; [reflexivity|].
    intros a Ha. unfold admin_with_email.
    destruct (String.eqb_spec (a_email a) e) as [E|_]; [|reflexivity].
    exfalso. apply (Hnone a Ha). now rewrite E.
  - intros Ho. now rewrite Ho.
Qed.

Lemma delete_without_admin_record_witness :
  delete_route demo_runtime no_faults 250 250 acme_token
    (mkOrganizationDelete "Beta Ltd") beta_only_store
  = (Raise TypeError, beta_only_store).
Proof.
  refine (proj1 (delete_without_admin_record demo_runtime no_faults 250 250
                   acme_token
                   (mkOrganizationDelete "Beta Ltd") beta_only_store
                   (mkCurrentAdmin (VStr "a@x.com") (VId 0)) eq_refl _)
            _ eq_refl).
  intros a [<-|[]]; discriminate.
Defined.

(** C10.  Delete decides on the token's [sub] and on the matched Admin
    record's current [organization_name] alone: the [org_id] handed
    over by [get_current_admin] does not influence the outcome, and the
    [org_name] claim is not even handed over.  So when an admin logs in
    and the organization is then renamed, the token issued before the
    rename, which still names the old organization, deletes the
    organization under its new name for as long as it has not expired. *)
Theorem stale_token_deletes_renamed_org
    (py : PyRuntime) (pwd_context : CryptContext) (issued renamed now_nbf now : Z)
    (credentials : AdminLogin) (org_data : OrganizationUpdate)
    (s s0 s1 : Store) (response : TokenResponse) (r : list (string * Value)) :
  admin_login pwd_context issued credentials s = (Return response, s0) ->
  ou_email org_data = al_email credentials ->
  update_organization py pwd_context no_faults renamed org_data s0 = (Return r, s1) ->
  now <= issued + 30 * 60 ->
  let name := ou_organization_name org_data in
  let new_name := ou_new_organization_name org_data in
  (forall faults request current_admin org_id store,
     delete_organization faults request current_admin store
     = delete_organization faults request
         (mkCurrentAdmin (ca_email current_admin) org_id) store) /\
  (exists claims,
     access_token response = Signed SECRET_KEY ALGORITHM claims /\
     claims !! "org_name" = Some (VStr name)) /\
  exists existing_org s2,
    List.find (org_named name) (organizations_collection s0) = Some existing_org /\
    List.find (org_named new_name) (organizations_collection s1)
    = Some (rename_org new_name (sanitize_collection_name py new_name) renamed
              existing_org) /\
    delete_route py no_faults now_nbf now (access_token response)
      (mkOrganizationDelete new_name) s1
    = (Return [("message", VStr "Organization deleted successfully");
               ("organization_name", VStr new_name)], s2) /\
    organizations_collection s2
    = remove_first (org_named new_name) (organizations_collection s1) /\
    master_db s2 = delete (sanitize_collection_name py new_name) (master_db s1) /\
    admins_collection s2
    = List.filter (fun a => negb (admin_of_org new_name a)) (admins_collection s1).
Proof.
  intros Hlogin Hemail Hrename Hfresh. cbv zeta.
  split; [reflexivity|].
  apply admin_login_Return in Hlogin.
  destruct Hlogin as (-> & _ & admin & claims & Hadmin & _ & Htok & Hexp & Hsub
                      & Horg & Hname & _ & Habsent).
  pose proof (update_organization_Return_valid _ _ _ _ _ _ _ _ Hrename)
    as (Hvalid & _).
  apply update_organization_Return in Hrename. cbv zeta in Hrename.
  destruct Hrename as (o & admin' & Ho & Hadmin' & Hown & _ & Hnew & _ & _ & ->).
  rewrite Hemail, Hadmin in Hadmin'. injection Hadmin' as <-.
  pose proof (find_admin_email Hadmin) as Hmail.
  split.
  { exists claims. split; [exact Htok|]. now rewrite Hname, Hown. }
  set (new_name := ou_new_organization_name org_data) in *.
  set (s1 := mkStore _ _ _ _).
  assert (Ho1 : List.find (org_named new_name) (organizations_collection s1)
                = Some (rename_org new_name (sanitize_collection_name py new_name)
                          renamed o))
    by (apply find_renamed_org; assumption).
  assert (Ha1 : List.find (admin_with_email (al_email credentials))
                  (admins_collection s1)
                = Some (set_admin_org_name new_name admin)).
  { cbn [s1 admins_collection]. rewrite Hemail.
    apply find_update_first; [exact Hadmin | | auto].
    unfold admin_with_email. cbn [a_email set_admin_org_name]. rewrite Hmail.
    apply String.eqb_refl. }
  assert (Hgca : get_current_admin py now_nbf now (access_token response)
                 = Return (mkCurrentAdmin (VStr (a_email admin))
                             (VId (a_organization_id admin)))).
  { rewrite Htok. apply get_current_admin_valid; auto; try discriminate.
    now apply (login_claims_valid py now_nbf now issued admin). }
  exists o. eexists. split; [exact Ho|]. split; [exact Ho1|].
  unfold delete_route. rewrite Hgca.
  unfold delete_organization. unfold_m. step_goal.
  cbn [od_organization_name ca_email]. rewrite Ho1, Hmail, Ha1.
  cbn [a_organization_name set_admin_org_name]. rewrite String.eqb_refl.
  step_goal. cbn [o_collection_name rename_org]. fold new_name in Hvalid.
  rewrite Hvalid. step_goal.
  split; [reflexivity|]. cbn [organizations_collection master_db admins_collection].
  split; [reflexivity|]. split; reflexivity.
Qed.

(** ** C5: admins stay in sync with their organizations *)

Lemma NoDup_fmap_eq {A B} (f : A -> B) (l : list A) (x y : A) :
  NoDup (f <$> l) -> x ∈ l -> y ∈ l -> f x = f y -> x = y.
Proof.
  induction l as [|z t IH]; [intros _ Hx; inversion Hx|].
  rewrite fmap_cons, NoDup_cons, !elem_of_cons, list_elem_of_fmap.
  intros [Hz Hnd] [->|Hx] [->|Hy] Hf; auto.
  - exfalso. apply Hz. exists y. auto.
  - exfalso. apply Hz. exists x. auto.
Qed.

Lemma NoDup_middle_replace {A} (l1 l2 : list A) (x y : A) :
  NoDup (l1 ++ x :: l2) -> (y = x \/ y ∉ l1 ++ x :: l2) -> NoDup (l1 ++ y :: l2).
Proof.
  intros Hnd [->|Hy]; [exact Hnd|].
  rewrite NoDup_app, NoDup_cons in *. destruct Hnd as (H1 & H12 & Hx & H2).
  split; [exact H1|]. split; [|split; [|exact H2]].
  - intros z Hz1. rewrite elem_of_cons. intros [->|Hz2].
    + apply Hy. apply elem_of_app. auto.
    + apply (H12 z Hz1). apply elem_of_cons. auto.
  - intros Hy2. apply Hy. apply elem_of_app. right. apply elem_of_cons. auto.
Qed.

Lemma NoDup_fmap_filter {A B} (f : A -> B) (p : A -> bool) (l : list A) :
  NoDup (f <$> l) -> NoDup (f <$> List.filter p l).
Proof.
  induction l as [|z t IH]; [auto|].
  rewrite fmap_cons, NoDup_cons. intros [Hz Hnd]. cbn [List.filter].
  destruct (p z); [|auto].
  rewrite fmap_cons, NoDup_cons. split; [|auto].
  rewrite list_elem_of_fmap in *. intros (x & Hx & Hin). apply Hz. exists x.
  split; [exact Hx|]. apply list_elem_of_In. apply list_elem_of_In in Hin.
  apply filter_In in Hin. tauto.
Qed.

Lemma find_None_named (name : string) (orgs : list Organization) :
  List.find (org_named name) orgs = None ->
  name ∉ o_organization_name <$> orgs.
Proof.
  intros Hf. rewrite list_elem_of_fmap. intros (o & -> & Ho).
  apply list_elem_of_In in Ho. pose proof (find_None_all _ _ Hf o Ho) as Hp.
  unfold org_named in Hp. now rewrite String.eqb_refl in Hp.
Qed.

Lemma find_Some_elem {A} (p : A -> bool) (l : list A) (x : A) :
  List.find p l = Some x -> x ∈ l /\ p x = true.
Proof. intros H. apply List.find_some in H. now rewrite list_elem_of_In. Qed.

Lemma store_inv_empty : store_inv empty_store.
Proof.
  split; cbn; try constructor; intros ? H; inversion H.
Qed.

Lemma store_inv_same (s s' : Store) :
  organizations_collection s' = organizations_collection s ->
  admins_collection s' = admins_collection s ->
  next_oid s' = next_oid s ->
  store_inv s -> store_inv s'.
Proof.
  intros Ho Ha Hn [H1 H2 H3 H4 H5].
  split; rewrite ?Ho, ?Ha, ?Hn; assumption.
Qed.

Lemma store_inv_sync (s : Store) : store_inv s -> admins_in_sync s.
Proof.
  intros [_ Hids _ _ Hsync] a Ha.
  destruct (Hsync a Ha) as (o & Ho & Hid & Hname).
  split; [exists o; auto|].
  intros o' Ho' Hid'.
  assert (o' = o) as -> by (eapply NoDup_fmap_eq; eauto; congruence).
  exact Hname.
Qed.

(** The organization document alone keeps the invariant: an
    organization without admin is in nobody's way. *)
Lemma store_inv_organization (s : Store) (name collection status : string)
    (created updated : Z) (db : gmap string (list Document)) (n : nat) :
  store_inv s ->
  List.find (org_named name) (organizations_collection s) = None ->
  (next_oid s < n)%nat ->
  store_inv
    {| organizations_collection :=
         organizations_collection s ++
           [mkOrganization (next_oid s) name collection created updated status];
       admins_collection := admins_collection s;
       master_db := db;
       next_oid := n |}.
Proof.
  intros [Hnames Hids Hfresh Hadm Hsync] Hfree Hn.
  pose proof (find_None_named _ _ Hfree) as Hname.
  split; cbn [organizations_collection admins_collection next_oid].
  - rewrite fmap_app, NoDup_app. split; [exact Hnames|]. split; [|apply NoDup_singleton].
    intros x Hx. cbn. rewrite list_elem_of_singleton. intros ->. contradiction.
  - rewrite fmap_app, NoDup_app. split; [exact Hids|]. split; [|apply NoDup_singleton].
    intros x Hx. cbn. rewrite list_elem_of_singleton. intros ->.
    apply list_elem_of_fmap in Hx. destruct Hx as (o & Hid & Ho).
    specialize (Hfresh o Ho). lia.
  - intros o. rewrite elem_of_app, list_elem_of_singleton.
    intros [Ho| ->]; [specialize (Hfresh o Ho); lia | cbn; lia].
  - exact Hadm.
  - intros a Ha. destruct (Hsync a Ha) as (o & Ho & Hid & Hon). exists o.
    rewrite elem_of_app. auto.
Qed.

Lemma store_inv_create (s : Store) (name collection email password role status : string)
    (created updated admin_created : Z) (db : gmap string (list Document)) (n : nat) :
  store_inv s ->
  List.find (org_named name) (organizations_collection s) = None ->
  (next_oid s < n)%nat ->
  store_inv
    {| organizations_collection :=
         organizations_collection s ++
           [mkOrganization (next_oid s) name collection created updated status];
       admins_collection :=
         admins_collection s ++
           [mkAdmin (S (next_oid s)) email password (next_oid s) name role
              admin_created];
       master_db := db;
       next_oid := n |}.
Proof.
  intros [Hnames Hids Hfresh Hadm Hsync] Hfree Hn.
  pose proof (find_None_named _ _ Hfree) as Hname.
  split; cbn [organizations_collection admins_collection next_oid].
  - rewrite fmap_app, NoDup_app. split; [exact Hnames|]. split; [|apply NoDup_singleton].
    intros x Hx. cbn. rewrite list_elem_of_singleton. intros ->. contradiction.
  - rewrite fmap_app, NoDup_app. split; [exact Hids|]. split; [|apply NoDup_singleton].
    intros x Hx. cbn. rewrite list_elem_of_singleton. intros ->.
    apply list_elem_of_fmap in Hx. destruct Hx as (o & Hid & Ho).
    specialize (Hfresh o Ho). lia.
  - intros o. rewrite elem_of_app, list_elem_of_singleton.
    intros [Ho| ->]; [specialize (Hfresh o Ho); lia | cbn; lia].
  - rewrite fmap_app, NoDup_app. split; [exact Hadm|]. split; [|apply NoDup_singleton].
    intros x Hx. cbn. rewrite list_elem_of_singleton. intros ->.
    apply list_elem_of_fmap in Hx. destruct Hx as (a & Ha & Hin).
    destruct (Hsync a Hin) as (o & Ho & _ & Hon).
    apply Hname. apply list_elem_of_fmap. exists o. split; [congruence | exact Ho].
  - intros a. rewrite elem_of_app, list_elem_of_singleton. intros [Ha| ->].
    + destruct (Hsync a Ha) as (o & Ho & Hid & Hon). exists o.
      rewrite elem_of_app. auto.
    + eexists. rewrite elem_of_app, list_elem_of_singleton.
      split; [right; reflexivity|]. split; reflexivity.
Qed.

Lemma store_inv_rename (s : Store) (name new_name collection email : string)
    (updated : Z) (db : gmap string (list Document))
    (existing_org : Organization) (admin : Admin) :
  store_inv s ->
  List.find (org_named name) (organizations_collection s) = Some existing_org ->
  List.find (admin_with_email email) (admins_collection s) = Some admin ->
  a_organization_name admin = name ->
  (new_name <> name ->
   List.find (org_named new_name) (organizations_collection s) = None) ->
  store_inv
    {| organizations_collection :=
         update_first (org_named name) (rename_org new_name collection updated)
           (organizations_collection s);
       admins_collection :=
         update_first (admin_with_email email) (set_admin_org_name new_name)
           (admins_collection s);
       master_db := db;
       next_oid := next_oid s |}.
Proof.
  intros [Hnames Hids Hfresh Hadm Hsync] Ho Ha Hown Hnew.
  destruct (find_Some_split _ (rename_org new_name collection updated) _ _ Ho)
    as (l1 & l2 & Horgs & Hp & _ & Hu & _).
  destruct (find_Some_split _ (set_admin_org_name new_name) _ _ Ha)
    as (m1 & m2 & Hadmins & _ & _ & Hv & _).
  assert (Hoename : o_organization_name existing_org = name)
    by (unfold org_named in Hp; now apply String.eqb_eq).
  assert (Hfree : new_name = name \/
                  new_name ∉ o_organization_name <$> organizations_collection s).
  { destruct (String.eqb_spec new_name name) as [E|E]; [auto|].
    right. apply find_None_named. auto. }
  split; cbn [organizations_collection admins_collection next_oid];
    rewrite ?Hu, ?Hv.
  - rewrite Horgs, fmap_app, fmap_cons in Hnames, Hfree.
    rewrite fmap_app, fmap_cons. cbn [rename_org o_organization_name].
    rewrite Hoename in Hnames, Hfree.
    eapply NoDup_middle_replace; [exact Hnames | exact Hfree].
  - rewrite Horgs, fmap_app, fmap_cons in Hids.
    rewrite fmap_app, fmap_cons. exact Hids.
  - intros o Hin.
    assert (Hsrc : exists o0, o0 ∈ organizations_collection s /\ o_id o0 = o_id o).
    { rewrite Horgs. rewrite elem_of_app, elem_of_cons in Hin.
      destruct Hin as [H|[->|H]].
      - exists o. rewrite elem_of_app. auto.
      - exists existing_org. rewrite elem_of_app, elem_of_cons. auto.
      - exists o. rewrite elem_of_app, elem_of_cons. auto. }
    destruct Hsrc as (o0 & Ho0 & <-). auto.
  - assert (Hfree' : new_name = name \/
                     new_name ∉ a_organization_name <$> admins_collection s).
    { destruct Hfree as [E|Hfree]; [auto|]. right.
      rewrite list_elem_of_fmap. intros (a & Hname & Hin).
      destruct (Hsync a Hin) as (o & Hoin & _ & Hon).
      apply Hfree. apply list_elem_of_fmap. exists o. split; [congruence | exact Hoin]. }
    rewrite Hadmins, fmap_app, fmap_cons in Hadm, Hfree'.
    rewrite fmap_app, fmap_cons. cbn [set_admin_org_name a_organization_name].
    rewrite Hown in Hadm, Hfree'.
    eapply NoDup_middle_replace; [exact Hadm | exact Hfree'].
  - intros a Hin.
    assert (Hcase : (a ∈ admins_collection s /\ a_organization_name a <> name) \/
                    a = set_admin_org_name new_name admin).
    { rewrite Hadmins, fmap_app, fmap_cons, NoDup_app, NoDup_cons in Hadm.
      destruct Hadm as (_ & H12 & Hnot2 & _).
      rewrite Hadmins. rewrite elem_of_app, elem_of_cons in Hin.
      destruct Hin as [H|[->|H]]; [left|auto|left].
      - split; [rewrite elem_of_app; auto|]. intros E.
        apply (H12 (a_organization_name a)).
        + apply list_elem_of_fmap. eauto.
        + rewrite elem_of_cons. left. congruence.
      - split; [rewrite elem_of_app, elem_of_cons; auto|]. intros E.
        apply Hnot2. apply list_elem_of_fmap. exists a. split; [congruence | exact H]. }
    destruct Hcase as [[Ha0 Hne]| ->].
    + destruct (Hsync a Ha0) as (o & Hoin & Hid & Hon). exists o.
      split; [|auto]. rewrite Horgs in Hoin.
      rewrite elem_of_app, elem_of_cons in *.
      destruct Hoin as [H|[->|H]]; auto. congruence.
    + destruct (find_Some_elem _ _ _ Ha) as [Hain _].
      destruct (Hsync admin Hain) as (o & Hoin & Hid & Hon).
      assert (o = existing_org) as ->.
      { eapply (NoDup_fmap_eq o_organization_name); eauto.
        - rewrite Horgs, elem_of_app, elem_of_cons. auto.
        - congruence. }
      exists (rename_org new_name collection updated existing_org).
      rewrite elem_of_app, elem_of_cons. split; [auto|]. split; [exact Hid | reflexivity].
Qed.

Lemma store_inv_delete (s : Store) (name : string)
    (db : gmap string (list Document)) :
  store_inv s ->
  store_inv
    {| organizations_collection :=
         remove_first (org_named name) (organizations_collection s);
       admins_collection :=
         List.filter (fun a => negb (admin_of_org name a)) (admins_collection s);
       master_db := db;
       next_oid := next_oid s |}.
Proof.
  intros Hinv.
  destruct (List.find (org_named name) (organizations_collection s))
    as [o|] eqn:Ho.
  - destruct Hinv as [Hnames Hids Hfresh Hadm Hsync].
    destruct (find_Some_split _ id _ _ Ho) as (l1 & l2 & Horgs & Hp & _ & _ & Hr).
    assert (Honame : o_organization_name o = name)
      by (unfold org_named in Hp; now apply String.eqb_eq).
    assert (Hsub : forall x, x ∈ l1 ++ l2 -> x ∈ organizations_collection s).
    { intros x. rewrite Horgs, !elem_of_app, elem_of_cons. tauto. }
    split; cbn [organizations_collection admins_collection next_oid]; rewrite ?Hr.
    + rewrite Horgs, fmap_app, fmap_cons in Hnames. rewrite fmap_app.
      rewrite NoDup_app, NoDup_cons in *. destruct Hnames as (H1 & H12 & _ & H2).
      split; [exact H1|]. split; [|exact H2].
      intros x Hx1 Hx2. apply (H12 x Hx1). rewrite elem_of_cons. auto.
    + rewrite Horgs, fmap_app, fmap_cons in Hids. rewrite fmap_app.
      rewrite NoDup_app, NoDup_cons in *. destruct Hids as (H1 & H12 & _ & H2).
      split; [exact H1|]. split; [|exact H2].
      intros x Hx1 Hx2. apply (H12 x Hx1). rewrite elem_of_cons. auto.
    + intros x Hx. auto.
    + apply NoDup_fmap_filter. exact Hadm.
    + intros a Hin. apply list_elem_of_In, filter_In in Hin.
      destruct Hin as [Hin Hkeep]. apply list_elem_of_In in Hin.
      destruct (Hsync a Hin) as (o' & Hoin & Hid & Hon). exists o'.
      split; [|auto]. rewrite Horgs in Hoin.
      rewrite elem_of_app, elem_of_cons in *.
      destruct Hoin as [H|[->|H]]; auto.
      unfold admin_of_org in Hkeep. rewrite <- Hon, Honame, String.eqb_refl in Hkeep.
      discriminate Hkeep.
  - destruct (find_None_update_first _ id _ Ho) as [_ Hr].
    pose proof Hinv as [Hnames Hids Hfresh Hadm Hsync].
    split; cbn [organizations_collection admins_collection next_oid]; rewrite ?Hr;
      auto using NoDup_fmap_filter.
    intros a Hin. apply list_elem_of_In, filter_In in Hin.
    destruct Hin as [Hin _]. apply list_elem_of_In in Hin. auto.
Qed.

Section Invariant.

Variable py : PyRuntime.
Variable pwd_context : CryptContext.

Lemma delete_organization_Return faults org_data current_admin s r s' :
  delete_organization faults org_data current_admin s = (Return r, s') ->
  exists organization,
    List.find (org_named (od_organization_name org_data))
      (organizations_collection s) = Some organization /\
    s' = {| organizations_collection :=
              remove_first (org_named (od_organization_name org_data))
                (organizations_collection s);
            admins_collection :=
              List.filter
                (fun a => negb (admin_of_org (od_organization_name org_data) a))
                (admins_collection s);
            master_db := delete (o_collection_name organization) (master_db s);
            next_oid := next_oid s |}.
Proof.
  intros H. unfold delete_organization in H. unfold_m_in H. break_in H.
  all: injection H as <- <-; simplify_eq; eexists; split; reflexivity.
Qed.

Lemma store_inv_create_organization clock org_data s :
  store_inv s ->
  store_inv (snd (create_organization py pwd_context no_faults clock org_data s)).
Proof.
  intros Hinv.
  destruct (create_organization py pwd_context no_faults clock org_data s)
    as [out s'] eqn:H.
  destruct out as [r|c d|e]; cbn [snd].
  - apply create_organization_Return in H. cbv zeta in H.
    destruct H as (Ho & _ & _ & hashed & _ & ->).
    apply store_inv_create; [exact Hinv | exact Ho | lia].
  - unfold create_organization in H. unfold_m_in H.
    cbv beta delta [no_faults] in H. break_in H.
    all: injection H as <- <- <-; exact Hinv.
  - unfold create_organization in H. unfold_m_in H.
    cbv beta delta [no_faults] in H. break_in H.
    all: try congruence.
    all: injection H as <- <-.
    all: first [apply store_inv_organization | apply store_inv_create];
      [exact Hinv | now apply is_some_false | lia].
Qed.

Lemma store_inv_update_organization (now : Z) org_data s :
  store_inv s ->
  store_inv (snd (update_organization py pwd_context no_faults now org_data s)).
Proof.
  intros Hinv.
  destruct (update_organization py pwd_context no_faults now org_data s)
    as [out s'] eqn:H.
  destruct out as [r|c d|e]; cbn [snd].
  - apply update_organization_Return in H. cbv zeta in H.
    destruct H as (o & a & Ho & Ha & Hown & _ & Hnew & _ & _ & ->).
    eapply store_inv_rename; eauto.
  - unfold update_organization in H. unfold_m_in H.
    cbv beta delta [no_faults] in H. break_in H.
    all: injection H as <- <- <-; exact Hinv.
  - unfold update_organization in H. unfold_m_in H.
    cbv beta delta [no_faults] in H. break_in H.
    all: injection H as <- <-.
    all: eapply store_inv_same; [| | |exact Hinv]; reflexivity.
Qed.

Lemma store_inv_delete_route now_nbf now token org_data s :
  store_inv s ->
  store_inv (snd (delete_route py no_faults now_nbf now token org_data s)).
Proof.
  intros Hinv. unfold delete_route.
  destruct (get_current_admin py now_nbf now token) as [current_admin|c d|e];
    [|exact Hinv..].
  destruct (delete_organization no_faults org_data current_admin s)
    as [out s'] eqn:H.
  destruct out as [r|c d|e]; cbn [snd].
  - apply delete_organization_Return in H. destruct H as (o & _ & ->).
    apply store_inv_delete. exact Hinv.
  - unfold delete_organization in H. unfold_m_in H.
    cbv beta delta [no_faults] in H. break_in H.
    all: injection H as <- <- <-; exact Hinv.
  - unfold delete_organization in H. unfold_m_in H.
    cbv beta delta [no_faults] in H. break_in H.
    all: injection H as <- <-; exact Hinv.
Qed.

Lemma admin_login_store now credentials s :
  snd (admin_login pwd_context now credentials s) = s.
Proof.
  unfold admin_login. unfold_m.
  destruct (List.find _ _) as [a|]; [|reflexivity].
  destruct (verify _ _ _) as [[]|]; reflexivity.
Qed.

Lemma reachable_store_inv s : reachable py pwd_context s -> store_inv s.
Proof.
  induction 1 as [|s request _ IH]; [exact store_inv_empty|].
  destruct request as [clock d|now d|now_nbf now token d|now c]; cbn [serve].
  - now apply store_inv_create_organization.
  - now apply store_inv_update_organization.
  - now apply store_inv_delete_route.
  - now rewrite admin_login_store.
Qed.

End Invariant.

(** C5.  After every Create, Rename and Delete of the lifecycle (served
    without store failures), and so in every store the service can
    reach from the empty database, every Admin record's
    [organization_name] equals the current [organization_name] of the
    Organization record its [organization_id] refers to, and that
    record exists. *)
Theorem admins_follow_organizations (py : PyRuntime) (pwd_context : CryptContext) (s : Store) :
  reachable py pwd_context s -> admins_in_sync s.
Proof.
  intros H. apply store_inv_sync. eapply reachable_store_inv. exact H.
Qed.

Lemma admins_follow_organizations_witness :
  admins_in_sync
    (serve demo_runtime demo_context (UpdateRequest 300 acme_rename)
       (serve demo_runtime demo_context
          (CreateRequest (at_once 100)
             (mkOrganizationCreate "Acme Corp" "a@x.com" "password123"))
          empty_store)).
Proof.
  apply (admins_follow_organizations demo_runtime demo_context).
  apply reachable_serve. apply reachable_serve. apply reachable_empty.
Defined.

Lemma stale_token_deletes_renamed_org_witness :
  exists s2,
    delete_route demo_runtime no_faults 1000 1000 acme_token
      (mkOrganizationDelete "Acme Inc")
      (snd (update_organization demo_runtime demo_context no_faults 300
              acme_rename acme_store))
    = (Return [("message", VStr "Organization deleted successfully");
               ("organization_name", VStr "Acme Inc")], s2).
Proof.
  destruct (stale_token_deletes_renamed_org demo_runtime demo_context
              150 300 1000 1000
              (mkAdminLogin "a@x.com" "password123") acme_rename
              acme_store _ _ _ _ eq_refl eq_refl eq_refl ltac:(lia))
    as (_ & _ & o & s2 & _ & _ & Hdel & _).
  exists s2. exact Hdel.
Defined.

(** * Further properties of the handlers *)

(** ** Partition names *)

Lemma map_chars_length (f : ascii -> ascii) (s : string) :
  String.length (PyStr.map_chars f s) = String.length s.
Proof. induction s as [|c t IH]; cbn; [reflexivity | now rewrite IH]. Qed.

Lemma map_chars_In (f : ascii -> ascii) (s : string) (c : ascii) :
  In c (list_ascii_of_string (PyStr.map_chars f s)) ->
  exists c0, In c0 (list_ascii_of_string s) /\ c = f c0.
Proof.
  induction s as [|c1 t IH]; cbn; [intros []|].
  intros [<-|H]; [eauto|]. destruct (IH H) as (c0 & Hin & ->). eauto.
Qed.

Lemma underscore_char_range (c : ascii) :
  underscore_char c <> " "%char /\ underscore_char c <> "-"%char.
Proof.
  unfold underscore_char.
  destruct (Ascii.eqb_spec c " ") as [->|H1]; [split; discriminate|].
  destruct (Ascii.eqb_spec c "-") as [->|H2]; [split; discriminate|].
  cbn [orb]. split; assumption.
Qed.

(** X1.  A derived partition name is the tag [org_] followed by as many
    characters as the lower-cased organization name has, none of which
    is a space or a hyphen. *)
Theorem sanitize_collection_name_alphabet (py : PyRuntime) (name : string) :
  exists body,
    sanitize_collection_name py name = "org_" +:+ body /\
    String.length body = String.length (str_lower py name) /\
    forall c, In c (list_ascii_of_string body) -> c <> " "%char /\ c <> "-"%char.
Proof.
  exists (PyStr.map_chars underscore_char (str_lower py name)).
  split; [apply sanitize_is_rule|]. split; [apply map_chars_length|].
  intros c Hc. apply map_chars_In in Hc. destruct Hc as (c0 & _ & ->).
  apply underscore_char_range.
Qed.

(** X2.  No organization name derives the name of one of the two master
    collections, so a partition never aliases the registry or the admin
    table of the same database. *)
Theorem sanitize_collection_name_not_master (py : PyRuntime) (name : string) :
  sanitize_collection_name py name <> "organizations" /\
  sanitize_collection_name py name <> "admins".
Proof.
  rewrite sanitize_is_rule. unfold partition_name_rule.
  cbn [String.append]. split; discriminate.
Qed.

(** ** Failures and the store *)

Section Failures.

Variable py : PyRuntime.
Variable pwd_context : CryptContext.

Lemma create_organization_http faults clock org_data s c d s' :
  create_organization py pwd_context faults clock org_data s = (HTTPException c d, s') ->
  s' = s.
Proof.
  intros H. unfold create_organization in H. unfold_m_in H. break_in H.
  all: congruence.
Qed.

Lemma update_organization_http faults (now : Z) org_data s c d s' :
  update_organization py pwd_context faults now org_data s = (HTTPException c d, s') ->
  s' = s.
Proof.
  intros H. unfold update_organization in H. unfold_m_in H. break_in H.
  all: congruence.
Qed.

Lemma delete_organization_http faults org_data current_admin s c d s' :
  delete_organization faults org_data current_admin s = (HTTPException c d, s') ->
  s' = s.
Proof.
  intros H. unfold delete_organization in H. unfold_m_in H. break_in H.
  all: congruence.
Qed.

Lemma delete_route_http faults now_nbf now token org_data s c d s' :
  delete_route py faults now_nbf now token org_data s = (HTTPException c d, s') ->
  s' = s.
Proof.
  unfold delete_route.
  destruct (get_current_admin py now_nbf now token) as [current_admin|c0 d0|e].
  - apply delete_organization_http.
  - congruence.
  - congruence.
Qed.

Lemma admin_login_any now credentials s out s' :
  admin_login pwd_context now credentials s = (out, s') -> s' = s.
Proof.
  intros H. pose proof (admin_login_store pwd_context now credentials s) as E.
  rewrite H in E. exact E.
Qed.

Lemma get_organization_any isoformat name s out s' :
  get_organization isoformat name s = (out, s') -> s' = s.
Proof.
  unfold get_organization. unfold_m.
  destruct (List.find _ _); congruence.
Qed.

End Failures.

(** X4.  Whatever writes the store fails to carry out, a request that is
    answered with an HTTP error status has not modified the store: this
    holds for Create, Rename and Delete; Login and Get never modify the
    store, whatever they answer. *)
Theorem http_errors_leave_store (py : PyRuntime) (pwd_context : CryptContext) (faults : Faults)
    (now : Z) (s s' : Store) (c : nat) (d : string) :
  (forall clock org_data,
     create_organization py pwd_context faults clock org_data s
     = (HTTPException c d, s') -> s' = s) /\
  (forall org_data,
     update_organization py pwd_context faults now org_data s
     = (HTTPException c d, s') -> s' = s) /\
  (forall now_nbf token org_data,
     delete_route py faults now_nbf now token org_data s
     = (HTTPException c d, s') -> s' = s) /\
  (forall credentials out,
     admin_login pwd_context now credentials s = (out, s') -> s' = s) /\
  (forall isoformat name out,
     get_organization isoformat name s = (out, s') -> s' = s).
Proof.
  split; [intros ? ?; apply create_organization_http|].
  split; [intros ?; apply update_organization_http|].
  split; [intros ? ? ?; apply delete_route_http|].
  split; [intros ? ?; apply admin_login_any|].
  intros ? ? ?; apply get_organization_any.
Qed.

Lemma http_errors_leave_store_witness :
  snd (update_organization demo_runtime demo_context no_faults 300
         (mkOrganizationUpdate "Acme Corp" "Acme Inc" "a@x.com" "wrongpassword")
         acme_store)
  = acme_store.
Proof.
  destruct (http_errors_leave_store demo_runtime demo_context no_faults 300
              acme_store
              (snd (update_organization demo_runtime demo_context no_faults 300
                      (mkOrganizationUpdate "Acme Corp" "Acme Inc" "a@x.com"
                         "wrongpassword") acme_store))
              HTTP_403_FORBIDDEN "Unauthorized: Invalid password")
    as (_ & Hupdate & _).
  apply (Hupdate (mkOrganizationUpdate "Acme Corp" "Acme Inc" "a@x.com"
                    "wrongpassword")).
  reflexivity.
Defined.

(** ** Create: its answers, and what a failed write leaves behind *)

Section CreateAnswers.

Variable py : PyRuntime.
Variable pwd_context : CryptContext.

Lemma create_organization_name_taken faults clock org_data s o :
  List.find (org_named (oc_organization_name org_data))
    (organizations_collection s) = Some o ->
  create_organization py pwd_context faults clock org_data s
  = (HTTPException HTTP_400_BAD_REQUEST "Organization name already exists", s).
Proof.
  intros Ho. unfold create_organization. unfold_m. now rewrite Ho.
Qed.

Lemma create_organization_email_taken faults clock org_data s a :
  List.find (org_named (oc_organization_name org_data))
    (organizations_collection s) = None ->
  List.find (admin_with_email (oc_email org_data)) (admins_collection s) = Some a ->
  create_organization py pwd_context faults clock org_data s
  = (HTTPException HTTP_400_BAD_REQUEST "Admin email already exists", s).
Proof.
  intros Ho Ha. unfold create_organization. unfold_m.
  rewrite Ho. cbn [is_some]. now rewrite Ha.
Qed.

Lemma find_with_organization clock name s :
  List.find (org_named name) (organizations_collection s) = None ->
  exists o,
    List.find (org_named name)
      (organizations_collection (with_organization py clock name s)) = Some o.
Proof.
  intros Ho. cbn [with_organization organizations_collection].
  eexists. rewrite find_app_None by exact Ho. cbn [List.find].
  unfold org_named at 1. cbn [o_organization_name]. now rewrite String.eqb_refl.
Qed.

Lemma create_organization_registers faults clock org_data s r s' :
  create_organization py pwd_context faults clock org_data s = (Return r, s') ->
  exists o,
    List.find (org_named (oc_organization_name org_data))
      (organizations_collection s') = Some o.
Proof.
  intros H. apply create_organization_Return in H. cbv zeta in H.
  destruct H as (Ho & _ & _ & hashed & _ & ->). cbn [organizations_collection].
  eexists. rewrite find_app_None by exact Ho. cbn [List.find].
  unfold org_named at 1. cbn [o_organization_name]. now rewrite String.eqb_refl.
Qed.

Lemma find_with_organization_and_admin clock name email hashed s :
  List.find (org_named name) (organizations_collection s) = None ->
  exists o,
    List.find (org_named name)
      (organizations_collection
         (with_organization_and_admin py clock name email hashed s)) = Some o.
Proof.
  intros Ho. cbn [with_organization_and_admin organizations_collection].
  eexists. rewrite find_app_None by exact Ho. cbn [List.find].
  unfold org_named at 1. cbn [o_organization_name]. now rewrite String.eqb_refl.
Qed.

Lemma create_organization_table clock org_data s :
  if is_some (List.find (org_named (oc_organization_name org_data))
                (organizations_collection s))
  then
    create_organization py pwd_context no_faults clock org_data s
    = (HTTPException HTTP_400_BAD_REQUEST "Organization name already exists", s)
  else if is_some (List.find (admin_with_email (oc_email org_data))
                     (admins_collection s))
  then
    create_organization py pwd_context no_faults clock org_data s
    = (HTTPException HTTP_400_BAD_REQUEST "Admin email already exists", s)
  else
    match hash pwd_context (oc_password org_data) with
    | None =>
        create_organization py pwd_context no_faults clock org_data s
        = (Raise PasswordValueError,
           with_organization py clock (oc_organization_name org_data) s)
    | Some hashed =>
        if valid_collection_name
             (sanitize_collection_name py (oc_organization_name org_data))
        then
          exists r s',
            create_organization py pwd_context no_faults clock org_data s
            = (Return r, s')
        else
          create_organization py pwd_context no_faults clock org_data s
          = (Raise InvalidName,
             with_organization_and_admin py clock (oc_organization_name org_data)
               (oc_email org_data) hashed s)
    end.
Proof.
  destruct (List.find (org_named _) _) as [o|] eqn:Ho; cbn [is_some].
  - eapply create_organization_name_taken; eauto.
  - destruct (List.find (admin_with_email _) _) as [a|] eqn:Ha; cbn [is_some].
    + eapply create_organization_email_taken; eauto.
    + destruct (hash pwd_context (oc_password org_data)) as [hashed|] eqn:Hh.
      * destruct (valid_collection_name _) eqn:Hv.
        -- now apply (create_organization_fresh py pwd_context clock org_data s
                        hashed).
        -- now apply create_organization_invalid_name.
      * now apply create_organization_refused.
Qed.

End CreateAnswers.


(** X6.  Posting the same create request twice is always answered with
    a 400 the second time, whatever the store held and whatever the
    first answer was; so [test_duplicate_organization] passes against
    any store. *)
Theorem duplicate_create_is_rejected (py : PyRuntime) (pwd_context : CryptContext)
    (clock1 clock2 : CreateClock) (org_data : OrganizationCreate) (s : Store) :
  let s1 := snd (create_organization py pwd_context no_faults clock1 org_data s) in
  (exists detail,
     create_organization py pwd_context no_faults clock2 org_data s1
     = (HTTPException HTTP_400_BAD_REQUEST detail, s1)) /\
  fst (test_duplicate_organization py pwd_context clock1 clock2 s) = true.
Proof.
  assert (Hgen : forall org_data,
            let s1 :=
              snd (create_organization py pwd_context no_faults clock1 org_data s) in
            exists detail,
              create_organization py pwd_context no_faults clock2 org_data s1
              = (HTTPException HTTP_400_BAD_REQUEST detail, s1)).
  { clear org_data. intros org_data. cbv zeta.
    pose proof (create_organization_table py pwd_context clock1 org_data s) as T1.
    destruct (List.find (org_named (oc_organization_name org_data))
                (organizations_collection s)) as [o|] eqn:Ho; cbn [is_some] in T1.
    { rewrite T1. cbn [snd]. eexists.
      eapply create_organization_name_taken. exact Ho. }
    destruct (List.find (admin_with_email (oc_email org_data))
                (admins_collection s)) as [a|] eqn:Ha; cbn [is_some] in T1.
    { rewrite T1. cbn [snd]. eexists.
      eapply create_organization_email_taken; eassumption. }
    destruct (hash pwd_context (oc_password org_data)) as [hashed|].
    - destruct (valid_collection_name _).
      + destruct T1 as (r & s1 & T1). rewrite T1. cbn [snd].
        destruct (create_organization_registers _ _ _ _ _ _ _ _ T1) as (o & Ho1).
        eexists. eapply create_organization_name_taken. exact Ho1.
      + rewrite T1. cbn [snd].
        destruct (find_with_organization_and_admin py clock1 _
                    (oc_email org_data) hashed _ Ho) as (o & Ho1).
        eexists. eapply create_organization_name_taken. exact Ho1.
    - rewrite T1. cbn [snd].
      destruct (find_with_organization py clock1 _ _ Ho) as (o & Ho1).
      eexists. eapply create_organization_name_taken. exact Ho1. }
  split; [apply Hgen|].
  unfold test_duplicate_organization. cbv zeta.
  destruct (Hgen (mkOrganizationCreate "TestOrg2" "admin@testorg2.com" "TestPass123"))
    as (detail & ->).
  reflexivity.
Qed.

(** ** The records of the partitions in reachable stores *)

Lemma collection_docs_elem (db : gmap string (list Document)) (p : string)
    (d : Document) :
  d ∈ collection_docs db p -> exists docs, db !! p = Some docs /\ d ∈ docs.
Proof.
  unfold collection_docs. destruct (db !! p) as [docs|]; cbn.
  - eauto.
  - intros H. inversion H.
Qed.

Lemma collection_docs_Some (db : gmap string (list Document)) (p : string)
    (docs : list Document) :
  db !! p = Some docs -> collection_docs db p = docs.
Proof. intros H. unfold collection_docs. now rewrite H. Qed.

Lemma collection_docs_nonempty (db : gmap string (list Document)) (p : string)
    (d : Document) (rest : list Document) :
  collection_docs db p = d :: rest -> db !! p = Some (d :: rest).
Proof.
  unfold collection_docs. destruct (db !! p) as [docs|]; cbn; congruence.
Qed.

Lemma existsb_has_id_false (i : nat) (present : list Document) :
  (forall x, x ∈ present -> doc_id x <> i) -> existsb (has_id i) present = false.
Proof.
  induction present as [|x t IH]; [reflexivity|].
  intros H. cbn [existsb]. unfold has_id at 1.
  destruct (Nat.eqb_spec (doc_id x) i) as [E|_].
  - exfalso. apply (H x); [apply list_elem_of_here | exact E].
  - cbn. apply IH. intros y Hy. apply H. now apply list_elem_of_further.
Qed.

(** Documents whose identifiers are distinct from one another and from
    those present are all written. *)
Lemma insert_ordered_disjoint (docs present : list Document) :
  NoDup (doc_id <$> docs) ->
  (forall x y, x ∈ present -> y ∈ docs -> doc_id x <> doc_id y) ->
  insert_ordered present docs = (present ++ docs, true).
Proof.
  revert present. induction docs as [|d rest IH]; intros present Hnd Hdis.
  - cbn. now rewrite app_nil_r.
  - cbn [insert_ordered]. rewrite fmap_cons, NoDup_cons in Hnd.
    destruct Hnd as [Hd Hnd].
    rewrite existsb_has_id_false.
    + rewrite IH; [now rewrite <- app_assoc | exact Hnd |].
      intros x y Hx Hy. rewrite elem_of_app, list_elem_of_singleton in Hx.
      destruct Hx as [Hx| ->].
      * apply Hdis; [exact Hx | now apply list_elem_of_further].
      * intros E. apply Hd. apply list_elem_of_fmap. eauto.
    + intros x Hx. apply Hdis; [exact Hx | apply list_elem_of_here].
Qed.

Lemma insert_ordered_self_written (d : Document) (rest : list Document) :
  insert_ordered (d :: rest) (d :: rest) = (d :: rest, false).
Proof.
  cbn [insert_ordered existsb]. unfold has_id at 1. now rewrite Nat.eqb_refl.
Qed.

Lemma partitions_inv_empty : partitions_inv empty_store.
Proof.
  split; cbn [empty_store master_db]; intros *; rewrite ?lookup_empty; congruence.
Qed.

Lemma partitions_inv_later (s : Store) (orgs : list Organization)
    (admins : list Admin) (n : nat) :
  partitions_inv s -> (next_oid s <= n)%nat ->
  partitions_inv
    {| organizations_collection := orgs;
       admins_collection := admins;
       master_db := master_db s;
       next_oid := n |}.
Proof.
  intros [Hfresh Hnd Hdis] Hn. split; cbn [master_db next_oid].
  - intros p docs d Hp Hd. specialize (Hfresh p docs d Hp Hd). lia.
  - exact Hnd.
  - exact Hdis.
Qed.

Lemma partitions_inv_create (s : Store) (orgs : list Organization)
    (admins : list Admin) (c : string) (fields : list (string * Value)) :
  partitions_inv s ->
  partitions_inv
    {| organizations_collection := orgs;
       admins_collection := admins;
       master_db :=
         <[c := collection_docs (master_db s) c
                  ++ [mkDocument (S (S (next_oid s))) fields]]> (master_db s);
       next_oid := S (S (S (next_oid s))) |}.
Proof.
  intros [Hfresh Hnd Hdis].
  assert (Hnew : forall d,
            d ∈ collection_docs (master_db s) c
                  ++ [mkDocument (S (S (next_oid s))) fields] ->
            (d ∈ collection_docs (master_db s) c /\ (doc_id d < next_oid s)%nat) \/
            doc_id d = S (S (next_oid s))).
  { intros d. rewrite elem_of_app, list_elem_of_singleton. intros [Hd| ->]; [|auto].
    left. split; [exact Hd|].
    destruct (collection_docs_elem _ _ _ Hd) as (docs & Hp & Hin). eauto. }
  split; cbn [master_db next_oid].
  - intros p docs d Hp Hd. destruct (decide (p = c)) as [->|Hne].
    + rewrite lookup_insert_eq in Hp. injection Hp as <-.
      destruct (Hnew d Hd) as [[_ H]|H]; lia.
    + rewrite lookup_insert_ne in Hp by congruence.
      specialize (Hfresh p docs d Hp Hd). lia.
  - intros p docs Hp. destruct (decide (p = c)) as [->|Hne].
    + rewrite lookup_insert_eq in Hp. injection Hp as <-.
      rewrite fmap_app, NoDup_app. split; [|split; [|apply NoDup_singleton]].
      * unfold collection_docs. destruct (master_db s !! c) as [docs|] eqn:E; cbn.
        -- eauto.
        -- constructor.
      * intros i Hi. cbn. rewrite list_elem_of_singleton. intros ->.
        apply list_elem_of_fmap in Hi. destruct Hi as (d & Hid & Hd).
        destruct (collection_docs_elem _ _ _ Hd) as (docs & Hp & Hin).
        specialize (Hfresh c docs d Hp Hin). lia.
    + rewrite lookup_insert_ne in Hp by congruence. eauto.
  - intros p q dp dq x y Hpq Hp Hq Hx Hy.
    destruct (decide (p = c)) as [->|Hcp]; destruct (decide (q = c)) as [->|Hcq];
      try congruence.
    + rewrite lookup_insert_eq in Hp. injection Hp as <-.
      rewrite lookup_insert_ne in Hq by congruence.
      destruct (Hnew x Hx) as [[Hx0 _]|Hid].
      * destruct (collection_docs_elem _ _ _ Hx0) as (docs & Hp & Hin). eauto.
      * specialize (Hfresh q dq y Hq Hy). lia.
    + rewrite lookup_insert_eq in Hq. injection Hq as <-.
      rewrite lookup_insert_ne in Hp by congruence.
      destruct (Hnew y Hy) as [[Hy0 _]|Hid].
      * destruct (collection_docs_elem _ _ _ Hy0) as (docs & Hq & Hin). eauto.
      * specialize (Hfresh p dp x Hp Hx). lia.
    + rewrite lookup_insert_ne in Hp by congruence.
      rewrite lookup_insert_ne in Hq by congruence. eauto.
Qed.

Lemma partitions_inv_drop (s : Store) (orgs : list Organization)
    (admins : list Admin) (c : string) :
  partitions_inv s ->
  partitions_inv
    {| organizations_collection := orgs;
       admins_collection := admins;
       master_db := delete c (master_db s);
       next_oid := next_oid s |}.
Proof.
  intros [Hfresh Hnd Hdis].
  assert (Hsub : forall p docs,
            delete c (master_db s) !! p = Some docs -> master_db s !! p = Some docs).
  { intros p docs. destruct (decide (p = c)) as [->|Hne].
    - rewrite lookup_delete_eq. discriminate.
    - now rewrite lookup_delete_ne by congruence. }
  split; cbn [master_db next_oid]; eauto.
Qed.

Lemma partitions_inv_copy (s : Store) (orgs : list Organization)
    (admins : list Admin) (oldp newp : string) :
  partitions_inv s ->
  newp <> oldp ->
  partitions_inv
    {| organizations_collection := orgs;
       admins_collection := admins;
       master_db :=
         delete oldp
           (<[newp := collection_docs (master_db s) newp
                        ++ collection_docs (master_db s) oldp]> (master_db s));
       next_oid := next_oid s |}.
Proof.
  intros [Hfresh Hnd Hdis] Hne.
  set (db' := delete oldp (<[newp := _]> (master_db s))).
  assert (Hsrc : forall d,
            d ∈ collection_docs (master_db s) newp
                  ++ collection_docs (master_db s) oldp ->
            exists p docs, (p = newp \/ p = oldp) /\
              master_db s !! p = Some docs /\ d ∈ docs).
  { intros d. rewrite elem_of_app. intros [Hd|Hd];
      destruct (collection_docs_elem _ _ _ Hd) as (docs & Hp & Hin); eauto 6. }
  assert (Hlook : forall p docs, db' !! p = Some docs ->
            (p = newp /\ docs = collection_docs (master_db s) newp
                                  ++ collection_docs (master_db s) oldp) \/
            (p <> newp /\ p <> oldp /\ master_db s !! p = Some docs)).
  { intros p docs. unfold db'. destruct (decide (p = oldp)) as [->|Ho].
    - rewrite lookup_delete_eq. discriminate.
    - rewrite lookup_delete_ne by congruence.
      destruct (decide (p = newp)) as [->|Hn].
      + rewrite lookup_insert_eq. intros [= <-]. auto.
      + rewrite lookup_insert_ne by congruence. auto. }
  split; cbn [master_db next_oid]; fold db'.
  - intros p docs d Hp Hd. destruct (Hlook p docs Hp) as [[-> ->]|(_ & _ & Hp0)].
    + destruct (Hsrc d Hd) as (p0 & docs0 & _ & Hp0 & Hin). eauto.
    + eauto.
  - intros p docs Hp. destruct (Hlook p docs Hp) as [[-> ->]|(_ & _ & Hp0)];
      [|eauto].
    rewrite fmap_app, NoDup_app. split; [|split].
    + unfold collection_docs. destruct (master_db s !! newp) eqn:E; cbn;
        [eauto | constructor].
    + intros i Hi1 Hi2. apply list_elem_of_fmap in Hi1, Hi2.
      destruct Hi1 as (x & -> & Hx). destruct Hi2 as (y & Hid & Hy).
      destruct (collection_docs_elem _ _ _ Hx) as (dx & Hpx & Hinx).
      destruct (collection_docs_elem _ _ _ Hy) as (dy & Hpy & Hiny).
      exact (Hdis newp oldp dx dy x y Hne Hpx Hpy Hinx Hiny Hid).
    + unfold collection_docs. destruct (master_db s !! oldp) eqn:E; cbn;
        [eauto | constructor].
  - intros p q dp dq x y Hpq Hp Hq Hx Hy.
    destruct (Hlook p dp Hp) as [[-> ->]|(Hp1 & Hp2 & Hp0)];
      destruct (Hlook q dq Hq) as [[-> ->]|(Hq1 & Hq2 & Hq0)];
      try congruence.
    + destruct (Hsrc x Hx) as (p0 & docs0 & Hwhich & Hp0 & Hin).
      apply (Hdis p0 q docs0 dq x y); auto. destruct Hwhich; congruence.
    + destruct (Hsrc y Hy) as (q0 & docs0 & Hwhich & Hq0' & Hin).
      apply (Hdis p q0 dp docs0 x y); auto. destruct Hwhich; congruence.
    + eauto.
Qed.

(** ** The registry and the admin table in reachable stores *)

Lemma fmap_update_first {A B} (k : A -> B) (p : A -> bool) (f : A -> A)
    (l : list A) :
  (forall x, k (f x) = k x) -> k <$> update_first p f l = k <$> l.
Proof.
  intros Hk. induction l as [|x t IH]; [reflexivity|].
  cbn [update_first]. destruct (p x).
  - now rewrite !fmap_cons, Hk.
  - now rewrite !fmap_cons, IH.
Qed.

Lemma find_None_email (email : string) (admins : list Admin) :
  List.find (admin_with_email email) admins = None ->
  email ∉ a_email <$> admins.
Proof.
  intros Hf. rewrite list_elem_of_fmap. intros (a & -> & Ha).
  apply list_elem_of_In in Ha. pose proof (find_None_all _ _ Hf a Ha) as Hp.
  unfold admin_with_email in Hp. now rewrite String.eqb_refl in Hp.
Qed.

Lemma registry_inv_empty (py : PyRuntime) : registry_inv py empty_store.
Proof.
  split; cbn; try constructor; intros ? H; inversion H.
Qed.

Lemma registry_inv_organization (py : PyRuntime) (s : Store) (name : string)
    (created updated : Z) (db : gmap string (list Document)) (n : nat) :
  registry_inv py s ->
  registry_inv py
    {| organizations_collection :=
         organizations_collection s ++
           [mkOrganization (next_oid s) name (sanitize_collection_name py name)
              created updated "active"];
       admins_collection := admins_collection s;
       master_db := db;
       next_oid := n |}.
Proof.
  intros [Hemails Hcoll Hstatus Hrole].
  split; cbn [organizations_collection admins_collection].
  - exact Hemails.
  - intros o. rewrite elem_of_app, list_elem_of_singleton. intros [Ho| ->]; auto.
  - intros o. rewrite elem_of_app, list_elem_of_singleton. intros [Ho| ->]; auto.
  - exact Hrole.
Qed.

Lemma registry_inv_create (py : PyRuntime) (s : Store) (name email password : string)
    (created updated admin_created : Z) (db : gmap string (list Document)) (n : nat) :
  registry_inv py s ->
  List.find (admin_with_email email) (admins_collection s) = None ->
  registry_inv py
    {| organizations_collection :=
         organizations_collection s ++
           [mkOrganization (next_oid s) name (sanitize_collection_name py name)
              created updated "active"];
       admins_collection :=
         admins_collection s ++
           [mkAdmin (S (next_oid s)) email password (next_oid s) name "admin"
              admin_created];
       master_db := db;
       next_oid := n |}.
Proof.
  intros [Hemails Hcoll Hstatus Hrole] Hfree.
  split; cbn [organizations_collection admins_collection].
  - rewrite fmap_app, NoDup_app. split; [exact Hemails|].
    split; [|apply NoDup_singleton].
    intros x Hx. cbn. rewrite list_elem_of_singleton. intros ->.
    now apply (find_None_email _ _ Hfree).
  - intros o. rewrite elem_of_app, list_elem_of_singleton. intros [Ho| ->]; auto.
  - intros o. rewrite elem_of_app, list_elem_of_singleton. intros [Ho| ->]; auto.
  - intros a. rewrite elem_of_app, list_elem_of_singleton. intros [Ha| ->]; auto.
Qed.

Lemma registry_inv_rename (py : PyRuntime) (s : Store)
    (name new_name email : string)
    (updated : Z) (db : gmap string (list Document))
    (existing_org : Organization) (admin : Admin) :
  store_inv s -> registry_inv py s ->
  List.find (org_named name) (organizations_collection s) = Some existing_org ->
  List.find (admin_with_email email) (admins_collection s) = Some admin ->
  a_organization_name admin = name ->
  registry_inv py
    {| organizations_collection :=
         update_first (org_named name)
           (rename_org new_name (sanitize_collection_name py new_name) updated)
           (organizations_collection s);
       admins_collection :=
         update_first (admin_with_email email) (set_admin_org_name new_name)
           (admins_collection s);
       master_db := db;
       next_oid := next_oid s |}.
Proof.
  intros [Hnames _ _ Hadm Hsync] [Hemails Hcoll Hstatus Hrole] Ho Ha Hown.
  destruct (find_Some_split _
              (rename_org new_name (sanitize_collection_name py new_name) updated)
              _ _ Ho) as (l1 & l2 & Horgs & Hp & _ & Hu & _).
  destruct (find_Some_split _ (set_admin_org_name new_name) _ _ Ha)
    as (m1 & m2 & Hadmins & _ & _ & Hv & _).
  assert (Hoename : o_organization_name existing_org = name)
    by (unfold org_named in Hp; now apply String.eqb_eq).
  assert (Horg_cases : forall o,
            o ∈ l1 ++ rename_org new_name (sanitize_collection_name py new_name)
                        updated existing_org :: l2 ->
            (o ∈ organizations_collection s /\ o_organization_name o <> name) \/
            o = rename_org new_name (sanitize_collection_name py new_name) updated
                  existing_org).
  { intros o. rewrite Horgs, fmap_app, fmap_cons, NoDup_app, NoDup_cons in Hnames.
    destruct Hnames as (_ & H12 & Hnot2 & _).
    rewrite Horgs, !elem_of_app, !elem_of_cons.
    intros [H|[->|H]]; [left|auto|left].
    - split; [auto|]. intros E. apply (H12 (o_organization_name o)).
      + apply list_elem_of_fmap. eauto.
      + rewrite elem_of_cons. left. congruence.
    - split; [auto|]. intros E. apply Hnot2. apply list_elem_of_fmap.
      exists o. split; [congruence | exact H]. }
  split; cbn [organizations_collection admins_collection]; rewrite ?Hu, ?Hv.
  - rewrite <- Hv. rewrite fmap_update_first by reflexivity. exact Hemails.
  - intros o Hin. destruct (Horg_cases o Hin) as [[H _]| ->]; auto.
  - intros o Hin. destruct (Horg_cases o Hin) as [[H _]| ->]; auto.
    cbn. apply Hstatus. rewrite Horgs, elem_of_app, elem_of_cons. auto.
  - intros a. rewrite elem_of_app, elem_of_cons. intros [H|[->|H]].
    + apply Hrole. rewrite Hadmins, elem_of_app. auto.
    + cbn. apply Hrole. rewrite Hadmins, elem_of_app, elem_of_cons. auto.
    + apply Hrole. rewrite Hadmins, elem_of_app, elem_of_cons. auto.
Qed.

Lemma registry_inv_delete (py : PyRuntime) (s : Store) (name : string)
    (db : gmap string (list Document)) :
  store_inv s -> registry_inv py s ->
  registry_inv py
    {| organizations_collection :=
         remove_first (org_named name) (organizations_collection s);
       admins_collection :=
         List.filter (fun a => negb (admin_of_org name a)) (admins_collection s);
       master_db := db;
       next_oid := next_oid s |}.
Proof.
  intros [Hnames _ _ _ _] [Hemails Hcoll Hstatus Hrole].
  assert (Hkept : forall o,
            o ∈ remove_first (org_named name) (organizations_collection s) ->
            o ∈ organizations_collection s /\ o_organization_name o <> name).
  { intros o. destruct (List.find (org_named name) (organizations_collection s))
      as [o0|] eqn:Ho.
    - destruct (find_Some_split _ id _ _ Ho) as (l1 & l2 & Horgs & Hp & _ & _ & ->).
      assert (Hname0 : o_organization_name o0 = name)
        by (unfold org_named in Hp; now apply String.eqb_eq).
      rewrite Horgs, fmap_app, fmap_cons, NoDup_app, NoDup_cons in Hnames.
      destruct Hnames as (_ & H12 & Hnot2 & _).
      rewrite Horgs, !elem_of_app, elem_of_cons. intros [H|H].
      + split; [auto|]. intros E. apply (H12 (o_organization_name o)).
        * apply list_elem_of_fmap. eauto.
        * rewrite elem_of_cons. left. congruence.
      + split; [auto|]. intros E. apply Hnot2. apply list_elem_of_fmap.
        exists o. split; [congruence | exact H].
    - destruct (find_None_update_first _ id _ Ho) as [_ ->].
      intros Hin. split; [exact Hin|]. intros E.
      apply (find_None_named _ _ Ho). apply list_elem_of_fmap. eauto. }
  assert (Hfilter : forall a,
            a ∈ List.filter (fun a => negb (admin_of_org name a)) (admins_collection s) <->
            a ∈ admins_collection s /\ a_organization_name a <> name).
  { intros a. rewrite !list_elem_of_In, filter_In. unfold admin_of_org.
    destruct (String.eqb_spec (a_organization_name a) name); cbn; intuition congruence. }
  split; cbn [organizations_collection admins_collection].
  - apply NoDup_fmap_filter. exact Hemails.
  - intros o Ho. apply Hcoll, Hkept, Ho.
  - intros o Ho. apply Hstatus, Hkept, Ho.
  - intros a Ha. apply Hrole, Hfilter, Ha.
Qed.

Lemma registry_inv_same (py : PyRuntime) (s s' : Store) :
  organizations_collection s' = organizations_collection s ->
  admins_collection s' = admins_collection s ->
  registry_inv py s -> registry_inv py s'.
Proof.
  intros Ho Ha [H1 H2 H3 H4]. split; rewrite ?Ho, ?Ha; assumption.
Qed.

(** ** Requests that raise, when no write fails *)

Section Raises.

Variable py : PyRuntime.
Variable pwd_context : CryptContext.

(** A fault-free create raises only at the hasher, the organization
    document written, or at the driver's check of the partition name,
    the organization and the admin documents written. *)
Lemma create_organization_raise clock org_data s e s' :
  create_organization py pwd_context no_faults clock org_data s = (Raise e, s') ->
  List.find (org_named (oc_organization_name org_data))
    (organizations_collection s) = None /\
  List.find (admin_with_email (oc_email org_data)) (admins_collection s) = None /\
  ((e = PasswordValueError /\
    hash pwd_context (oc_password org_data) = None /\
    s' = with_organization py clock (oc_organization_name org_data) s) \/
   (e = InvalidName /\
    valid_collection_name
      (sanitize_collection_name py (oc_organization_name org_data)) = false /\
    exists hashed,
      hash pwd_context (oc_password org_data) = Some hashed /\
      s' = with_organization_and_admin py clock (oc_organization_name org_data)
             (oc_email org_data) hashed s)).
Proof.
  intros H.
  pose proof (create_organization_table py pwd_context clock org_data s) as T.
  destruct (List.find (org_named _) _); cbn [is_some] in T; [congruence|].
  destruct (List.find (admin_with_email _) _); cbn [is_some] in T; [congruence|].
  split; [reflexivity|]. split; [reflexivity|].
  destruct (hash pwd_context _) as [hashed|].
  - destruct (valid_collection_name _).
    + destruct T as (r & s0 & T). congruence.
    + rewrite T in H. injection H as <- <-. right. eauto.
  - rewrite T in H. injection H as <- <-. left. auto.
Qed.

Lemma delete_organization_raise org_data current_admin s e s' :
  delete_organization no_faults org_data current_admin s = (Raise e, s') ->
  (e = TypeError \/ e = InvalidName) /\ s' = s.
Proof.
  intros H. unfold delete_organization in H. unfold_m_in H.
  cbv beta delta [no_faults] in H. break_in H.
  all: injection H as <- <-; auto.
Qed.

(** A fault-free rename raises at the hasher or at the driver's check
    of a partition name, before any write, or at the bulk insert. *)
Lemma update_organization_raise (now : Z) org_data s e s' :
  update_organization py pwd_context no_faults now org_data s = (Raise e, s') ->
  (e = PasswordValueError /\ s' = s) \/
  (e = InvalidName /\ s' = s /\
   exists existing_org,
     List.find (org_named (ou_organization_name org_data))
       (organizations_collection s) = Some existing_org /\
     (valid_collection_name (o_collection_name existing_org) = false \/
      valid_collection_name
        (sanitize_collection_name py (ou_new_organization_name org_data))
      = false)) \/
  exists existing_org written,
    List.find (org_named (ou_organization_name org_data))
      (organizations_collection s) = Some existing_org /\
    collection_docs (master_db s) (o_collection_name existing_org) <> [] /\
    insert_ordered
      (collection_docs (master_db s)
         (sanitize_collection_name py (ou_new_organization_name org_data)))
      (collection_docs (master_db s) (o_collection_name existing_org))
    = (written, false) /\
    e = BulkWriteError /\
    s' = set_master_db
           (<[sanitize_collection_name py (ou_new_organization_name org_data)
                := written]> (master_db s)) s.
Proof.
  intros H. unfold update_organization in H. unfold_m_in H.
  cbv beta delta [no_faults] in H. break_in H.
  all: repeat match goal with
       | E : is_some ?x = false, E' : context [is_some ?x] |- _ =>
           rewrite E in E'
       | E : negb ?x = _, E' : context [negb ?x] |- _ => rewrite E in E'
       end.
  all: try discriminate.
  all: try congruence.
  all: injection H as <- <-; simplify_eq.
  all: try (left; split; reflexivity).
  all: try (right; left; split; [reflexivity|]; split; [reflexivity|];
            eexists; split; [first [eassumption | reflexivity]|]; auto; fail).
  all: right; right; do 2 eexists; split; [first [eassumption | reflexivity]|].
  all: repeat match goal with
       | E : collection_docs _ _ = _ :: _ |- _ => rewrite E
       end.
  all: repeat split; auto; discriminate.
Qed.


End Raises.

Section ReachableStores.

Variable py : PyRuntime.
Variable pwd_context : CryptContext.

(** On well-formed partitions a rename that raises has written nothing. *)
Lemma update_organization_raise_store (now : Z) org_data s e s' :
  partitions_inv s ->
  update_organization py pwd_context no_faults now org_data s = (Raise e, s') ->
  s' = s /\
  (e = PasswordValueError \/
   e = InvalidName /\
   (exists existing_org,
      List.find (org_named (ou_organization_name org_data))
        (organizations_collection s) = Some existing_org /\
      (valid_collection_name (o_collection_name existing_org) = false \/
       valid_collection_name
         (sanitize_collection_name py (ou_new_organization_name org_data))
       = false)) \/
   e = BulkWriteError /\
   exists existing_org,
     List.find (org_named (ou_organization_name org_data))
       (organizations_collection s) = Some existing_org /\
     collection_docs (master_db s) (o_collection_name existing_org) <> [] /\
     sanitize_collection_name py (ou_new_organization_name org_data)
     = o_collection_name existing_org).
Proof.
  intros [Hfresh Hnd Hdis] H. apply update_organization_raise in H.
  destruct H as [[-> ->]|[(-> & -> & Hname)
                         |(o & written & Ho & Hdocs & Hins & -> & ->)]];
    [auto | auto |].
  set (newp := sanitize_collection_name py (ou_new_organization_name org_data)) in *.
  set (oldp := o_collection_name o) in *.
  destruct (decide (newp = oldp)) as [Heq|Hne].
  - destruct (collection_docs (master_db s) oldp) as [|d rest] eqn:Hd;
      [congruence|].
    rewrite Heq, Hd, insert_ordered_self_written in Hins. injection Hins as <-.
    split.
    + rewrite Heq, insert_id by (now apply collection_docs_nonempty).
      apply set_master_db_id.
    + right. right. split; [reflexivity|].
      exists o. split; [exact Ho|]. fold oldp. rewrite Hd. split; [discriminate|].
      exact Heq.
  - exfalso. rewrite insert_ordered_disjoint in Hins; [discriminate| |].
    + unfold collection_docs. destruct (master_db s !! oldp) eqn:E; cbn;
        [eauto | constructor].
    + intros x y Hx Hy.
      destruct (collection_docs_elem _ _ _ Hx) as (dx & Hpx & Hinx).
      destruct (collection_docs_elem _ _ _ Hy) as (dy & Hpy & Hiny).
      exact (Hdis newp oldp dx dy x y Hne Hpx Hpy Hinx Hiny).
Qed.

Lemma serve_keeps_invariants request s :
  store_inv s -> registry_inv py s -> partitions_inv s ->
  registry_inv py (serve py pwd_context request s) /\
  partitions_inv (serve py pwd_context request s).
Proof.
  intros Hinv Hreg Hpart.
  destruct request as [clock d|now d|now_nbf now token d|now c]; cbn [serve].
  - destruct (create_organization py pwd_context no_faults clock d s)
      as [out s'] eqn:H. cbn [snd]. destruct out as [r|c0 d0|e].
    + apply create_organization_Return in H. cbv zeta in H.
      destruct H as (_ & Ha & _ & hashed & _ & ->). split.
      * apply registry_inv_create; assumption.
      * apply partitions_inv_create; assumption.
    + apply create_organization_http in H. subst s'. auto.
    + apply create_organization_raise in H.
      destruct H as (_ & Ha & [(_ & _ & ->)|(_ & _ & hashed & _ & ->)]); split.
      * apply registry_inv_organization; assumption.
      * apply partitions_inv_later; [assumption | cbn; lia].
      * apply registry_inv_create; assumption.
      * apply partitions_inv_later; [assumption | cbn; lia].
  - destruct (update_organization py pwd_context no_faults now d s)
      as [out s'] eqn:H. cbn [snd]. destruct out as [r|c0 d0|e].
    + apply update_organization_Return in H. cbv zeta in H.
      destruct H as (o & a & Ho & Ha & Hown & _ & _ & Hins & _ & ->). split.
      * eapply registry_inv_rename; eauto.
      * unfold renamed_db.
        destruct (collection_docs (master_db s) (o_collection_name o))
          as [|x rest] eqn:Hd.
        -- apply partitions_inv_drop; assumption.
        -- rewrite <- Hd. apply partitions_inv_copy; [assumption|].
           intros Heq. specialize (Hins ltac:(discriminate)).
           rewrite Heq, Hd, insert_ordered_self in Hins. discriminate Hins.
    + apply update_organization_http in H. subst s'. auto.
    + apply update_organization_raise_store in H; [|assumption].
      destruct H as (-> & _). auto.
  - unfold delete_route.
    destruct (get_current_admin py now_nbf now token)
      as [current_admin|c0 d0|e]; [|auto..].
    destruct (delete_organization no_faults d current_admin s)
      as [out s'] eqn:H. cbn [snd]. destruct out as [r|c0 d0|e].
    + apply delete_organization_Return in H. destruct H as (o & _ & ->). split.
      * apply registry_inv_delete; assumption.
      * apply partitions_inv_drop; assumption.
    + apply delete_organization_http in H. subst s'. auto.
    + apply delete_organization_raise in H. destruct H as [_ ->]. auto.
  - rewrite admin_login_store. auto.
Qed.

Lemma reachable_invariants s :
  reachable py pwd_context s -> store_inv s /\ registry_inv py s /\ partitions_inv s.
Proof.
  intros H. split; [now apply (reachable_store_inv py pwd_context)|].
  induction H as [|s request H IH].
  - split; [apply registry_inv_empty | apply partitions_inv_empty].
  - destruct IH as [Hreg Hpart].
    apply serve_keeps_invariants; auto.
    now apply (reachable_store_inv py pwd_context).
Qed.

End ReachableStores.

(** X7.  In every store the service can reach from the empty database
    (requests served one after the other, no write failing),
    organization names and admin emails are unique, every organization
    is active, is registered under the partition name derived from its
    current name and has at most one admin record (a Create that stopped
    at the hasher leaves an organization without one), and every admin
    has the role ["admin"]. *)
Theorem reachable_registry_shape (py : PyRuntime) (pwd_context : CryptContext)
    (s : Store) :
  reachable py pwd_context s ->
  NoDup (o_organization_name <$> organizations_collection s) /\
  NoDup (a_email <$> admins_collection s) /\
  (forall o, o ∈ organizations_collection s ->
     o_collection_name o = sanitize_collection_name py (o_organization_name o) /\
     o_status o = "active" /\
     forall a a', a ∈ admins_collection s -> a' ∈ admins_collection s ->
       a_organization_name a = o_organization_name o ->
       a_organization_name a' = o_organization_name o -> a = a') /\
  (forall a, a ∈ admins_collection s -> a_role a = "admin").
Proof.
  intros H. apply reachable_invariants in H.
  destruct H as ([Hnames _ _ Hadm _] & [Hemails Hcoll Hstatus Hrole] & _).
  split; [exact Hnames|]. split; [exact Hemails|]. split; [|exact Hrole].
  intros o Ho. split; [auto|]. split; [auto|].
  intros a a' Ha Ha' Hname Hname'.
  eapply (NoDup_fmap_eq a_organization_name); eauto. congruence.
Qed.

(** After ["Acme Corp"], a create whose password the hasher refuses and
    ["Beta Ltd"], the two admin emails are distinct and the three
    organization names are. *)
Lemma reachable_registry_shape_witness :
  let refused :=
    mkOrganizationCreate "Gamma" "c@x.com" ("pass" +:+ String zero "word") in
  let s :=
    serve demo_runtime demo_context
      (CreateRequest (at_once 200)
         (mkOrganizationCreate "Beta Ltd" "b@x.com" "password456"))
      (serve demo_runtime demo_context (CreateRequest (at_once 150) refused)
         acme_store) in
  List.map o_organization_name (organizations_collection s)
  = ["Acme Corp"; "Gamma"; "Beta Ltd"] /\
  List.map a_email (admins_collection s) = ["a@x.com"; "b@x.com"] /\
  NoDup (a_email <$> admins_collection s).
Proof.
  cbv zeta. split; [vm_compute; reflexivity|]. split; [vm_compute; reflexivity|].
  apply (reachable_registry_shape demo_runtime demo_context).
  do 2 apply reachable_serve.
  apply (reachable_serve demo_runtime demo_context _
           (CreateRequest (at_once 100)
              (mkOrganizationCreate "Acme Corp" "a@x.com" "password123"))).
  apply reachable_empty.
Defined.



(** X9.  A rename whose new name derives the partition the organization
    is registered under (a change of case or of space/hyphen
    punctuation only, or no change at all) cannot complete while that
    partition, under a name the driver accepts, holds records: the bulk
    insert writes the records back into the collection they were read
    from, the first duplicate [_id] raises, and the store is left as it
    was. *)
Theorem rename_within_partition_raises (py : PyRuntime) (pwd_context : CryptContext) (now : Z)
    (org_data : OrganizationUpdate) (s : Store)
    (existing_org : Organization) (admin : Admin) :
  List.find (org_named (ou_organization_name org_data))
    (organizations_collection s) = Some existing_org ->
  List.find (admin_with_email (ou_email org_data)) (admins_collection s)
  = Some admin ->
  a_organization_name admin = ou_organization_name org_data ->
  verify pwd_context (ou_password org_data) (a_password admin) = Some true ->
  (ou_new_organization_name org_data <> ou_organization_name org_data ->
   List.find (org_named (ou_new_organization_name org_data))
     (organizations_collection s) = None) ->
  sanitize_collection_name py (ou_new_organization_name org_data)
  = o_collection_name existing_org ->
  valid_collection_name (o_collection_name existing_org) = true ->
  collection_docs (master_db s) (o_collection_name existing_org) <> [] ->
  update_organization py pwd_context no_faults now org_data s
  = (Raise BulkWriteError, s).
Proof.
  intros Ho Ha Hown Hpw Hnew Hsan Hvalid Hdocs.
  unfold update_organization. unfold_m. step_goal.
  rewrite Ho, Ha, Hown, String.eqb_refl, Hpw. step_goal.
  destruct (String.eqb_spec (ou_new_organization_name org_data)
              (ou_organization_name org_data)) as [E|E]; cbn [negb];
    rewrite ?(Hnew E); step_goal.
  all: rewrite Hsan, Hvalid; step_goal.
  all: destruct (collection_docs (master_db s) (o_collection_name existing_org))
         as [|d rest] eqn:Hd; [congruence|].
  all: rewrite ?Hsan, Hd, insert_ordered_self_written.
  all: cbn beta iota zeta.
  all: rewrite insert_id by (now apply collection_docs_nonempty).
  all: now destruct s.
Qed.

Lemma rename_within_partition_raises_witness :
  update_organization demo_runtime demo_context no_faults 300
    (mkOrganizationUpdate "Acme Corp" "acme corp" "a@x.com" "password123")
    acme_store
  = (Raise BulkWriteError, acme_store).
Proof.
  apply (rename_within_partition_raises demo_runtime demo_context 300
           (mkOrganizationUpdate "Acme Corp" "acme corp" "a@x.com" "password123")
           acme_store
           (mkOrganization 0 "Acme Corp" "org_acme_corp" 100 100 "active")
           (mkAdmin 1 "a@x.com" "$2b$password123" 0 "Acme Corp" "admin" 100));
    try reflexivity; discriminate.
Defined.

(** ** Reading the registry back *)

Section ReadBack.

Variable py : PyRuntime.
Variable pwd_context : CryptContext.
Variable isoformat : Z -> string.

Lemma get_organization_found name s o :
  List.find (org_named name) (organizations_collection s) = Some o ->
  get_organization isoformat name s
  = (Return {| gr_message := "Organization retrieved successfully";
               gr_organization :=
                 [("organization_name", VStr (o_organization_name o));
                  ("collection_name", VStr (o_collection_name o));
                  ("created_at", VStr (isoformat (o_created_at o)));
                  ("updated_at", VStr (isoformat (o_updated_at o)));
                  ("status", VStr (o_status o))] |}, s).
Proof. intros H. unfold get_organization. unfold_m. now rewrite H. Qed.

Lemma get_organization_missing name s :
  List.find (org_named name) (organizations_collection s) = None ->
  get_organization isoformat name s
  = (HTTPException HTTP_404_NOT_FOUND "Organization not found", s).
Proof. intros H. unfold get_organization. unfold_m. now rewrite H. Qed.

(** Under unique names, the old name is gone after the registry update
    of a rename to another name. *)
Lemma find_old_after_rename (name new_name collection : string) (now : Z)
    (orgs : list Organization) (o : Organization) :
  NoDup (o_organization_name <$> orgs) ->
  List.find (org_named name) orgs = Some o ->
  new_name <> name ->
  List.find (org_named name)
    (update_first (org_named name) (rename_org new_name collection now) orgs)
  = None.
Proof.
  intros Hnd Ho Hne.
  destruct (find_Some_split _ (rename_org new_name collection now) _ _ Ho)
    as (l1 & l2 & -> & Hp & Hl1 & -> & _).
  rewrite fmap_app, fmap_cons, NoDup_app, NoDup_cons in Hnd.
  destruct Hnd as (_ & _ & Hnot2 & _).
  assert (Hname : o_organization_name o = name)
    by (unfold org_named in Hp; now apply String.eqb_eq).
  apply find_all_false. intros y Hy. apply in_app_or in Hy.
  destruct Hy as [Hy|[<-|Hy]].
  - now apply Hl1.
  - unfold org_named. cbn. now apply String.eqb_neq.
  - unfold org_named. apply String.eqb_neq. intros E. apply Hnot2.
    apply list_elem_of_fmap. exists y. split; [congruence|].
    now apply list_elem_of_In.
Qed.

Lemma find_after_remove_first (name : string) (orgs : list Organization) :
  NoDup (o_organization_name <$> orgs) ->
  List.find (org_named name) (remove_first (org_named name) orgs) = None.
Proof.
  intros Hnd.
  destruct (List.find (org_named name) orgs) as [o|] eqn:Ho.
  - destruct (find_Some_split _ id _ _ Ho) as (l1 & l2 & -> & Hp & Hl1 & _ & ->).
    rewrite fmap_app, fmap_cons, NoDup_app, NoDup_cons in Hnd.
    destruct Hnd as (_ & _ & Hnot2 & _).
    assert (Hname : o_organization_name o = name)
      by (unfold org_named in Hp; now apply String.eqb_eq).
    apply find_all_false. intros y Hy. apply in_app_or in Hy.
    destruct Hy as [Hy|Hy]; [now apply Hl1|].
    unfold org_named. apply String.eqb_neq. intros E. apply Hnot2.
    apply list_elem_of_fmap. exists y. split; [congruence|].
    now apply list_elem_of_In.
  - destruct (find_None_update_first _ id _ Ho) as [_ ->]. exact Ho.
Qed.

End ReadBack.

(** X10.  A completed Create can be read back: Get on the new name
    answers with the name, the derived partition name, the first
    reading of the clock as creation date, the second as update date,
    and the status ["active"], without the identifier. *)
Theorem create_then_get (py : PyRuntime) (pwd_context : CryptContext)
    (isoformat : Z -> string)
    (faults : Faults) (clock : CreateClock) (org_data : OrganizationCreate)
    (s s' : Store) (r : list (string * Value)) :
  create_organization py pwd_context faults clock org_data s = (Return r, s') ->
  get_organization isoformat (oc_organization_name org_data) s'
  = (Return {| gr_message := "Organization retrieved successfully";
               gr_organization :=
                 [("organization_name", VStr (oc_organization_name org_data));
                  ("collection_name",
                   VStr (sanitize_collection_name py (oc_organization_name org_data)));
                  ("created_at", VStr (isoformat (org_created_at clock)));
                  ("updated_at", VStr (isoformat (org_updated_at clock)));
                  ("status", VStr "active")] |}, s').
Proof.
  intros H. apply create_organization_Return in H. cbv zeta in H.
  destruct H as (Ho & _ & _ & hashed & _ & ->).
  rewrite (get_organization_found isoformat _ _
             (mkOrganization (next_oid s) (oc_organization_name org_data)
                (sanitize_collection_name py (oc_organization_name org_data))
                (org_created_at clock) (org_updated_at clock) "active"));
    [reflexivity|].
  cbn [organizations_collection]. rewrite find_app_None by exact Ho.
  cbn [List.find]. unfold org_named at 1. cbn [o_organization_name].
  now rewrite String.eqb_refl.
Qed.

(** A create whose clock moves on between the readings: the two dates
    differ. *)
Lemma create_then_get_witness :
  let isoformat := fun t : Z =>
    if t =? 100 then "1970-01-01T00:01:40" else "1970-01-01T00:01:41" in
  let created :=
    snd (create_organization demo_runtime demo_context no_faults
           (mkCreateClock 100 101 102 103)
           (mkOrganizationCreate "Acme Corp" "a@x.com" "password123")
           empty_store) in
  fst (get_organization isoformat "Acme Corp" created)
  = Return {| gr_message := "Organization retrieved successfully";
              gr_organization :=
                [("organization_name", VStr "Acme Corp");
                 ("collection_name", VStr "org_acme_corp");
                 ("created_at", VStr "1970-01-01T00:01:40");
                 ("updated_at", VStr "1970-01-01T00:01:41");
                 ("status", VStr "active")] |}.
Proof.
  exact (f_equal fst
           (create_then_get demo_runtime demo_context
              (fun t : Z =>
                 if t =? 100 then "1970-01-01T00:01:40" else "1970-01-01T00:01:41")
              no_faults (mkCreateClock 100 101 102 103)
              (mkOrganizationCreate "Acme Corp" "a@x.com" "password123")
              empty_store _ _ eq_refl)).
Defined.

(** X11.  In a reachable store, after a completed Rename to a different
    name, Get on the old name answers 404 and Get on the new name
    answers with the new name, the partition name derived from it, the
    unchanged creation date and the time of the rename as update date. *)
Theorem rename_then_get (py : PyRuntime) (pwd_context : CryptContext) (isoformat : Z -> string)
    (faults : Faults) (now : Z) (org_data : OrganizationUpdate)
    (s s' : Store) (r : list (string * Value)) :
  reachable py pwd_context s ->
  update_organization py pwd_context faults now org_data s = (Return r, s') ->
  ou_new_organization_name org_data <> ou_organization_name org_data ->
  get_organization isoformat (ou_organization_name org_data) s'
  = (HTTPException HTTP_404_NOT_FOUND "Organization not found", s') /\
  exists existing_org,
    List.find (org_named (ou_organization_name org_data))
      (organizations_collection s) = Some existing_org /\
    get_organization isoformat (ou_new_organization_name org_data) s'
    = (Return {| gr_message := "Organization retrieved successfully";
                 gr_organization :=
                   [("organization_name", VStr (ou_new_organization_name org_data));
                    ("collection_name",
                     VStr (sanitize_collection_name py
                             (ou_new_organization_name org_data)));
                    ("created_at", VStr (isoformat (o_created_at existing_org)));
                    ("updated_at", VStr (isoformat now));
                    ("status", VStr "active")] |}, s').
Proof.
  intros Hreach H Hne. apply reachable_invariants in Hreach.
  destruct Hreach as ([Hnames _ _ _ _] & [_ _ Hstatus _] & _).
  apply update_organization_Return in H. cbv zeta in H.
  destruct H as (o & a & Ho & _ & _ & _ & Hnew & _ & _ & ->).
  split.
  - apply get_organization_missing. cbn [organizations_collection].
    now apply (find_old_after_rename _ _ _ _ _ o).
  - exists o. split; [exact Ho|].
    rewrite (get_organization_found isoformat _ _
               (rename_org (ou_new_organization_name org_data)
                  (sanitize_collection_name py (ou_new_organization_name org_data))
                  now o))
      by (cbn [organizations_collection]; apply find_renamed_org; assumption).
    cbn [rename_org o_organization_name o_collection_name o_created_at
         o_updated_at o_status].
    rewrite (Hstatus o) by (apply (find_Some_elem _ _ _ Ho)). reflexivity.
Qed.

Lemma rename_then_get_witness :
  fst (get_organization (fun _ => "") "Acme Corp"
         (snd (update_organization demo_runtime demo_context no_faults 300 acme_rename acme_store)))
  = HTTPException HTTP_404_NOT_FOUND "Organization not found".
Proof.
  assert (Hreach : reachable demo_runtime demo_context acme_store).
  { apply (reachable_serve demo_runtime demo_context _
             (CreateRequest (at_once 100)
                (mkOrganizationCreate "Acme Corp" "a@x.com" "password123"))).
    apply reachable_empty. }
  destruct (rename_then_get demo_runtime demo_context (fun _ => "") no_faults 300
              acme_rename
              acme_store _ _ Hreach eq_refl ltac:(discriminate)) as [H404 _].
  exact (f_equal fst H404).
Defined.

(** ** Delete: who, what, and what is left *)

Lemma delete_organization_Return_owner faults org_data current_admin s r s' :
  delete_organization faults org_data current_admin s = (Return r, s') ->
  exists email admin,
    ca_email current_admin = VStr email /\
    List.find (admin_with_email email) (admins_collection s) = Some admin /\
    a_organization_name admin = od_organization_name org_data.
Proof.
  intros H. unfold delete_organization in H. unfold_m_in H. break_in H.
  all: simplify_eq.
  all: do 2 eexists; split; [reflexivity|]; split; [eassumption|].
  all: now apply negb_eqb_false.
Qed.

Lemma delete_route_Return py faults now_nbf now token org_data s r s' :
  delete_route py faults now_nbf now token org_data s = (Return r, s') ->
  exists current_admin,
    get_current_admin py now_nbf now token = Return current_admin /\
    delete_organization faults org_data current_admin s = (Return r, s').
Proof.
  unfold delete_route.
  destruct (get_current_admin py now_nbf now token) as [current_admin|c d|e];
    [eauto | discriminate | discriminate].
Qed.

(** X12.  A Delete completes only for the admin of the target
    organization: the token validates, its [sub] is the email of an
    Admin record, and that record's [organization_name] is the target
    name.  It then removes exactly the registry record of that name,
    the admin records of that organization name and the partition the
    registry record names; identifiers are not reused. *)
Theorem delete_requires_owner (py : PyRuntime) (faults : Faults)
    (now_nbf now : Z) (token : Token)
    (org_data : OrganizationDelete) (s s' : Store) (r : list (string * Value)) :
  delete_route py faults now_nbf now token org_data s = (Return r, s') ->
  let name := od_organization_name org_data in
  exists email org_id admin organization,
    get_current_admin py now_nbf now token
    = Return (mkCurrentAdmin (VStr email) org_id) /\
    List.find (admin_with_email email) (admins_collection s) = Some admin /\
    a_organization_name admin = name /\
    List.find (org_named name) (organizations_collection s) = Some organization /\
    organizations_collection s'
    = remove_first (org_named name) (organizations_collection s) /\
    admins_collection s'
    = List.filter (fun a => negb (admin_of_org name a)) (admins_collection s) /\
    master_db s' = delete (o_collection_name organization) (master_db s) /\
    next_oid s' = next_oid s.
Proof.
  intros H. cbv zeta. apply delete_route_Return in H.
  destruct H as (ca & Hca & H).
  destruct (delete_organization_Return_owner _ _ _ _ _ _ H)
    as (email & admin & Hmail & Ha & Hown).
  apply delete_organization_Return in H. destruct H as (o & Ho & ->).
  exists email, (ca_org_id ca), admin, o.
  split; [rewrite Hca; destruct ca; cbn in *; congruence|].
  repeat split; assumption.
Qed.

Lemma delete_requires_owner_witness :
  exists admin,
    List.find (admin_with_email "a@x.com") (admins_collection acme_store)
    = Some admin /\
    a_organization_name admin = "Acme Corp".
Proof.
  destruct (delete_requires_owner demo_runtime no_faults 160 160 acme_token
              (mkOrganizationDelete "Acme Corp") acme_store _ _ eq_refl)
    as (email & org_id & admin & o & Hca & Ha & Hown & _).
  injection Hca as <- _. exists admin. split; [exact Ha | exact Hown].
Defined.

(** X13.  In a reachable store, after a completed Delete, Get on the
    name answers 404, no Admin record names the organization, its
    partition is gone, and the admin who deleted it can no longer log
    in: any Login with the token's email is answered 401. *)
Theorem delete_then_gone (py : PyRuntime) (pwd_context : CryptContext) (isoformat : Z -> string)
    (faults : Faults) (now_nbf now : Z) (token : Token)
    (org_data : OrganizationDelete)
    (s s' : Store) (r : list (string * Value)) :
  reachable py pwd_context s ->
  delete_route py faults now_nbf now token org_data s = (Return r, s') ->
  let name := od_organization_name org_data in
  get_organization isoformat name s'
  = (HTTPException HTTP_404_NOT_FOUND "Organization not found", s') /\
  (forall a, a ∈ admins_collection s' -> a_organization_name a <> name) /\
  master_db s' !! sanitize_collection_name py name = None /\
  exists email org_id,
    get_current_admin py now_nbf now token
    = Return (mkCurrentAdmin (VStr email) org_id) /\
    forall now' password,
      admin_login pwd_context now' (mkAdminLogin email password) s'
      = (HTTPException HTTP_401_UNAUTHORIZED "Invalid email or password", s').
Proof.
  intros Hreach H. cbv zeta. apply reachable_invariants in Hreach.
  destruct Hreach as ([Hnames _ _ _ _] & [Hemails Hcoll _ _] & _).
  apply delete_route_Return in H. destruct H as (ca & Hca & H).
  destruct (delete_organization_Return_owner _ _ _ _ _ _ H)
    as (email & admin & Hmail & Ha & Hown).
  apply delete_organization_Return in H. destruct H as (o & Ho & ->).
  destruct (find_Some_elem _ _ _ Ho) as [Hoin Hp].
  assert (Hname : o_organization_name o = od_organization_name org_data)
    by (unfold org_named in Hp; now apply String.eqb_eq).
  assert (Hkept : forall a,
            In a (List.filter
                    (fun a => negb (admin_of_org (od_organization_name org_data) a))
                    (admins_collection s)) ->
            In a (admins_collection s) /\
            a_organization_name a <> od_organization_name org_data).
  { intros a Hin. apply filter_In in Hin. destruct Hin as [Hin Hk].
    split; [exact Hin|]. unfold admin_of_org in Hk.
    destruct (String.eqb_spec (a_organization_name a)
                (od_organization_name org_data)); [discriminate | assumption]. }
  split; [|split; [|split]].
  - apply get_organization_missing. cbn [organizations_collection].
    now apply find_after_remove_first.
  - cbn [admins_collection]. intros a Hin. apply list_elem_of_In in Hin.
    now apply Hkept.
  - cbn [master_db]. rewrite <- Hname, <- (Hcoll o Hoin). apply lookup_delete_eq.
  - exists email, (ca_org_id ca).
    split; [rewrite Hca; destruct ca; cbn in *; congruence|].
    intros now' password. unfold admin_login. unfold_m.
    cbn [admins_collection al_email]. rewrite find_all_false; [reflexivity|].
    intros y Hy. destruct (Hkept y Hy) as [Hyin Hyne].
    unfold admin_with_email.
    destruct (String.eqb_spec (a_email y) email) as [E|_]; [|reflexivity].
    exfalso. apply Hyne. rewrite <- Hown. f_equal.
    eapply (NoDup_fmap_eq a_email); eauto.
    + now apply list_elem_of_In.
    + apply (find_Some_elem _ _ _ Ha).
    + rewrite E. symmetry. apply (find_admin_email Ha).
Qed.

Lemma delete_then_gone_witness :
  fst (get_organization (fun _ => "") "Acme Corp"
         (snd (delete_route demo_runtime no_faults 160 160 acme_token
                 (mkOrganizationDelete "Acme Corp") acme_store)))
  = HTTPException HTTP_404_NOT_FOUND "Organization not found".
Proof.
  assert (Hreach : reachable demo_runtime demo_context acme_store).
  { apply (reachable_serve demo_runtime demo_context _
             (CreateRequest (at_once 100)
                (mkOrganizationCreate "Acme Corp" "a@x.com" "password123"))).
    apply reachable_empty. }
  destruct (delete_then_gone demo_runtime demo_context (fun _ => "") no_faults
              160 160 acme_token
              (mkOrganizationDelete "Acme Corp") acme_store _ _ Hreach eq_refl)
    as [H404 _].
  exact (f_equal fst H404).
Defined.

(** ** Login and tokens *)

(** X14.  Create and Login compose: with a hasher that verifies the
    passwords it hashed, the credentials of a completed Create log in
    at any later time, and the token carries the email, the identifier
    Create returned, the organization name, the role ["admin"] and an
    expiry 30 minutes after the login. *)
Theorem create_then_login (py : PyRuntime) (pwd_context : CryptContext)
    (faults : Faults) (clock : CreateClock) (now : Z)
    (org_data : OrganizationCreate)
    (s s' : Store) (r : list (string * Value)) :
  create_organization py pwd_context faults clock org_data s = (Return r, s') ->
  (forall hashed,
     hash pwd_context (oc_password org_data) = Some hashed ->
     verify pwd_context (oc_password org_data) hashed = Some true) ->
  exists claims organization_id,
    In ("organization_id", VId organization_id) r /\
    admin_login pwd_context now
      (mkAdminLogin (oc_email org_data) (oc_password org_data)) s'
    = (Return {| access_token := Signed SECRET_KEY ALGORITHM claims;
                 token_type := "bearer" |}, s') /\
    claims !! "exp" = Some (VInt (now + 30 * 60)) /\
    claims !! "sub" = Some (VStr (oc_email org_data)) /\
    claims !! "org_id" = Some (VId organization_id) /\
    claims !! "org_name" = Some (VStr (oc_organization_name org_data)) /\
    claims !! "role" = Some (VStr "admin").
Proof.
  intros H Hpw. apply create_organization_Return in H. cbv zeta in H.
  destruct H as (_ & Ha & -> & hashed & Hh & ->).
  set (admin := mkAdmin (S (next_oid s)) (oc_email org_data) hashed
                  (next_oid s) (oc_organization_name org_data) "admin"
                  (admin_created_at clock)).
  set (s' := mkStore _ _ _ _).
  destruct (admin_login_verified pwd_context now
              (mkAdminLogin (oc_email org_data) (oc_password org_data)) s' admin)
    as (claims & Hrun & Hclaims).
  - cbn [s' admins_collection al_email]. rewrite find_app_None by exact Ha.
    cbn [List.find]. unfold admin_with_email at 1. cbn [a_email admin].
    now rewrite String.eqb_refl.
  - cbn [al_password a_password admin]. exact (Hpw hashed Hh).
  - exists claims, (next_oid s). split; [cbn; auto|]. split; [exact Hrun|].
    exact Hclaims.
Qed.

Lemma create_then_login_witness :
  exists response,
    fst (admin_login demo_context 150 (mkAdminLogin "a@x.com" "password123")
           acme_store) = Return response.
Proof.
  destruct (create_then_login demo_runtime demo_context no_faults (at_once 100) 150
              (mkOrganizationCreate "Acme Corp" "a@x.com" "password123")
              empty_store acme_store _ eq_refl)
    as (claims & oid & _ & Hrun & _).
  - intros hashed Hh. vm_compute in Hh. injection Hh as <-. reflexivity.
  - eexists. exact (f_equal fst Hrun).
Defined.

(** X15.  The token a Login issues is accepted by [get_current_admin]
    at every time up to 30 minutes after the login, yielding the
    admin's email and organization id, and is refused as expired at
    every later time. *)
Theorem login_token_window (py : PyRuntime) (pwd_context : CryptContext)
    (issued : Z)
    (credentials : AdminLogin) (s s' : Store) (response : TokenResponse) :
  admin_login pwd_context issued credentials s = (Return response, s') ->
  exists admin,
    List.find (admin_with_email (al_email credentials)) (admins_collection s)
    = Some admin /\
    forall now_nbf now,
      (now <= issued + 30 * 60 ->
       get_current_admin py now_nbf now (access_token response)
       = Return (mkCurrentAdmin (VStr (a_email admin))
                   (VId (a_organization_id admin)))) /\
      (issued + 30 * 60 < now ->
       get_current_admin py now_nbf now (access_token response)
       = HTTPException HTTP_401_UNAUTHORIZED "Token has expired").
Proof.
  intros H. apply admin_login_Return in H.
  destruct H as (_ & _ & admin & claims & Ha & _ & -> & Hexp & Hsub & Horg & _
                   & _ & Habsent).
  assert (Hno : forall k,
            k <> "exp" -> k <> "sub" -> k <> "org_id" -> k <> "org_name" ->
            k <> "role" -> claims !! k = None).
  { intros k H1 H2 H3 H4 H5. apply Habsent; [exact H1|].
    unfold login_claims. rewrite !lookup_insert_ne by congruence.
    apply lookup_empty. }
  exists admin. split; [exact Ha|]. intros now_nbf now. split.
  - intros Hle. apply get_current_admin_valid; auto; try discriminate.
    now apply (login_claims_valid py now_nbf now issued admin).
  - intros Hlt.
    apply (get_current_admin_expired py now_nbf now claims
             (VInt (issued + 30 * 60)) (issued + 30 * 60));
      [left; apply Hno; discriminate | left; apply Hno; discriminate
      | exact Hexp | reflexivity | exact Hlt].
Qed.

Lemma login_token_window_witness :
  get_current_admin demo_runtime 1950 1950 acme_token
  = Return (mkCurrentAdmin (VStr "a@x.com") (VId 0)) /\
  get_current_admin demo_runtime 1951 1951 acme_token
  = HTTPException HTTP_401_UNAUTHORIZED "Token has expired".
Proof.
  destruct (login_token_window demo_runtime demo_context 150
              (mkAdminLogin "a@x.com" "password123") acme_store _ _ eq_refl)
    as (admin & Ha & Hwin).
  injection Ha as <-.
  split; [apply (Hwin 1950 1950) | apply (Hwin 1951 1951)]; lia.
Defined.




(** X17.  Rename and Login compose: a Rename completes only with the
    email of an Admin record of that organization and a password that
    verifies, and the same credentials then log in again; the new
    token names the new organization name and the same organization
    id as before. *)
Theorem rename_then_login (py : PyRuntime) (pwd_context : CryptContext) (faults : Faults)
    (renamed now : Z) (org_data : OrganizationUpdate)
    (s s' : Store) (r : list (string * Value)) :
  update_organization py pwd_context faults renamed org_data s = (Return r, s') ->
  exists admin claims,
    List.find (admin_with_email (ou_email org_data)) (admins_collection s)
    = Some admin /\
    a_organization_name admin = ou_organization_name org_data /\
    verify pwd_context (ou_password org_data) (a_password admin) = Some true /\
    admin_login pwd_context now
      (mkAdminLogin (ou_email org_data) (ou_password org_data)) s'
    = (Return {| access_token := Signed SECRET_KEY ALGORITHM claims;
                 token_type := "bearer" |}, s') /\
    claims !! "sub" = Some (VStr (ou_email org_data)) /\
    claims !! "org_id" = Some (VId (a_organization_id admin)) /\
    claims !! "org_name" = Some (VStr (ou_new_organization_name org_data)).
Proof.
  intros H. apply update_organization_Return in H. cbv zeta in H.
  destruct H as (o & a & _ & Ha & Hown & Hpw & _ & _ & _ & ->).
  pose proof (find_admin_email Ha) as Hmail.
  set (s' := mkStore _ _ _ _).
  destruct (admin_login_verified pwd_context now
              (mkAdminLogin (ou_email org_data) (ou_password org_data)) s'
              (set_admin_org_name (ou_new_organization_name org_data) a))
    as (claims & Hrun & _ & Hsub & Horg & Hname & _).
  - cbn [s' admins_collection al_email].
    apply find_update_first; [exact Ha | | auto].
    unfold admin_with_email. cbn [a_email set_admin_org_name]. rewrite Hmail.
    apply String.eqb_refl.
  - exact Hpw.
  - exists a, claims. cbn [set_admin_org_name a_email a_organization_id
                            a_organization_name] in *.
    rewrite Hmail in Hsub. repeat split; assumption.
Qed.

Lemma rename_then_login_witness :
  exists response,
    fst (admin_login demo_context 400 (mkAdminLogin "a@x.com" "password123")
           (snd (update_organization demo_runtime demo_context no_faults 300 acme_rename
                   acme_store)))
    = Return response.
Proof.
  destruct (rename_then_login demo_runtime demo_context no_faults 300 400
              acme_rename
              acme_store _ _ eq_refl)
    as (admin & claims & _ & _ & _ & Hrun & _).
  eexists. exact (f_equal fst Hrun).
Defined.

(** ** Refusals of Rename and Delete, and a Create cut short *)

Ltac eval_faults :=
  repeat match goal with
  | |- context [fault_at ?w ?w'] =>
      let v := eval vm_compute in (fault_at w w') in
      change (fault_at w w') with v
  end.

(** X18.  Rename refuses in a fixed order, before any write and whatever
    the fault plan: 404 when the organization is not registered; else
    403 ["Unauthorized: Invalid admin credentials"] when the email has
    no Admin record or the record belongs to another organization;
    else 403 ["Unauthorized: Invalid password"] when the password does
    not verify; else 400 when the new name differs from the old one
    and is registered.  Unlike Login, it tells a wrong email from a
    wrong password. *)
Theorem update_organization_refusals (py : PyRuntime) (pwd_context : CryptContext)
    (faults : Faults) (now : Z) (org_data : OrganizationUpdate) (s : Store) :
  let name := ou_organization_name org_data in
  let new_name := ou_new_organization_name org_data in
  (List.find (org_named name) (organizations_collection s) = None ->
   update_organization py pwd_context faults now org_data s
   = (HTTPException HTTP_404_NOT_FOUND "Organization not found", s)) /\
  (forall existing_org,
     List.find (org_named name) (organizations_collection s) = Some existing_org ->
     (List.find (admin_with_email (ou_email org_data)) (admins_collection s) = None \/
      exists admin,
        List.find (admin_with_email (ou_email org_data)) (admins_collection s)
        = Some admin /\ a_organization_name admin <> name) ->
     update_organization py pwd_context faults now org_data s
     = (HTTPException HTTP_403_FORBIDDEN "Unauthorized: Invalid admin credentials",
        s)) /\
  (forall existing_org admin,
     List.find (org_named name) (organizations_collection s) = Some existing_org ->
     List.find (admin_with_email (ou_email org_data)) (admins_collection s)
     = Some admin ->
     a_organization_name admin = name ->
     verify pwd_context (ou_password org_data) (a_password admin) = Some false ->
     update_organization py pwd_context faults now org_data s
     = (HTTPException HTTP_403_FORBIDDEN "Unauthorized: Invalid password", s)) /\
  (forall existing_org admin taken,
     List.find (org_named name) (organizations_collection s) = Some existing_org ->
     List.find (admin_with_email (ou_email org_data)) (admins_collection s)
     = Some admin ->
     a_organization_name admin = name ->
     verify pwd_context (ou_password org_data) (a_password admin) = Some true ->
     new_name <> name ->
     List.find (org_named new_name) (organizations_collection s) = Some taken ->
     update_organization py pwd_context faults now org_data s
     = (HTTPException HTTP_400_BAD_REQUEST "New organization name already exists",
        s)).
Proof.
  cbv zeta. split; [|split; [|split]].
  - intros Ho. unfold update_organization. unfold_m. now rewrite Ho.
  - intros o Ho [Ha|(a & Ha & Hne)]; unfold update_organization; unfold_m;
      rewrite Ho, Ha; [reflexivity|].
    apply String.eqb_neq in Hne. now rewrite Hne.
  - intros o a Ho Ha Hown Hpw. unfold update_organization. unfold_m.
    now rewrite Ho, Ha, Hown, String.eqb_refl, Hpw.
  - intros o a taken Ho Ha Hown Hpw Hne Htaken.
    unfold update_organization. unfold_m.
    rewrite Ho, Ha, Hown, String.eqb_refl, Hpw. cbn [negb].
    apply String.eqb_neq in Hne. rewrite Hne. cbn [negb].
    now rewrite Htaken.
Qed.

Lemma update_organization_refusals_witness :
  update_organization demo_runtime demo_context no_faults 300
    (mkOrganizationUpdate "Acme Corp" "Acme Inc" "a@x.com" "wrongpassword")
    acme_store
  = (HTTPException HTTP_403_FORBIDDEN "Unauthorized: Invalid password", acme_store).
Proof.
  refine (proj1 (proj2 (proj2
            (update_organization_refusals demo_runtime demo_context no_faults 300
               (mkOrganizationUpdate "Acme Corp" "Acme Inc" "a@x.com"
                  "wrongpassword") acme_store)))
            (mkOrganization 0 "Acme Corp" "org_acme_corp" 100 100 "active")
            (mkAdmin 1 "a@x.com" "$2b$password123" 0 "Acme Corp" "admin" 100)
            _ _ _ _); reflexivity.
Defined.

(** X19.  A valid token does not let an admin delete another
    organization: when the target is registered and the token's [sub]
    is the email of an Admin record of a different organization, the
    answer is 403 and the store is unchanged, whatever the token's
    [org_id] claim says. *)
Theorem delete_foreign_organization_forbidden (py : PyRuntime) (faults : Faults)
    (now_nbf now : Z)
    (token : Token) (org_data : OrganizationDelete) (s : Store)
    (email : string) (org_id : Value) (organization : Organization)
    (admin : Admin) :
  get_current_admin py now_nbf now token
  = Return (mkCurrentAdmin (VStr email) org_id) ->
  List.find (org_named (od_organization_name org_data))
    (organizations_collection s) = Some organization ->
  List.find (admin_with_email email) (admins_collection s) = Some admin ->
  a_organization_name admin <> od_organization_name org_data ->
  delete_route py faults now_nbf now token org_data s
  = (HTTPException HTTP_403_FORBIDDEN
       "Unauthorized: You can only delete your own organization", s).
Proof.
  intros Hca Ho Ha Hne. unfold delete_route. rewrite Hca.
  unfold delete_organization. unfold_m. cbn [ca_email].
  rewrite Ho, Ha. apply String.eqb_neq in Hne. now rewrite Hne.
Qed.

Lemma delete_foreign_organization_forbidden_witness :
  delete_route demo_runtime no_faults 250 250 acme_token
    (mkOrganizationDelete "Beta Ltd") two_org_store
  = (HTTPException HTTP_403_FORBIDDEN
       "Unauthorized: You can only delete your own organization", two_org_store).
Proof.
  apply (delete_foreign_organization_forbidden demo_runtime no_faults 250 250
           acme_token
           (mkOrganizationDelete "Beta Ltd") two_org_store "a@x.com" (VId 0)
           (mkOrganization 3 "Beta Ltd" "org_beta_ltd" 200 200 "active")
           (mkAdmin 1 "a@x.com" "$2b$password123" 0 "Acme Corp" "admin" 100));
    try reflexivity; discriminate.
Defined.

(** X20.  Create is not atomic.  When its second write (the admin
    record) fails, the organization stays registered without an admin
    and without a partition; when its third write (the marker) fails,
    the partition name being one the driver accepts, the organization
    and its admin stay registered without a partition.  In both cases
    the name is taken: a later Create of the same name is answered
    400. *)
Theorem create_cut_short (py : PyRuntime) (pwd_context : CryptContext)
    (clock : CreateClock) (org_data : OrganizationCreate) (s : Store)
    (hashed : string) :
  List.find (org_named (oc_organization_name org_data))
    (organizations_collection s) = None ->
  List.find (admin_with_email (oc_email org_data)) (admins_collection s) = None ->
  hash pwd_context (oc_password org_data) = Some hashed ->
  let name := oc_organization_name org_data in
  let organization :=
    mkOrganization (next_oid s) name (sanitize_collection_name py name)
      (org_created_at clock) (org_updated_at clock) "active" in
  let admin :=
    mkAdmin (S (next_oid s)) (oc_email org_data) hashed (next_oid s) name
      "admin" (admin_created_at clock) in
  let after_admin_fault :=
    create_organization py pwd_context (fault_at W_admins_insert_one) clock
      org_data s in
  let after_marker_fault :=
    create_organization py pwd_context (fault_at W_collection_insert_one) clock
      org_data s in
  after_admin_fault
  = (Raise PyMongoError,
     {| organizations_collection := organizations_collection s ++ [organization];
        admins_collection := admins_collection s;
        master_db := master_db s;
        next_oid := S (next_oid s) |}) /\
  (valid_collection_name (sanitize_collection_name py name) = true ->
   after_marker_fault
   = (Raise PyMongoError,
      {| organizations_collection := organizations_collection s ++ [organization];
         admins_collection := admins_collection s ++ [admin];
         master_db := master_db s;
         next_oid := S (S (next_oid s)) |})) /\
  forall faults clock' retry,
    oc_organization_name retry = name ->
    create_organization py pwd_context faults clock' retry (snd after_admin_fault)
    = (HTTPException HTTP_400_BAD_REQUEST "Organization name already exists",
       snd after_admin_fault) /\
    create_organization py pwd_context faults clock' retry (snd after_marker_fault)
    = (HTTPException HTTP_400_BAD_REQUEST "Organization name already exists",
       snd after_marker_fault).
Proof.
  intros Ho Ha Hh. cbv zeta.
  assert (H1 : create_organization py pwd_context (fault_at W_admins_insert_one)
                 clock org_data s
               = (Raise PyMongoError,
                  {| organizations_collection :=
                       organizations_collection s ++
                         [mkOrganization (next_oid s) (oc_organization_name org_data)
                            (sanitize_collection_name py (oc_organization_name org_data))
                            (org_created_at clock) (org_updated_at clock) "active"];
                     admins_collection := admins_collection s;
                     master_db := master_db s;
                     next_oid := S (next_oid s) |})).
  { unfold create_organization. unfold_m. eval_faults.
    repeat (step_goal; first [rewrite Ho | rewrite Ha | rewrite Hh]). reflexivity. }
  assert (H2 : exists e,
            create_organization py pwd_context (fault_at W_collection_insert_one)
              clock org_data s
            = (Raise e,
               {| organizations_collection :=
                    organizations_collection s ++
                      [mkOrganization (next_oid s) (oc_organization_name org_data)
                         (sanitize_collection_name py (oc_organization_name org_data))
                         (org_created_at clock) (org_updated_at clock) "active"];
                  admins_collection :=
                    admins_collection s ++
                      [mkAdmin (S (next_oid s)) (oc_email org_data) hashed
                         (next_oid s) (oc_organization_name org_data)
                         "admin" (admin_created_at clock)];
                  master_db := master_db s;
                  next_oid := S (S (next_oid s)) |}) /\
            (valid_collection_name
               (sanitize_collection_name py (oc_organization_name org_data)) = true ->
             e = PyMongoError)).
  { unfold create_organization. unfold_m. eval_faults.
    repeat (step_goal; first [rewrite Ho | rewrite Ha | rewrite Hh]).
    destruct (valid_collection_name _); eexists; (split; [reflexivity|]);
      [reflexivity | discriminate]. }
  destruct H2 as (e & H2 & He).
  rewrite H1, H2. split; [reflexivity|].
  split; [intros Hv; now rewrite (He Hv)|].
  intros faults clock' retry Hname. cbn [snd].
  split; eapply create_organization_name_taken;
    cbn [organizations_collection]; rewrite Hname, find_app_None by exact Ho;
    cbn [List.find]; unfold org_named at 1; cbn [o_organization_name];
    rewrite String.eqb_refl; reflexivity.
Qed.

Lemma create_cut_short_witness :
  fst (create_organization demo_runtime demo_context
         (fault_at W_admins_insert_one) (at_once 100)
         (mkOrganizationCreate "Acme Corp" "a@x.com" "password123") empty_store)
  = Raise PyMongoError.
Proof.
  exact (f_equal fst
           (proj1 (create_cut_short demo_runtime demo_context (at_once 100)
                     (mkOrganizationCreate "Acme Corp" "a@x.com" "password123")
                     empty_store "$2b$password123" eq_refl eq_refl eq_refl))).
Defined.
